(** * yc-scheduler: executor, validator, scheduler, reloader and the
    last-fire computations of package [schedule], embedded in Rocq. *)

From Stdlib Require Import ZArith List String Ascii Bool Lia.
From Stdlib Require Import Sorting.Permutation Sorting.Sorted Structures.OrdersEx.
Import ListNotations.
Local Open Scope string_scope.
Local Open Scope Z_scope.

(* ------------------------------------------------------------------ *)
(** ** Go's [time] package: proleptic Gregorian wall-clock arithmetic *)

(** Instants are nanoseconds on the wall clock of the configured
    location, counted from 1970-01-01T00:00.  The location is a zone
    without daylight-saving transitions, so wall-clock arithmetic is
    exact. *)
Definition Time := Z.

Definition sec_ns : Z := 1000000000.
Definition day_ns : Z := 86400 * sec_ns.

(** Leap years and month lengths of the Gregorian calendar. *)
Definition is_leap (y : Z) : bool :=
  (y mod 4 =? 0) && (negb (y mod 100 =? 0) || (y mod 400 =? 0)).

Definition month_len (leap : bool) (m : Z) : Z :=
  if m =? 2 then (if leap then 29 else 28)
  else if (m =? 4) || (m =? 6) || (m =? 9) || (m =? 11) then 30
  else 31.

Definition days_in_month (y m : Z) : Z := month_len (is_leap y) m.

(** Day numbers of civil dates: 400-year eras of 146097 days, each
    split into years that start on March 1 ("year of era" [yoe], "day
    of year" [doy]).  The conversion is linear in the day [d], so it
    also gives Go's overflow of the day field. *)
Definition year_start (yoe : Z) : Z := yoe * 365 + yoe / 4 - yoe / 100.

Definition doy_of (m d : Z) : Z := (153 * ((m + 9) mod 12) + 2) / 5 + d - 1.

Definition doe_of (yoe m d : Z) : Z := year_start yoe + doy_of m d.

Definition days_from_civil (y m d : Z) : Z :=
  let y' := if m <=? 2 then y - 1 else y in
  let era := y' / 400 in
  let yoe := y' - era * 400 in
  era * 146097 + doe_of yoe m d - 719468.

Definition yoe_of_doe (doe : Z) : Z :=
  (doe - doe / 1460 + doe / 36524 - doe / 146096) / 365.

Definition md_of_doy (doy : Z) : Z * Z :=
  let mp := (5 * doy + 2) / 153 in
  (if mp <? 10 then mp + 3 else mp - 9, doy - (153 * mp + 2) / 5 + 1).

(** Civil date of a day of a 400-year era (the year is era-relative). *)
Definition civil_of_doe (doe : Z) : Z * Z * Z :=
  let yoe := yoe_of_doe doe in
  let '(m, d) := md_of_doy (doe - year_start yoe) in
  (yoe + (if m <=? 2 then 1 else 0), m, d).

Definition civil_from_days (z : Z) : Z * Z * Z :=
  let z' := z + 719468 in
  let era := z' / 146097 in
  let doe := z' - era * 146097 in
  let '(y, m, d) := civil_of_doe doe in
  (y + era * 400, m, d).

(** [t.Date()], [t.Clock()], [t.Nanosecond()], [t.Weekday()]. *)
Definition day_number (t : Time) : Z := t / day_ns.

Definition Date_of (t : Time) : Z * Z * Z := civil_from_days (day_number t).
Definition Year (t : Time) : Z := fst (fst (Date_of t)).
Definition Month (t : Time) : Z := snd (fst (Date_of t)).
Definition Day (t : Time) : Z := snd (Date_of t).

Definition Clock (t : Time) : Z * Z * Z :=
  let r := (t mod day_ns) / sec_ns in
  (r / 3600, (r / 60) mod 60, r mod 60).

Definition Nanosecond (t : Time) : Z := t mod sec_ns.

(** Sunday = 0; 1970-01-01 was a Thursday. *)
Definition Weekday (t : Time) : Z := (day_number t + 4) mod 7.

(** [time.Date(year, month, day, hour, min, sec, nsec, loc)]: the month
    is normalised into 1..12 first, every other field overflows
    linearly (day 0 is the last day of the previous month, February 31
    is in March). *)
Definition go_Date (year month day hour min sec nsec : Z) : Time :=
  let m0 := month - 1 in
  let y := year + m0 / 12 in
  let m := m0 mod 12 + 1 in
  (days_from_civil y m 1 + (day - 1)) * day_ns
  + ((hour * 60 + min) * 60 + sec) * sec_ns + nsec.

(** [t.AddDate(years, months, days)]. *)
Definition AddDate (t : Time) (years months days : Z) : Time :=
  let '(y, m, d) := Date_of t in
  let '(hh, mi, ss) := Clock t in
  go_Date (y + years) (m + months) (d + days) hh mi ss (Nanosecond t).

(** [t.After(u)], [t.Equal(u)]. *)
Definition After (t u : Time) : bool := u <? t.
Definition Equal (t u : Time) : bool := t =? u.

(** The zero [time.Time] (0001-01-01T00:00) and [IsZero]. *)
Definition zero_time : Time := go_Date 1 1 1 0 0 0 0.
Definition IsZero (t : Time) : bool := t =? zero_time.

(* ------------------------------------------------------------------ *)
(** Finite checks over one era, used by the calendar lemmas. *)

Fixpoint check_from (n : nat) (k : Z) (f : Z -> bool) : bool :=
  match n with
  | O => true
  | S n' => f k && check_from n' (k + 1) f
  end.

Definition year_len (yoe : Z) : Z := if is_leap (yoe + 1) then 366 else 365.

(** Each March-based year of an era starts where the previous ends, and
    [yoe_of_doe] maps its first and last day back to it. *)
Definition year_ok (yoe : Z) : bool :=
  (yoe_of_doe (year_start yoe) =? yoe)
  && (yoe_of_doe (year_start yoe + year_len yoe - 1) =? yoe)
  && (if yoe <? 399 then year_start (yoe + 1) =? year_start yoe + year_len yoe
      else year_start yoe + year_len yoe =? 146097).

Definition doy_ok (doy : Z) : bool :=
  let '(m, d) := md_of_doy doy in
  (1 <=? m) && (m <=? 12) && (1 <=? d) && (doy_of m d =? doy)
  && (d <=? month_len true m)
  && ((365 <=? doy) || (d <=? month_len false m)).

Definition md_ok (leap : bool) (k : Z) : bool :=
  let m := k / 31 + 1 in
  let d := k mod 31 + 1 in
  if d <=? month_len leap m then
    let doy := doy_of m d in
    (0 <=? doy) && (doy <? if leap then 366 else 365)
    && (let '(m', d') := md_of_doy doy in (m' =? m) && (d' =? d))
  else true.

(* ------------------------------------------------------------------ *)
(** ** Errors *)

(** A Go [(T, error)] pair: either a value or an error message. *)
Inductive Result (A : Type) : Type :=
| Ok (v : A)
| Err (e : string).
Arguments Ok {A} v.
Arguments Err {A} e.

(* ------------------------------------------------------------------ *)
(** ** [fmt.Sscanf(timeStr, "%d:%d:%d", ...)] *)

(** Go's [SkipSpace] before a [%d] (spaces, tabs and carriage returns;
    a newline stops [Sscanf]). *)
Fixpoint skip_space (s : list Ascii.ascii) : list Ascii.ascii :=
  match s with
  | c :: rest =>
      if Ascii.eqb c " "%char || Ascii.eqb c (Ascii.ascii_of_nat 9)
         || Ascii.eqb c (Ascii.ascii_of_nat 13)
      then skip_space rest else s
  | [] => []
  end.

Definition digit_val (c : Ascii.ascii) : option Z :=
  let n := Z.of_nat (Ascii.nat_of_ascii c) in
  if (48 <=? n) && (n <=? 57) then Some (n - 48) else None.

(** The longest run of decimal digits: its value, its length, the rest. *)
Fixpoint scan_digits (s : list Ascii.ascii) (acc : Z) (len : nat)
  : Z * nat * list Ascii.ascii :=
  match s with
  | c :: rest =>
      match digit_val c with
      | Some v => scan_digits rest (acc * 10 + v) (S len)
      | None => (acc, len, s)
      end
  | [] => (acc, len, [])
  end.

(** [%d]: optional sign, at least one digit, the value must fit int64
    ([strconv.ParseInt(tok, 10, 64)]). *)
Definition scan_int (s : list Ascii.ascii) : option (Z * list Ascii.ascii) :=
  let s := skip_space s in
  let '(sign, s) :=
    match s with
    | c :: rest =>
        if Ascii.eqb c "-"%char then (-1, rest)
        else if Ascii.eqb c "+"%char then (1, rest) else (1, s)
    | [] => (1, s)
    end in
  let '(v, len, rest) := scan_digits s 0 0 in
  if Nat.eqb len 0 then None
  else let v := sign * v in
       if (- 2 ^ 63 <=? v) && (v <? 2 ^ 63) then Some (v, rest) else None.

(** A literal character of the format must be the next input character. *)
Definition scan_lit (c : Ascii.ascii) (s : list Ascii.ascii) : option (list Ascii.ascii) :=
  match s with
  | c' :: rest => if Ascii.eqb c c' then Some rest else None
  | [] => None
  end.

(** [:%d]: a colon, then an integer. *)
Definition scan_sep_int (s : list Ascii.ascii) : option (Z * list Ascii.ascii) :=
  match scan_lit ":" s with
  | Some s => scan_int s
  | None => None
  end.

(** [n, err := fmt.Sscanf(timeStr, "%d:%d:%d", &parts[0], &parts[1], &parts[2])]:
    the number of items stored, the three parts (zero when not stored)
    and whether an error was reported. *)
Definition sscanf_hms (str : string) : nat * (Z * Z * Z) * bool :=
  let s := list_ascii_of_string str in
  match scan_int s with
  | None => (0%nat, (0, 0, 0), true)
  | Some (a, s) =>
      match scan_sep_int s with
      | None => (1%nat, (a, 0, 0), true)
      | Some (b, s) =>
          match scan_sep_int s with
          | None => (2%nat, (a, b, 0), true)
          | Some (c, _) => (3%nat, (a, b, c), false)
          end
      end
  end.

(** [parseTimeString]. *)
Definition parseTimeString (timeStr : string) : Result (Z * Z * Z) :=
  let '(n, (p0, p1, p2), err) := sscanf_hms timeStr in
  if err && Nat.ltb n 2 then Err "invalid time format"
  else
    let hour := p0 in
    let minute := p1 in
    let second := if Nat.leb 3 n then p2 else 0 in
    if (hour <? 0) || (hour >? 23) || (minute <? 0) || (minute >? 59)
       || (second <? 0) || (second >? 59)
    then Err "time out of range"
    else Ok (hour, minute, second).

(* ------------------------------------------------------------------ *)
(** ** Package [schedule]: last execution before [now] *)

(** [GetLastDailyTime] (the location is the one of [now]). *)
Definition GetLastDailyTime (timeStr : string) (now : Time) : Result Time :=
  match parseTimeString timeStr with
  | Err e => Err e
  | Ok (hour, minute, second) =>
      let '(y, m, d) := Date_of now in
      let today := go_Date y m d hour minute second 0 in
      let today := if After today now || Equal today now
                   then AddDate today 0 0 (-1) else today in
      Ok today
  end.

(** The [switch dayOfWeek] of [GetLastWeeklyTime]: [time.Sunday] = 0 ...
    [time.Saturday] = 6. *)
Definition weekday_of_int (dayOfWeek : Z) : option Z :=
  if (0 <=? dayOfWeek) && (dayOfWeek <=? 6) then Some dayOfWeek else None.

(** [GetLastWeeklyTime]. *)
Definition GetLastWeeklyTime (timeStr : string) (dayOfWeek : Z) (now : Time) : Result Time :=
  match parseTimeString timeStr with
  | Err e => Err e
  | Ok (hour, minute, second) =>
      match weekday_of_int dayOfWeek with
      | None => Err "invalid day of week"
      | Some targetWeekday =>
          let currentWeekday := Weekday now in
          let daysBack := currentWeekday - targetWeekday in
          let daysBack := if daysBack <? 0 then daysBack + 7 else daysBack in
          let daysBack :=
            if daysBack =? 0 then
              let '(y, m, d) := Date_of now in
              let today := go_Date y m d hour minute second 0 in
              if After today now then 7 else daysBack
            else daysBack in
          let targetDate := AddDate now 0 0 (- daysBack) in
          let '(y, m, d) := Date_of targetDate in
          Ok (go_Date y m d hour minute second 0)
      end
  end.

(** The block of [GetLastMonthlyTime] that moves to the previous month
    (it appears twice in the source). *)
Definition monthly_previous (dayOfMonth hour minute second : Z) (now : Time) : Time :=
  let lastMonth := AddDate now 0 (-1) 0 in
  let '(ly, lm, _) := Date_of lastMonth in
  let lastDay := go_Date ly (lm + 1) 0 hour minute second 0 in
  if dayOfMonth >? Day lastDay then lastDay
  else go_Date ly lm dayOfMonth hour minute second 0.

(** [GetLastMonthlyTime]. *)
Definition GetLastMonthlyTime (timeStr : string) (dayOfMonth : Z) (now : Time) : Result Time :=
  match parseTimeString timeStr with
  | Err e => Err e
  | Ok (hour, minute, second) =>
      let thisMonth := go_Date (Year now) (Month now) dayOfMonth hour minute second 0 in
      let thisMonth :=
        if negb (Month thisMonth =? Month now)
        then monthly_previous dayOfMonth hour minute second now else thisMonth in
      let thisMonth :=
        if After thisMonth now
        then monthly_previous dayOfMonth hour minute second now else thisMonth in
      Ok thisMonth
  end.

(** A parsed [cron.Schedule] of robfig/cron: its [Next] method. *)
Record CronSchedule := { Next : Time -> Time }.

(** The loop of [GetLastCronTime]: [fuel] iterations remain. *)
Fixpoint cron_walk (sched : CronSchedule) (now : Time) (fuel : nat)
    (lastTime prevTime : Time) : Result Time :=
  match fuel with
  | O => if negb (IsZero prevTime) then Ok prevTime
         else Err "failed to find last cron execution time"
  | S fuel' =>
      if After lastTime now || Equal lastTime now then
        if IsZero prevTime then Err "no cron execution found before now"
        else Ok prevTime
      else cron_walk sched now fuel' (Next sched lastTime) lastTime
  end.

Definition maxIterations : nat := 10000.

(** [GetLastCronTime] after parsing: walk forward from one year ago. *)
Definition last_cron_time (sched : CronSchedule) (now : Time) : Result Time :=
  let startTime := AddDate now (-1) 0 0 in
  let lastTime := Next sched startTime in
  cron_walk sched now maxIterations lastTime zero_time.

Section Cron.
(** robfig/cron's parsers with and without the seconds field. *)
Variable parse_with_seconds parse_standard : string -> option CronSchedule.

(** [GetLastCronTime]. *)
Definition GetLastCronTime (crontab : string) (now : Time) : Result Time :=
  match parse_with_seconds crontab with
  | Some sched => last_cron_time sched now
  | None =>
      match parse_standard crontab with
      | Some sched => last_cron_time sched now
      | None => Err "invalid cron expression"
      end
  end.
End Cron.

(* ------------------------------------------------------------------ *)
(** ** Package [config] *)

Record Resource := mkResource {
  res_Type : string;
  res_ID : string;
  res_FolderID : string }.

Record ActionConfig := mkActionConfig {
  ac_Enabled : bool;
  ac_Time : string;
  ac_Crontab : string;
  ac_Day : Z }.

(** [Actions]: the [*ActionConfig] pointers are options. *)
Record Actions := mkActions {
  act_Start : option ActionConfig;
  act_Stop : option ActionConfig }.

Record Schedule := mkSchedule {
  sch_Name : string;
  sch_Type : string;
  sch_Resource : Resource;
  sch_Actions : Actions }.

(** [sch.Actions.X != nil && sch.Actions.X.Enabled] *)
Definition enabled (a : option ActionConfig) : bool :=
  match a with Some ac => ac_Enabled ac | None => false end.

(* ------------------------------------------------------------------ *)
(** ** Package [resource]: [YCStateChecker.GetState] *)

(** [computepb.Instance_Status] and [k8spb.Cluster_Status], with the
    names their [String()] methods print. *)
Inductive InstanceStatus :=
| Instance_STATUS_UNSPECIFIED | Instance_PROVISIONING | Instance_RUNNING
| Instance_STOPPING | Instance_STOPPED | Instance_STARTING | Instance_RESTARTING
| Instance_UPDATING | Instance_ERROR | Instance_CRASHED | Instance_DELETING.

Definition instance_status_string (st : InstanceStatus) : string :=
  match st with
  | Instance_STATUS_UNSPECIFIED => "STATUS_UNSPECIFIED"
  | Instance_PROVISIONING => "PROVISIONING"
  | Instance_RUNNING => "RUNNING"
  | Instance_STOPPING => "STOPPING"
  | Instance_STOPPED => "STOPPED"
  | Instance_STARTING => "STARTING"
  | Instance_RESTARTING => "RESTARTING"
  | Instance_UPDATING => "UPDATING"
  | Instance_ERROR => "ERROR"
  | Instance_CRASHED => "CRASHED"
  | Instance_DELETING => "DELETING"
  end.

Inductive ClusterStatus :=
| Cluster_STATUS_UNSPECIFIED | Cluster_PROVISIONING | Cluster_RUNNING
| Cluster_RECONCILING | Cluster_STOPPING | Cluster_STOPPED | Cluster_DELETING
| Cluster_STARTING.

Definition cluster_status_string (st : ClusterStatus) : string :=
  match st with
  | Cluster_STATUS_UNSPECIFIED => "STATUS_UNSPECIFIED"
  | Cluster_PROVISIONING => "PROVISIONING"
  | Cluster_RUNNING => "RUNNING"
  | Cluster_RECONCILING => "RECONCILING"
  | Cluster_STOPPING => "STOPPING"
  | Cluster_STOPPED => "STOPPED"
  | Cluster_DELETING => "DELETING"
  | Cluster_STARTING => "STARTING"
  end.

(** What a state query returns: [(state, isTransitional)] or an error. *)
Definition StateResult := Result (string * bool).

(** The Yandex Cloud client calls the checker makes. *)
Record YCClient := mkYCClient {
  GetInstance : Resource -> Result InstanceStatus;
  GetCluster : Resource -> Result ClusterStatus }.

Definition getVMState (c : YCClient) (r : Resource) : StateResult :=
  match GetInstance c r with
  | Err e => Err e
  | Ok Instance_RUNNING => Ok ("running", false)
  | Ok Instance_STOPPED => Ok ("stopped", false)
  | Ok status => Ok (instance_status_string status, true)
  end.

Definition getClusterState (c : YCClient) (r : Resource) : StateResult :=
  match GetCluster c r with
  | Err e => Err e
  | Ok Cluster_RUNNING => Ok ("running", false)
  | Ok Cluster_STOPPED => Ok ("stopped", false)
  | Ok status => Ok (cluster_status_string status, true)
  end.

(** [YCStateChecker.GetState]. *)
Definition GetState (c : YCClient) (r : Resource) : StateResult :=
  if String.eqb (res_Type r) "vm" then getVMState c r
  else if String.eqb (res_Type r) "k8s_cluster" then getClusterState c r
  else Ok (""%string, false).

(* ------------------------------------------------------------------ *)
(** ** Package [executor]: the closure built by [Make] *)

(** The operator call the closure makes. *)
Inductive OpCall := OpStart | OpStop.

(** The outcome recorded through [IncOperation] / [IncSchedulerSkip]. *)
Inductive Outcome :=
| Out_dry_run
| Out_error
| Out_skipped_transitional
| Out_skipped_already_in_state
| Out_success.

(** Where the closure stands after its checks: it either finished with
    an outcome or is about to call the operator. *)
Inductive Entry :=
| Enter_done (o : Outcome)
| Enter_call (op : OpCall).

(** The closure body up to the operator call; [state] is what
    [stateChecker.GetState] answers when the closure asks. *)
Definition make_enter (dryRun : bool) (action : string) (state : StateResult) : Entry :=
  if dryRun then Enter_done Out_dry_run
  else if negb (String.eqb action "start" || String.eqb action "stop")
  then Enter_done Out_error
  else
    let proceed :=
      if String.eqb action "start" then Enter_call OpStart
      else if String.eqb action "stop" then Enter_call OpStop
      else Enter_done Out_error in
    match state with
    | Err _ => proceed
    | Ok (currentState, isTransitional) =>
        if isTransitional then Enter_done Out_skipped_transitional
        else if (String.eqb action "start" && String.eqb currentState "running")
                || (String.eqb action "stop" && String.eqb currentState "stopped")
        then Enter_done Out_skipped_already_in_state
        else proceed
    end.

(** The closure body after the operator returns ([opErr]: it failed). *)
Definition make_leave (opErr : bool) : Outcome :=
  if opErr then Out_error else Out_success.

(** An operator: [Start] / [Stop] on a resource, [true] when it fails. *)
Definition Operator := OpCall -> Resource -> bool.

(** One sequential run of the closure [Make(stateChecker, operator, sch,
    action, dryRun, m)]: the outcome and the operator calls made. *)
Definition Make (stateChecker : Resource -> StateResult) (operator : Operator)
    (sch : Schedule) (action : string) (dryRun : bool) : Outcome * list OpCall :=
  let resource := sch_Resource sch in
  match make_enter dryRun action (stateChecker resource) with
  | Enter_done o => (o, [])
  | Enter_call op => (make_leave (operator op resource), [op])
  end.

(** Concurrent invocations of one closure: each invocation is a thread
    that first runs [make_enter] atomically and, if it calls the
    operator, stays in flight until the operator returns. *)
Inductive Phase :=
| Ph_Ready
| Ph_InFlight (op : OpCall)
| Ph_Done (o : Outcome).

Record World := mkWorld {
  w_calls : list OpCall;   (** operator calls made so far *)
  w_threads : list Phase }.

Fixpoint set_nth {A} (l : list A) (i : nat) (x : A) : list A :=
  match l, i with
  | [], _ => []
  | _ :: tl, O => x :: tl
  | y :: tl, S i' => y :: set_nth tl i' x
  end.

Section Concurrent.
Variable state : StateResult.   (** the live state the checker reports *)
Variable dryRun : bool.
Variable action : string.

Inductive make_step : World -> World -> Prop :=
| step_enter w i :
    nth_error (w_threads w) i = Some Ph_Ready ->
    make_step w
      (match make_enter dryRun action state with
       | Enter_done o => mkWorld (w_calls w) (set_nth (w_threads w) i (Ph_Done o))
       | Enter_call op => mkWorld (w_calls w ++ [op])%list (set_nth (w_threads w) i (Ph_InFlight op))
       end)
| step_leave w i op opErr :
    nth_error (w_threads w) i = Some (Ph_InFlight op) ->
    make_step w (mkWorld (w_calls w) (set_nth (w_threads w) i (Ph_Done (make_leave opErr)))).

Inductive make_steps : World -> World -> Prop :=
| steps_refl w : make_steps w w
| steps_cons w1 w2 w3 : make_step w1 w2 -> make_steps w2 w3 -> make_steps w1 w3.
End Concurrent.

(* ------------------------------------------------------------------ *)
(** ** Package [validator] *)

Section Validator.
(** robfig/cron's parsers, as in [GetLastCronTime]. *)
Variable parse_with_seconds parse_standard : string -> option CronSchedule.

(** [getLastExecutionTime]; [now] is already in the configured location. *)
Definition getLastExecutionTime (sch : Schedule) (action : ActionConfig) (now : Time) : Result Time :=
  let t := sch_Type sch in
  if String.eqb t "daily" then
    if String.eqb (ac_Time action) "" then Err "daily schedule missing time"
    else GetLastDailyTime (ac_Time action) now
  else if String.eqb t "weekly" then
    if String.eqb (ac_Time action) "" then Err "weekly schedule missing time"
    else if (ac_Day action <? 0) || (ac_Day action >? 6) then Err "weekly schedule invalid day"
    else GetLastWeeklyTime (ac_Time action) (ac_Day action) now
  else if String.eqb t "monthly" then
    if String.eqb (ac_Time action) "" then Err "monthly schedule missing time"
    else if (ac_Day action <? 1) || (ac_Day action >? 31) then Err "monthly schedule invalid day"
    else GetLastMonthlyTime (ac_Time action) (ac_Day action) now
  else if String.eqb t "cron" then
    if String.eqb (ac_Crontab action) "" then Err "cron schedule missing crontab"
    else GetLastCronTime parse_with_seconds parse_standard (ac_Crontab action) now
  else Err "unknown schedule type".

(** [determineExpectedState]: (expectedState, correctiveAction). *)
Definition determineExpectedState (sch : Schedule) (now : Time) : string * string :=
  let acts := sch_Actions sch in
  let hasStart := enabled (act_Start acts) in
  let hasStop := enabled (act_Stop acts) in
  if hasStart && negb hasStop then ("running", "start")
  else if hasStop && negb hasStart then ("stopped", "stop")
  else
    match act_Start acts, act_Stop acts with
    | Some start, Some stop =>
        if hasStart && hasStop then
          match getLastExecutionTime sch start now with
          | Err _ => ("running", "start")
          | Ok lastStartTime =>
              match getLastExecutionTime sch stop now with
              | Err _ => ("stopped", "stop")
              | Ok lastStopTime =>
                  if After lastStartTime lastStopTime then ("running", "start")
                  else ("stopped", "stop")
              end
          end
        else ("", "")
    | _, _ => ("", "")
    end.

(** A corrective job submitted through [AddOneTimeJob]: its name, the
    schedule and the action of the [executor.Make] closure it wraps. *)
Record Submission := mkSubmission {
  sub_name : string;
  sub_schedule : Schedule;
  sub_action : string }.

(** One iteration of the loop of [runOnce]; [getState] is the state
    checker at this tick. *)
Definition check_schedule (getState : Resource -> StateResult) (now : Time) (sch : Schedule)
  : list Submission :=
  match getState (sch_Resource sch) with
  | Err _ => []
  | Ok (actualState, isTransitional) =>
      if isTransitional then []
      else
        let '(expectedState, expectedAction) := determineExpectedState sch now in
        if String.eqb expectedAction "" then []
        else if negb (String.eqb actualState expectedState) then
          [mkSubmission (sch_Name sch ++ ":validator:" ++ expectedAction) sch expectedAction]
        else []
  end.

(** [runOnce]: the corrective jobs submitted in one tick, in order. *)
Fixpoint runOnce (getState : Resource -> StateResult) (now : Time) (schedules : list Schedule)
  : list Submission :=
  match schedules with
  | [] => []
  | sch :: rest => (check_schedule getState now sch ++ runOnce getState now rest)%list
  end.
End Validator.

(* ------------------------------------------------------------------ *)
(** ** Package [scheduler] *)

(** The gocron job definitions built by the code. *)
Inductive JobDefinition :=
| CronJob (crontab : string) (withSeconds : bool)
| DailyJob (interval : Z) (at_ : Z * Z * Z)
| WeeklyJob (interval : Z) (weekday : Z) (at_ : Z * Z * Z)
| MonthlyJob (interval : Z) (day : Z) (at_ : Z * Z * Z)
| OneTimeJobStartImmediately.

(** A job's task: an [executor.Make] closure, or any other function. *)
Inductive Task :=
| Task_Make (sch : Schedule) (action : string) (dryRun : bool)
| Task_Func (label : string).

Record Job := mkJob {
  job_Name : string;
  job_Tags : list string;
  job_Def : JobDefinition;
  job_Task : Task }.

(** [Scheduler]: the gocron scheduler [s.s] and its job set ([None]: not
    initialised). *)
Record Scheduler := mkScheduler { sched_jobs : option (list Job) }.

Definition managedScheduleTag : string := "managed_schedule".

(** [schedule.ParseTime]. *)
Definition ParseTime (t : string) : Result (Z * Z * Z) :=
  if String.eqb t "" then Err "empty time"
  else match parseTimeString t with
       | Err e => Err e
       | Ok (hour, minute, second) =>
           if (hour <? 0) || (hour >? 23) || (minute <? 0) || (minute >? 59)
              || (second <? 0) || (second >? 59)
           then Err "time out of range" else Ok (hour, minute, second)
       end.

(** [schedule.ParseWeekday] and [schedule.ParseDayOfMonth]. *)
Definition ParseWeekday (day : Z) : Result Z :=
  if (0 <=? day) && (day <=? 6) then Ok day else Err "invalid weekday".

Definition ParseDayOfMonth (day : Z) : Result Z :=
  if (day <? 1) || (day >? 31) then Err "invalid day of month" else Ok day.

(** [ScheduleToJobDefinition]. *)
Definition ScheduleToJobDefinition (sch : Schedule) (action : ActionConfig) : Result JobDefinition :=
  let t := sch_Type sch in
  if String.eqb t "cron" then
    if String.eqb (ac_Crontab action) "" then Err "cron schedule missing crontab in action"
    else Ok (CronJob (ac_Crontab action) false)
  else if String.eqb t "daily" then
    if String.eqb (ac_Time action) "" then Err "daily schedule missing time in action"
    else match ParseTime (ac_Time action) with
         | Err e => Err e
         | Ok at_ => Ok (DailyJob 1 at_)
         end
  else if String.eqb t "weekly" then
    if String.eqb (ac_Time action) "" then Err "weekly schedule missing time in action"
    else if (ac_Day action <? 0) || (ac_Day action >? 6) then Err "weekly schedule invalid day"
    else match ParseTime (ac_Time action) with
         | Err e => Err e
         | Ok at_ =>
             match ParseWeekday (ac_Day action) with
             | Err e => Err e
             | Ok wd => Ok (WeeklyJob 1 wd at_)
             end
         end
  else if String.eqb t "monthly" then
    if String.eqb (ac_Time action) "" then Err "monthly schedule missing time in action"
    else if (ac_Day action <? 1) || (ac_Day action >? 31) then Err "monthly schedule invalid day"
    else match ParseTime (ac_Time action) with
         | Err e => Err e
         | Ok at_ =>
             match ParseDayOfMonth (ac_Day action) with
             | Err e => Err e
             | Ok day => Ok (MonthlyJob 1 day at_)
             end
         end
  else Err "unknown schedule type".

Section Engine.
(** Whether gocron's [NewJob] accepts a definition (it parses cron
    expressions and checks the other definitions when the job is added). *)
Variable definition_ok : JobDefinition -> bool.

(** gocron [NewJob]: append the job, or fail and leave the set as is. *)
Definition NewJob (jobs : list Job) (def : JobDefinition) (task : Task) (name : string)
    (tags : list string) : Result (list Job) :=
  if definition_ok def then Ok (jobs ++ [mkJob name tags def task])%list
  else Err "add job".

(** gocron [RemoveByTags]: drop every job carrying the tag. *)
Definition has_tag (tag : string) (j : Job) : bool :=
  existsb (String.eqb tag) (job_Tags j).

Definition RemoveByTags (tag : string) (jobs : list Job) : list Job :=
  filter (fun j => negb (has_tag tag j)) jobs.

(** [addJobUnlocked]: the job set after the call and the error. *)
Definition addJobUnlocked (jobs : list Job) (def : JobDefinition) (name : string) (task : Task)
  : list Job * Result unit :=
  match NewJob jobs def task name [managedScheduleTag] with
  | Ok jobs' => (jobs', Ok tt)
  | Err e => (jobs, Err e)
  end.

(** One action of [registerScheduleUnlocked]. *)
Definition register_action (jobs : list Job) (sch : Schedule) (a : option ActionConfig)
    (action : string) (dryRun : bool) : list Job * Result unit :=
  match a with
  | Some ac =>
      if ac_Enabled ac then
        match ScheduleToJobDefinition sch ac with
        | Err e => (jobs, Err e)
        | Ok def => addJobUnlocked jobs def (sch_Name sch ++ ":" ++ action)
                      (Task_Make sch action dryRun)
        end
      else (jobs, Ok tt)
  | None => (jobs, Ok tt)
  end.

(** [registerScheduleUnlocked]. *)
Definition registerScheduleUnlocked (jobs : list Job) (sch : Schedule) (dryRun : bool)
  : list Job * Result unit :=
  match register_action jobs sch (act_Start (sch_Actions sch)) "start" dryRun with
  | (jobs', Err e) => (jobs', Err e)
  | (jobs', Ok _) => register_action jobs' sch (act_Stop (sch_Actions sch)) "stop" dryRun
  end.

(** The [for _, sch := range schedules] loop, stopping at the first error. *)
Fixpoint register_all (jobs : list Job) (schedules : list Schedule) (dryRun : bool)
  : list Job * Result unit :=
  match schedules with
  | [] => (jobs, Ok tt)
  | sch :: rest =>
      match registerScheduleUnlocked jobs sch dryRun with
      | (jobs', Err e) => (jobs', Err e)
      | (jobs', Ok _) => register_all jobs' rest dryRun
      end
  end.

(** [ReplaceSchedules]: the scheduler after the call and the error. *)
Definition ReplaceSchedules (s : Scheduler) (schedules : list Schedule) (dryRun : bool)
  : Scheduler * Result unit :=
  match sched_jobs s with
  | None => (s, Err "scheduler: not initialized")
  | Some jobs =>
      let jobs := RemoveByTags managedScheduleTag jobs in
      let '(jobs, r) := register_all jobs schedules dryRun in
      (mkScheduler (Some jobs), r)
  end.

(** [RegisterSchedules]. *)
Definition RegisterSchedules (s : Scheduler) (schedules : list Schedule) (dryRun : bool)
  : Scheduler * Result unit :=
  match sched_jobs s with
  | None => (s, Err "scheduler: not initialized")
  | Some jobs => let '(jobs, r) := register_all jobs schedules dryRun in
                 (mkScheduler (Some jobs), r)
  end.

(** [AddOneTimeJob]: an untagged job that runs once, immediately. *)
Definition AddOneTimeJob (s : Scheduler) (name : string) (task : Task) : Scheduler * Result unit :=
  match sched_jobs s with
  | None => (s, Err "scheduler: not initialized")
  | Some jobs =>
      match NewJob jobs OneTimeJobStartImmediately task name [] with
      | Ok jobs' => (mkScheduler (Some jobs'), Ok tt)
      | Err e => (s, Err e)
      end
  end.
End Engine.

(* ------------------------------------------------------------------ *)
(** ** Package [reloader] *)

(** A schedules-directory signature (the SHA-256 digest as a number). *)
Definition Signature := Z.

Record Reloader := mkReloader {
  lastSig : Signature;
  hasLastSig : bool }.

(** [tick]: [sig] is what [calcDirSignature] returns and [onChange] what
    the reload callback returns if it is called.  The new reloader
    state and whether the callback was called. *)
Definition tick (r : Reloader) (sig : Result Signature) (onChange : Result unit)
  : Reloader * bool :=
  match sig with
  | Err _ => (r, false)
  | Ok sig =>
      if hasLastSig r && (sig =? lastSig r) then (r, false)
      else
        let _ := match onChange with
                 | Err _ => "Schedules reload failed, keeping previous schedule set"
                 | Ok _ => "Schedules reload applied"
                 end in
        (mkReloader sig true, true)
  end.

(* ------------------------------------------------------------------ *)
(** ** Firing instants of the triggers *)

(** The offset in the day of the time [hh:mm:ss]. *)
Definition at_offset (h mi s : Z) : Z := ((h * 60 + mi) * 60 + s) * sec_ns.

(** The instants at which gocron runs a daily, weekly or monthly job at
    [hh:mm:ss] in the configured location. *)
Definition daily_fire (h mi s : Z) (u : Time) : Prop :=
  u mod day_ns = at_offset h mi s.

Definition weekly_fire (dow h mi s : Z) (u : Time) : Prop :=
  Weekday u = dow /\ u mod day_ns = at_offset h mi s.

Definition monthly_fire (dom h mi s : Z) (u : Time) : Prop :=
  Day u = dom /\ u mod day_ns = at_offset h mi s.

(** [t] is a firing instant before [now] with none strictly between. *)
Definition last_fire_before (fire : Time -> Prop) (now t : Time) : Prop :=
  t < now /\ fire t /\ forall u, t < u < now -> ~ fire u.

(** The contract of robfig/cron's [Schedule.Next] for the firing
    instants [fire] of an expression: the zero time when it finds no
    activation, else the first activation strictly after [t]. *)
Definition cron_contract (sched : CronSchedule) (fire : Time -> Prop) : Prop :=
  forall t, Next sched t = zero_time
            \/ (t < Next sched t /\ fire (Next sched t)
                /\ forall u, t < u < Next sched t -> ~ fire u).

(** [Next] iterated [k] times. *)
Definition cron_iter (sched : CronSchedule) (k : nat) (t : Time) : Time :=
  Nat.iter k (Next sched) t.

(** The parsed expressions ["* * * * * *"] (every second) and
    ["0 0 0 * * *"] (every midnight): [Next] truncates to the unit and
    adds one. *)
Definition second_fire (u : Time) : Prop := u mod sec_ns = 0.
Definition midnight_fire (u : Time) : Prop := u mod day_ns = 0.
Definition every_second : CronSchedule := {| Next := fun t => (t / sec_ns + 1) * sec_ns |}.
Definition every_midnight : CronSchedule := {| Next := fun t => (t / day_ns + 1) * day_ns |}.
(** [@yearly]: midnight of the next 1 January. *)
Definition every_new_year : CronSchedule := {| Next := fun t => go_Date (Year t + 1) 1 1 0 0 0 0 |}.

(** A daily schedule that starts its resource at 09:00 and stops it at 18:00. *)
Definition office_hours (res : Resource) : Schedule :=
  mkSchedule "office-hours" "daily" res
    (mkActions (Some (mkActionConfig true "09:00" "" 0)) (Some (mkActionConfig true "18:00" "" 0))).

(** The job set of the engine in the scenario of the reload test: the
    schedule [old] registered with its start and stop, then the one-time
    job [validator:keep] added; [new] only stops its resource. *)
Definition example_old : Schedule :=
  mkSchedule "old" "daily" (mkResource "vm" "vm-1" "folder-1")
    (mkActions (Some (mkActionConfig true "09:00" "" 0)) (Some (mkActionConfig true "18:00" "" 0))).

Definition example_new : Schedule :=
  mkSchedule "new" "daily" (mkResource "vm" "vm-1" "folder-1")
    (mkActions None (Some (mkActionConfig true "19:00" "" 0))).

Definition example_engine : Scheduler :=
  fst (AddOneTimeJob (fun _ => true)
         (fst (RegisterSchedules (fun _ => true) (mkScheduler (Some [])) [example_old] false))
         "validator:keep" (Task_Func "keep")).

Definition jobs_of (s : Scheduler) : list Job :=
  match sched_jobs s with Some js => js | None => [] end.

(* ------------------------------------------------------------------ *)
(** ** Package [executor], first version: [Make] over the cloud client *)

(** [getCurrentState] of the first [executor.Make]. *)
Definition getCurrentState (c : YCClient) (resource : Resource) : StateResult :=
  if String.eqb (res_Type resource) "vm" then getVMState c resource
  else if String.eqb (res_Type resource) "k8s_cluster" then getClusterState c resource
  else Ok (""%string, false).

(** The closure of the first [executor.Make(client, sch, action, dryRun)]:
    the outcome and the operator calls made; the client's
    [StartInstance] / [StopInstance] / [StartCluster] / [StopCluster] are
    the [operator] (the resource type selects among them). *)
Definition Make_legacy (c : YCClient) (operator : Operator) (sch : Schedule) (action : string)
    (dryRun : bool) : Outcome * list OpCall :=
  let resource := sch_Resource sch in
  if dryRun then (Out_dry_run, [])
  else
    let resourceType := res_Type resource in
    if negb (String.eqb resourceType "vm" || String.eqb resourceType "k8s_cluster")
    then (Out_error, [])
    else
      let op := if String.eqb action "start" then Some OpStart
                else if String.eqb action "stop" then Some OpStop else None in
      match op with
      | None => (Out_error, [])
      | Some op =>
          let run := (make_leave (operator op resource), [op]) in
          match getCurrentState c resource with
          | Err _ => run
          | Ok (currentState, isTransitional) =>
              if isTransitional then (Out_skipped_transitional, [])
              else if (String.eqb action "start" && String.eqb currentState "running")
                      || (String.eqb action "stop" && String.eqb currentState "stopped")
              then (Out_skipped_already_in_state, [])
              else run
          end
      end.

(* ------------------------------------------------------------------ *)
(** ** Package [scheduler]: [parseTime] of helpers.go and [AddJob] *)

(** [scheduler.parseTime]: the [Sscanf] of [parseTimeString] inlined. *)
Definition parseTime_helper (value : string) : Result (Z * Z * Z) :=
  if String.eqb value "" then Err "empty time"
  else
    let '(n, (p0, p1, p2), err) := sscanf_hms value in
    if err && Nat.ltb n 2 then Err "invalid time format"
    else
      let hour := p0 in
      let minute := p1 in
      let second := if Nat.eqb n 3 then p2 else 0 in
      if (hour <? 0) || (hour >? 23) || (minute <? 0) || (minute >? 59)
         || (second <? 0) || (second >? 59)
      then Err "time out of range"
      else Ok (hour, minute, second).

(** [Scheduler.AddJob] (its [timezone] argument is ignored by the code). *)
Definition AddJob (definition_ok : JobDefinition -> bool) (s : Scheduler) (def : JobDefinition)
    (name : string) (task : Task) : Scheduler * Result unit :=
  match sched_jobs s with
  | None => (s, Err "scheduler: not initialized")
  | Some jobs =>
      let '(jobs', r) := addJobUnlocked definition_ok jobs def name task in
      (mkScheduler (Some jobs'), r)
  end.

(** The actions [registerScheduleUnlocked] registers for a schedule, in
    order, and the (name, task) pairs of the jobs registered for a list
    of schedules. *)
Definition enabled_actions (sch : Schedule) : list string :=
  ((if enabled (act_Start (sch_Actions sch)) then ["start"] else [])
   ++ (if enabled (act_Stop (sch_Actions sch)) then ["stop"] else []))%list.

Definition expected_jobs (schedules : list Schedule) (dryRun : bool) : list (string * Task) :=
  flat_map (fun sch => map (fun a => (sch_Name sch ++ ":" ++ a, Task_Make sch a dryRun))
                           (enabled_actions sch)) schedules.

Definition job_entry (j : Job) : string * Task := (job_Name j, job_Task j).

Definition is_make_task (j : Job) : Prop :=
  exists sch action dryRun, job_Task j = Task_Make sch action dryRun.

(* ------------------------------------------------------------------ *)
(** ** Rendering of times as [HH:MM] / [HH:MM:SS] *)

Definition digit_char (d : Z) : Ascii.ascii := Ascii.ascii_of_nat (48 + Z.to_nat d).

(** A number below 100 with two decimal digits ([%02d]). *)
Definition pad2 (v : Z) : string :=
  String (digit_char (v / 10)) (String (digit_char (v mod 10)) EmptyString).

Definition starts_without_digit (s : string) : Prop :=
  match s with String c _ => digit_val c = None | EmptyString => True end.

(* ------------------------------------------------------------------ *)
(** ** Package [reloader]: [calcDirSignature] *)

(** An entry of [os.ReadDir]. *)
Record DirEntry := mkDirEntry {
  de_Name : string;
  de_IsDir : bool }.

(** [filepath.Ext]: the suffix from the last ['.'] of the last path
    element, scanning from the end; [r] is the reversed path. *)
Fixpoint ext_scan (r : list Ascii.ascii) (suffix : string) : string :=
  match r with
  | [] => ""
  | c :: r' =>
      if Ascii.eqb c "/"%char then ""
      else if Ascii.eqb c "."%char then String c suffix
      else ext_scan r' (String c suffix)
  end.

Definition filepath_Ext (p : string) : string := ext_scan (rev (list_ascii_of_string p)) "".

(** [sort.Strings]: byte-wise order (any correct sort gives this list). *)
Fixpoint insert_sorted (x : string) (l : list string) : list string :=
  match l with
  | [] => [x]
  | y :: l' => if String.leb x y then x :: l else y :: insert_sorted x l'
  end.

Definition sort_Strings (l : list string) : list string := fold_right insert_sorted [] l.

Definition NUL : string := String (Ascii.ascii_of_nat 0) EmptyString.

Section DirSignature.
(** SHA-256, [filepath.Join] and [strings.ToLower]. *)
Variable sha256 : string -> Signature.
Variable filepath_Join : string -> string -> string.
Variable ToLower : string -> string.

(** The entries [calcDirSignature] keeps: files whose lower-cased
    extension is [.yaml] or [.yml]. *)
Definition is_schedule_entry (e : DirEntry) : bool :=
  negb (de_IsDir e)
  && (let ext := ToLower (filepath_Ext (de_Name e)) in
      String.eqb ext ".yaml" || String.eqb ext ".yml").

(** The bytes written to the hasher for the sorted names: name, NUL,
    contents, NUL for each file; the first failing [os.ReadFile] is the
    error (writes to a SHA-256 hasher never fail). *)
Fixpoint hash_files (readFile : string -> Result string) (path : string) (names : list string)
  : Result string :=
  match names with
  | [] => Ok ""
  | name :: rest =>
      match readFile (filepath_Join path name) with
      | Err e => Err e
      | Ok data =>
          match hash_files readFile path rest with
          | Err e => Err e
          | Ok tail => Ok (name ++ NUL ++ data ++ NUL ++ tail)
          end
      end
  end.

(** [calcDirSignature]; [readDir] and [readFile] are [os.ReadDir] and
    [os.ReadFile] on the current file system. *)
Definition calcDirSignature (readDir : string -> Result (list DirEntry))
    (readFile : string -> Result string) (path : string) : Result Signature :=
  match readDir path with
  | Err e => Err e
  | Ok entries =>
      let fileNames := sort_Strings (map de_Name (filter is_schedule_entry entries)) in
      match hash_files readFile path fileNames with
      | Err e => Err e
      | Ok stream => Ok (sha256 stream)
      end
  end.
End DirSignature.

Definition sle (x y : string) : Prop := String.leb x y = true.

(* ------------------------------------------------------------------ *)
(** ** Example inputs of the further properties *)

(** A daily schedule whose start time is out of range. *)
Definition example_bad : Schedule :=
  mkSchedule "bad" "daily" (mkResource "vm" "vm-2" "folder-1")
    (mkActions (Some (mkActionConfig true "25:00" "" 0)) None).

(** Two states of a schedules directory that differ only in entries
    [calcDirSignature] skips; [example_read] reads the files. *)
Definition example_dir_one : list DirEntry :=
  [mkDirEntry "night.yaml" false; mkDirEntry "notes.txt" false; mkDirEntry "old.yml" true;
   mkDirEntry "day.YML" false].

Definition example_dir_two : list DirEntry :=
  [mkDirEntry "day.YML" false; mkDirEntry "backup" true; mkDirEntry "night.yaml" false].

Definition example_read (p : string) : Result string :=
  if String.eqb p "schedules/notes.txt" then Ok "changed" else Ok "kind: Schedule".

(** The ASCII path of [strings.ToLower] and [filepath.Join] on clean paths. *)
Definition ascii_ToLower (s : string) : string :=
  string_of_list_ascii
    (map (fun c => let n := Ascii.nat_of_ascii c in
                   if Nat.leb 65 n && Nat.leb n 90 then Ascii.ascii_of_nat (n + 32) else c)
         (list_ascii_of_string s)).

Definition example_join (p n : string) : string := p ++ "/" ++ n.

(** A tick over three schedules whose state queries fail only for the
    resource [vm-1]; the two other resources are stopped while their
    schedules start them. *)
Definition example_state_one_down (r : Resource) : StateResult :=
  if String.eqb (res_ID r) "vm-1" then Err "unavailable" else Ok ("stopped"%string, false).

Definition example_start_only (name id : string) : Schedule :=
  mkSchedule name "daily" (mkResource "vm" id "folder-1")
    (mkActions (Some (mkActionConfig true "09:00" "" 0)) None).


(* ================================================================== *)
(** * Proofs *)

(** ** Calendar *)

Lemma check_from_spec (n : nat) (f : Z -> bool) :
  forall k0, check_from n k0 f = true ->
  forall k, k0 <= k < k0 + Z.of_nat n -> f k = true.
Proof.
  induction n as [|n IH]; simpl; intros k0 H k Hk; [lia|].
  apply andb_true_iff in H as [H1 H2].
  destruct (Z.eq_dec k k0) as [->|Hne]; [exact H1|].
  apply (IH (k0 + 1)); [exact H2|lia].
Qed.

Lemma years_all : check_from 400 0 year_ok = true.
Proof. vm_compute. reflexivity. Qed.

Lemma doys_all : check_from 366 0 doy_ok = true.
Proof. vm_compute. reflexivity. Qed.

Lemma mds_all (leap : bool) : check_from 372 0 (md_ok leap) = true.
Proof. destruct leap; vm_compute; reflexivity. Qed.

Lemma year_ok_at (yoe : Z) : 0 <= yoe < 400 ->
  yoe_of_doe (year_start yoe) = yoe
  /\ yoe_of_doe (year_start yoe + year_len yoe - 1) = yoe
  /\ (yoe < 399 -> year_start (yoe + 1) = year_start yoe + year_len yoe)
  /\ (yoe = 399 -> year_start yoe + year_len yoe = 146097).
Proof.
  intros Hy. pose proof (check_from_spec _ _ _ years_all yoe ltac:(simpl; lia)) as H.
  unfold year_ok in H. rewrite !andb_true_iff, !Z.eqb_eq in H.
  destruct H as [[H1 H2] H3]. repeat split; auto; intros Hc.
  - destruct (yoe <? 399) eqn:E; [apply Z.eqb_eq in H3; exact H3|]. apply Z.ltb_ge in E; lia.
  - subst. exact (proj1 (Z.eqb_eq _ _) H3).
Qed.

Lemma yoe_step (a : Z) : 0 <= a -> a + 1 <= 146096 -> yoe_of_doe a <= yoe_of_doe (a + 1).
Proof.
  intros H0 H1. unfold yoe_of_doe. apply Z.div_le_mono; [lia|].
  assert (a / 146096 = 0) by (apply Z.div_small; lia).
  assert ((a + 1) / 146096 = (if a + 1 =? 146096 then 1 else 0)) as E.
  { destruct (Z.eqb_spec (a + 1) 146096) as [->|Hn]; [reflexivity|]. apply Z.div_small; lia. }
  rewrite E. destruct (Z.eqb_spec (a + 1) 146096) as [Ha|Hn].
  - rewrite Ha. replace a with 146095 by lia. vm_compute. discriminate.
  - Z.div_mod_to_equations. lia.
Qed.

Lemma yoe_mono (a b : Z) : 0 <= a <= b -> b <= 146096 -> yoe_of_doe a <= yoe_of_doe b.
Proof.
  intros Hab Hb. replace b with (a + Z.of_nat (Z.to_nat (b - a))) by lia.
  assert (Hn : a + Z.of_nat (Z.to_nat (b - a)) <= 146096) by lia.
  revert Hn. generalize (Z.to_nat (b - a)) as n. induction n as [|n IH]; intros Hn.
  - simpl. rewrite Z.add_0_r. lia.
  - rewrite Nat2Z.inj_succ in *. replace (a + Z.succ (Z.of_nat n)) with (a + Z.of_nat n + 1) by lia.
    etransitivity; [apply IH; lia|]. apply yoe_step; lia.
Qed.

Lemma year_start_nonneg (y : Z) : 0 <= y -> 0 <= year_start y.
Proof. intros. unfold year_start. Z.div_mod_to_equations. lia. Qed.

Lemma year_end_bound (y : Z) : 0 <= y < 400 -> year_start y + year_len y <= 146097.
Proof.
  intros Hy. destruct (Z.eq_dec y 399) as [->|Hn]; [vm_compute; discriminate|].
  assert (year_len y <= 366) by (unfold year_len; destruct is_leap; lia).
  unfold year_start. Z.div_mod_to_equations. lia.
Qed.

Lemma yoe_in_year (doe : Z) : 0 <= doe < 146097 ->
  0 <= yoe_of_doe doe < 400
  /\ year_start (yoe_of_doe doe) <= doe < year_start (yoe_of_doe doe) + year_len (yoe_of_doe doe).
Proof.
  intros Hd. set (y := yoe_of_doe doe).
  assert (H0 : yoe_of_doe 0 = 0) by reflexivity.
  assert (H1 : yoe_of_doe 146096 = 399) by reflexivity.
  assert (0 <= y <= 399).
  { pose proof (yoe_mono 0 doe ltac:(lia) ltac:(lia)). pose proof (yoe_mono doe 146096 ltac:(lia) ltac:(lia)).
    unfold y. lia. }
  split; [lia|].
  destruct (year_ok_at y ltac:(lia)) as [Hs [He [Hn Hl]]].
  split.
  - destruct (Z_le_gt_dec (year_start y) doe) as [Ok|Hlt]; [exact Ok|exfalso].
    assert (y <> 0) by (intros E; rewrite E in Hlt; change (year_start 0) with 0 in Hlt; lia).
    destruct (year_ok_at (y - 1) ltac:(lia)) as [_ [He' [Hn' _]]].
    replace (y - 1 + 1) with y in Hn' by lia.
    pose proof (yoe_mono doe (year_start (y - 1) + year_len (y - 1) - 1) ltac:(lia)) as Hm.
    pose proof (year_end_bound (y - 1) ltac:(lia)).
    assert (yoe_of_doe doe <= y - 1) by (rewrite <- He'; apply Hm; lia).
    unfold y in *. lia.
  - destruct (Z_lt_ge_dec doe (year_start y + year_len y)) as [Ok|Hge]; [exact Ok|exfalso].
    destruct (Z.eq_dec y 399) as [E|Hne]; [rewrite (Hl E) in Hge; lia|].
    destruct (year_ok_at (y + 1) ltac:(lia)) as [Hs' _].
    rewrite <- (Hn ltac:(lia)) in Hge.
    pose proof (yoe_mono (year_start (y + 1)) doe ltac:(pose proof (year_start_nonneg (y + 1)); lia) ltac:(lia)) as Hm.
    rewrite Hs' in Hm. unfold y in *. lia.
Qed.

Lemma yoe_of_year (y doy : Z) : 0 <= y < 400 -> 0 <= doy < year_len y ->
  yoe_of_doe (year_start y + doy) = y.
Proof.
  intros Hy Hd. destruct (year_ok_at y Hy) as [Hs [He _]].
  pose proof (year_end_bound y Hy). pose proof (year_start_nonneg y ltac:(lia)).
  pose proof (yoe_mono (year_start y) (year_start y + doy) ltac:(lia) ltac:(lia)).
  pose proof (yoe_mono (year_start y + doy) (year_start y + year_len y - 1) ltac:(lia) ltac:(lia)).
  lia.
Qed.

Lemma month_len_le (b : bool) (m : Z) : 28 <= month_len b m <= 31.
Proof. unfold month_len. destruct (m =? 2), b, ((m =? 4) || (m =? 6) || (m =? 9) || (m =? 11)); lia. Qed.

Lemma month_len_nonfeb (b b' : bool) (m : Z) : m <> 2 -> month_len b m = month_len b' m.
Proof. intros Hm. unfold month_len. apply Z.eqb_neq in Hm. rewrite Hm. reflexivity. Qed.

Lemma is_leap_period (x k : Z) : is_leap (x + k * 400) = is_leap x.
Proof.
  unfold is_leap.
  replace (x + k * 400) with (x + (k * 100) * 4) by lia. rewrite Z_mod_plus_full.
  replace (x + k * 100 * 4) with (x + (k * 4) * 100) by lia. rewrite Z_mod_plus_full.
  replace (x + k * 4 * 100) with (x + k * 400) by lia. rewrite Z_mod_plus_full.
  reflexivity.
Qed.

Lemma md_of_doy_spec (doy m d : Z) : 0 <= doy < 366 -> md_of_doy doy = (m, d) ->
  1 <= m <= 12 /\ 1 <= d /\ doy_of m d = doy /\ d <= month_len true m
  /\ (doy < 365 -> d <= month_len false m).
Proof.
  intros Hd E. pose proof (check_from_spec _ _ _ doys_all doy ltac:(simpl; lia)) as H.
  unfold doy_ok in H. rewrite E in H. rewrite !andb_true_iff, !orb_true_iff in H.
  destruct H as [[[[[H1 H2] H3] H4] H5] H6].
  apply Z.leb_le in H1, H2, H3, H5. apply Z.eqb_eq in H4.
  repeat split; lia.
Qed.

Lemma md_of_doy_inv (leap : bool) (m d : Z) : 1 <= m <= 12 -> 1 <= d <= month_len leap m ->
  0 <= doy_of m d < (if leap then 366 else 365) /\ md_of_doy (doy_of m d) = (m, d).
Proof.
  intros Hm Hd. pose proof (month_len_le leap m) as Hl.
  pose proof (check_from_spec _ _ _ (mds_all leap) ((m - 1) * 31 + (d - 1)) ltac:(simpl; lia)) as H.
  unfold md_ok in H.
  replace ((((m - 1) * 31 + (d - 1)) / 31) + 1) with m in H by (Z.div_mod_to_equations; lia).
  replace (((m - 1) * 31 + (d - 1)) mod 31 + 1) with d in H by (Z.div_mod_to_equations; lia).
  assert (E : (d <=? month_len leap m) = true) by (apply Z.leb_le; lia). rewrite E in H.
  destruct (md_of_doy (doy_of m d)) as [m' d'] eqn:Emd.
  rewrite !andb_true_iff in H. destruct H as [[H1 H2] [H3 H4]].
  apply Z.leb_le in H1. apply Z.ltb_lt in H2. apply Z.eqb_eq in H3, H4. subst. split; [lia|reflexivity].
Qed.

(** [civil_from_days] yields a valid date, and it is a right inverse of
    [days_from_civil]. *)
Lemma civil_from_days_spec (z y m d : Z) : civil_from_days z = (y, m, d) ->
  1 <= m <= 12 /\ 1 <= d <= days_in_month y m /\ days_from_civil y m d = z.
Proof.
  unfold civil_from_days, civil_of_doe.
  remember ((z + 719468) / 146097) as era eqn:Hera.
  remember (z + 719468 - era * 146097) as doe eqn:Hdoe_def.
  assert (Hdoe : 0 <= doe < 146097) by (subst; Z.div_mod_to_equations; lia).
  destruct (yoe_in_year doe Hdoe) as [Hy Hin].
  remember (yoe_of_doe doe) as yoe eqn:Hyoe.
  destruct (md_of_doy (doe - year_start yoe)) as [m0 d0] eqn:Emd.
  assert (Hl : year_len yoe <= 366) by (unfold year_len; destruct is_leap; lia).
  destruct (md_of_doy_spec (doe - year_start yoe) m0 d0 ltac:(lia) Emd) as [Hm [Hd1 [Hdoy [Hdt Hdf]]]].
  intros E. injection E as <- <- <-.
  split; [exact Hm|split; [split; [exact Hd1|]|]].
  - unfold days_in_month. destruct (Z.eq_dec m0 2) as [->|Hn].
    + simpl. rewrite is_leap_period.
      unfold year_len in Hin. destruct (is_leap (yoe + 1)); [exact Hdt|apply Hdf; lia].
    + rewrite (month_len_nonfeb _ true m0 Hn). exact Hdt.
  - unfold days_from_civil.
    assert (Ey : (if m0 <=? 2 then yoe + (if m0 <=? 2 then 1 else 0) + era * 400 - 1
                  else yoe + (if m0 <=? 2 then 1 else 0) + era * 400) = yoe + era * 400)
      by (destruct (m0 <=? 2); lia).
    rewrite Ey.
    assert (Ee : (yoe + era * 400) / 400 = era) by (Z.div_mod_to_equations; lia).
    rewrite Ee. replace (yoe + era * 400 - era * 400) with yoe by lia.
    unfold doe_of. rewrite Hdoy. lia.
Qed.

(** [civil_from_days] is a left inverse of [days_from_civil] on valid dates. *)
Lemma civil_days_roundtrip (y m d : Z) : 1 <= m <= 12 -> 1 <= d <= days_in_month y m ->
  civil_from_days (days_from_civil y m d) = (y, m, d).
Proof.
  intros Hm Hd. unfold days_from_civil.
  set (y' := if m <=? 2 then y - 1 else y).
  set (era := y' / 400). set (yoe := y' - era * 400).
  assert (Hyoe : 0 <= yoe < 400) by (unfold yoe, era; Z.div_mod_to_equations; lia).
  destruct (md_of_doy_inv (is_leap y) m d Hm Hd) as [Hb Hmd].
  assert (Hdoy : 0 <= doy_of m d < year_len yoe).
  { destruct (Z_le_gt_dec m 2) as [Hle|Hgt].
    - assert (y = yoe + 1 + era * 400)
        by (unfold yoe, y'; apply Z.leb_le in Hle; rewrite Hle; lia).
      unfold year_len. rewrite H, is_leap_period in Hb. exact Hb.
    - pose proof (month_len_le (is_leap y) m). unfold days_in_month in Hd.
      assert (doy_of m d < 365) by (unfold doy_of; Z.div_mod_to_equations; lia).
      assert (0 <= doy_of m d) by (destruct (is_leap y); lia).
      unfold year_len. destruct (is_leap (yoe + 1)); lia. }
  pose proof (year_end_bound yoe Hyoe). pose proof (year_start_nonneg yoe ltac:(lia)).
  unfold civil_from_days, civil_of_doe, doe_of.
  assert (Ee : (era * 146097 + (year_start yoe + doy_of m d) - 719468 + 719468) / 146097 = era)
    by (Z.div_mod_to_equations; lia).
  rewrite Ee.
  replace (era * 146097 + (year_start yoe + doy_of m d) - 719468 + 719468 - era * 146097)
    with (year_start yoe + doy_of m d) by lia.
  rewrite (yoe_of_year yoe (doy_of m d) Hyoe Hdoy).
  replace (year_start yoe + doy_of m d - year_start yoe) with (doy_of m d) by lia.
  rewrite Hmd. f_equal. f_equal.
  unfold yoe, y'. destruct (m <=? 2); lia.
Qed.

(** ** Instants, [time.Date] and [AddDate] *)

Lemma days_from_civil_day (y m d : Z) :
  days_from_civil y m d = days_from_civil y m 1 + (d - 1).
Proof. unfold days_from_civil, doe_of, doy_of. lia. Qed.

(** [time.Date] on a month in 1..12. *)
Lemma go_Date_norm (y m d h mi s ns : Z) : 1 <= m <= 12 ->
  go_Date y m d h mi s ns = days_from_civil y m d * day_ns + ((h * 60 + mi) * 60 + s) * sec_ns + ns.
Proof.
  intros Hm. unfold go_Date.
  rewrite (Z.div_small (m - 1) 12) by lia. rewrite (Z.mod_small (m - 1) 12) by lia.
  rewrite Z.add_0_r. replace (m - 1 + 1) with m by lia.
  rewrite (days_from_civil_day y m d). reflexivity.
Qed.

Lemma time_split (t : Time) : t = day_number t * day_ns + t mod day_ns /\ 0 <= t mod day_ns < day_ns.
Proof.
  unfold day_number. split; [|apply Z.mod_pos_bound; unfold day_ns, sec_ns; lia].
  pose proof (Z.div_mod t day_ns ltac:(unfold day_ns, sec_ns; lia)). lia.
Qed.

Lemma day_number_of (dn x : Z) : 0 <= x < day_ns -> day_number (dn * day_ns + x) = dn.
Proof.
  intros Hx. unfold day_number. rewrite Z.div_add_l by (unfold day_ns, sec_ns; lia).
  rewrite Z.div_small by lia. lia.
Qed.

Lemma mod_day_of (dn x : Z) : 0 <= x < day_ns -> (dn * day_ns + x) mod day_ns = x.
Proof.
  intros Hx. rewrite Z.add_comm, Z.mod_add by (unfold day_ns, sec_ns; lia).
  apply Z.mod_small; exact Hx.
Qed.

(** The fields [Date()] returns are a valid date whose day number is the instant's. *)
Lemma Date_of_spec (t y m d : Time) : Date_of t = (y, m, d) ->
  1 <= m <= 12 /\ 1 <= d <= days_in_month y m /\ days_from_civil y m d = day_number t.
Proof. apply civil_from_days_spec. Qed.

Lemma Date_of_days (y m d x : Z) : 1 <= m <= 12 -> 1 <= d <= days_in_month y m -> 0 <= x < day_ns ->
  Date_of (days_from_civil y m d * day_ns + x) = (y, m, d).
Proof.
  intros Hm Hd Hx. unfold Date_of. rewrite day_number_of by exact Hx.
  apply civil_days_roundtrip; assumption.
Qed.

(** [Clock()] and [Nanosecond()] rebuild the offset in the day. *)
Lemma Clock_spec (t : Time) : forall hh mi ss, Clock t = (hh, mi, ss) ->
  ((hh * 60 + mi) * 60 + ss) * sec_ns + Nanosecond t = t mod day_ns.
Proof.
  intros hh mi ss E. unfold Clock in E. injection E as <- <- <-. unfold Nanosecond.
  remember (t mod day_ns) as r1 eqn:Hr1.
  remember (r1 / sec_ns) as r eqn:Hr.
  assert (Hq : r / 3600 = r / 60 / 60) by (rewrite Z.div_div by lia; reflexivity).
  rewrite Hq. unfold day_ns, sec_ns in *. Z.div_mod_to_equations. lia.
Qed.

Lemma tod_bound (h mi s : Z) : 0 <= h <= 23 -> 0 <= mi <= 59 -> 0 <= s <= 59 ->
  0 <= ((h * 60 + mi) * 60 + s) * sec_ns < day_ns.
Proof. unfold day_ns, sec_ns. lia. Qed.

(** [t.AddDate(0, 0, k)] moves by [k] whole days. *)
Lemma AddDate_days (t k : Time) : AddDate t 0 0 k = t + k * day_ns.
Proof.
  unfold AddDate. destruct (Date_of t) as [[y m] d] eqn:Ed.
  destruct (Clock t) as [[hh mi] ss] eqn:Ec.
  destruct (Date_of_spec t y m d Ed) as [Hm [_ Hdn]].
  pose proof (Clock_spec t hh mi ss Ec) as Hc. pose proof (time_split t) as [Ht _].
  rewrite Z.add_0_r, Z.add_0_r, go_Date_norm by exact Hm.
  rewrite (days_from_civil_day y m (d + k)).
  rewrite (days_from_civil_day y m d) in Hdn. nia.
Qed.

(** The months of one March-based year follow each other. *)
Lemma days_from_civil_same_base (y m m' : Z) : (m <=? 2) = (m' <=? 2) ->
  days_from_civil y m' 1 - days_from_civil y m 1 = doy_of m' 1 - doy_of m 1.
Proof. intros E. unfold days_from_civil, doe_of. rewrite E. lia. Qed.

Lemma feb_length (y : Z) : days_from_civil y 3 1 = days_from_civil y 2 1 + days_in_month y 2.
Proof.
  unfold days_from_civil, doe_of.
  change (3 <=? 2) with false. change (2 <=? 2) with true. cbv beta iota.
  change (doy_of 3 1) with 0. change (doy_of 2 1) with 337.
  change (days_in_month y 2) with (if is_leap y then 29 else 28).
  remember ((y - 1) / 400) as e1 eqn:He1. remember (y / 400) as e2 eqn:He2.
  assert (Hy1 : 0 <= y - 1 - e1 * 400 < 400) by (subst; Z.div_mod_to_equations; lia).
  destruct (year_ok_at (y - 1 - e1 * 400) Hy1) as [_ [_ [Hn Hl]]].
  assert (Hleap : is_leap (y - 1 - e1 * 400 + 1) = is_leap y).
  { replace (y - 1 - e1 * 400 + 1) with (y + (- e1) * 400) by lia. apply is_leap_period. }
  unfold year_len in Hn, Hl. rewrite Hleap in Hn, Hl.
  destruct (Z.eq_dec (y - 1 - e1 * 400) 399) as [E|E].
  - assert (e2 = e1 + 1) by (subst; Z.div_mod_to_equations; lia).
    replace (y - e2 * 400) with 0 by lia. change (year_start 0) with 0.
    specialize (Hl E). rewrite E in Hl |- *. destruct (is_leap y); lia.
  - assert (Ee : e2 = e1) by (subst; Z.div_mod_to_equations; lia). rewrite Ee.
    specialize (Hn ltac:(lia)). replace (y - 1 - e1 * 400 + 1) with (y - e1 * 400) in Hn by lia.
    rewrite Hn. destruct (is_leap y); lia.
Qed.

(** The first day of the month after [m] (Go normalises month 13). *)
Lemma month_next (y m : Z) : 1 <= m <= 12 ->
  days_from_civil (y + m / 12) (m mod 12 + 1) 1 = days_from_civil y m 1 + days_in_month y m.
Proof.
  intros Hm.
  assert (Hc : m = 1 \/ m = 2 \/ (3 <= m <= 11) \/ m = 12) by lia.
  destruct Hc as [->|[->|[Hmid| ->]]].
  - change (1 / 12) with 0. change (1 mod 12 + 1) with 2. rewrite Z.add_0_r.
    pose proof (days_from_civil_same_base y 1 2 eq_refl). change (days_in_month y 1) with 31.
    change (doy_of 2 1 - doy_of 1 1) with 31 in H. lia.
  - change (2 / 12) with 0. change (2 mod 12 + 1) with 3. rewrite Z.add_0_r. apply feb_length.
  - rewrite (Z.div_small m 12), (Z.mod_small m 12) by lia. rewrite Z.add_0_r.
    pose proof (days_from_civil_same_base y m (m + 1)) as H.
    assert (Hb : (m <=? 2) = (m + 1 <=? 2)) by (rewrite (proj2 (Z.leb_gt m 2)), (proj2 (Z.leb_gt (m + 1) 2)) by lia; reflexivity).
    specialize (H Hb).
    assert (Hc : m = 3 \/ m = 4 \/ m = 5 \/ m = 6 \/ m = 7 \/ m = 8 \/ m = 9 \/ m = 10 \/ m = 11) by lia.
    assert (Hd : doy_of (m + 1) 1 - doy_of m 1 = month_len false m)
      by (destruct Hc as [->|[->|[->|[->|[->|[->|[->|[->| ->]]]]]]]]; reflexivity).
    unfold days_in_month. rewrite (month_len_nonfeb _ false m) by lia. lia.
  - change (12 / 12) with 1. change (12 mod 12 + 1) with 1. change (days_in_month y 12) with 31.
    unfold days_from_civil, doe_of.
    change (12 <=? 2) with false. change (1 <=? 2) with true. cbv beta iota.
    replace (y + 1 - 1) with y by lia. change (doy_of 1 1) with 306. change (doy_of 12 1) with 275. lia.
Qed.

(** [time.Date(y, m+1, 0, ...)]: the last day of month [m]. *)
Lemma go_Date_last_day (y m h mi s ns : Z) : 1 <= m <= 12 ->
  go_Date y (m + 1) 0 h mi s ns
  = days_from_civil y m (days_in_month y m) * day_ns + ((h * 60 + mi) * 60 + s) * sec_ns + ns.
Proof.
  intros Hm. unfold go_Date. replace (m + 1 - 1) with m by lia.
  rewrite month_next by exact Hm. rewrite (days_from_civil_day y m (days_in_month y m)). lia.
Qed.

Lemma day_number_shift (t k : Z) : day_number (t + k * day_ns) = day_number t + k.
Proof. unfold day_number. apply Z.div_add. unfold day_ns, sec_ns. lia. Qed.

(** [time.Date] at the date of [now]. *)
Lemma today_at (now : Time) (y m d h mi s : Z) : Date_of now = (y, m, d) ->
  go_Date y m d h mi s 0 = day_number now * day_ns + at_offset h mi s.
Proof.
  intros E. destruct (Date_of_spec now y m d E) as [Hm [_ Hdn]].
  rewrite go_Date_norm by exact Hm. rewrite Hdn. unfold at_offset. lia.
Qed.

(** ** Package [schedule] *)

Lemma parseTimeString_range (ts : string) (h mi s : Z) : parseTimeString ts = Ok (h, mi, s) ->
  0 <= h <= 23 /\ 0 <= mi <= 59 /\ 0 <= s <= 59.
Proof.
  unfold parseTimeString. destruct (sscanf_hms ts) as [[n [[p0 p1] p2]] err].
  destruct (err && Nat.ltb n 2); [discriminate|].
  set (sec := if Nat.leb 3 n then p2 else 0). clearbody sec.
  match goal with |- context [if ?c then _ else _] => destruct c eqn:E end; [discriminate|].
  intros Eq. injection Eq as <- <- <-.
  rewrite !orb_false_iff, !Z.gtb_ltb, !Z.ltb_ge in E. lia.
Qed.

Lemma at_offset_bound (ts : string) (h mi s : Z) : parseTimeString ts = Ok (h, mi, s) ->
  0 <= at_offset h mi s < day_ns.
Proof. intros E. destruct (parseTimeString_range ts h mi s E) as [? [? ?]]. apply tod_bound; lia. Qed.

(** The result of [GetLastDailyTime]: today at the time if [now] is
    past it, else yesterday at the time. *)
Lemma GetLastDailyTime_eq (ts : string) (now h mi s : Z) : parseTimeString ts = Ok (h, mi, s) ->
  GetLastDailyTime ts now
  = Ok (if now mod day_ns <=? at_offset h mi s
        then (day_number now - 1) * day_ns + at_offset h mi s
        else day_number now * day_ns + at_offset h mi s).
Proof.
  intros Hp. unfold GetLastDailyTime. rewrite Hp.
  destruct (Date_of now) as [[y m] d] eqn:Ed. rewrite (today_at now y m d h mi s Ed).
  destruct (time_split now) as [Hn _].
  destruct (Z.leb_spec (now mod day_ns) (at_offset h mi s)) as [Hle|Hgt].
  - assert (Hc : After (day_number now * day_ns + at_offset h mi s) now
                 || Equal (day_number now * day_ns + at_offset h mi s) now = true).
    { unfold After, Equal. apply orb_true_iff.
      destruct (Z.eq_dec (day_number now * day_ns + at_offset h mi s) now) as [E|E];
        [right; apply Z.eqb_eq; exact E|left; apply Z.ltb_lt; lia]. }
    rewrite Hc, AddDate_days. f_equal. lia.
  - assert (Hc : After (day_number now * day_ns + at_offset h mi s) now
                 || Equal (day_number now * day_ns + at_offset h mi s) now = false).
    { unfold After, Equal. apply orb_false_iff. split; [apply Z.ltb_ge|apply Z.eqb_neq]; lia. }
    rewrite Hc. reflexivity.
Qed.

(** The result of [GetLastWeeklyTime]: [k] days back at the time. *)
Lemma GetLastWeeklyTime_eq (ts : string) (dow now h mi s : Z) :
  parseTimeString ts = Ok (h, mi, s) -> 0 <= dow <= 6 ->
  let db := Weekday now - dow in
  let db := if db <? 0 then db + 7 else db in
  let k := if (db =? 0) && (now <? day_number now * day_ns + at_offset h mi s) then 7 else db in
  GetLastWeeklyTime ts dow now = Ok ((day_number now - k) * day_ns + at_offset h mi s).
Proof.
  intros Hp Hd. cbv zeta. unfold GetLastWeeklyTime. rewrite Hp.
  unfold weekday_of_int. replace ((0 <=? dow) && (dow <=? 6)) with true
    by (symmetry; apply andb_true_iff; split; apply Z.leb_le; lia).
  set (db := if Weekday now - dow <? 0 then Weekday now - dow + 7 else Weekday now - dow).
  destruct (Date_of now) as [[y m] d] eqn:Ed.
  set (k := if (db =? 0) && (now <? day_number now * day_ns + at_offset h mi s) then 7 else db).
  assert (Hk : (if db =? 0 then if After (go_Date y m d h mi s 0) now then 7 else db else db) = k).
  { unfold k, After. rewrite (today_at now y m d h mi s Ed). destruct (db =? 0); reflexivity. }
  rewrite Hk, AddDate_days.
  destruct (Date_of (now + - k * day_ns)) as [[y' m'] d'] eqn:Ed'.
  rewrite (today_at _ y' m' d' h mi s Ed'), day_number_shift. f_equal.
Qed.

Lemma daily_last_fire (ts : string) (now h mi s : Z) : parseTimeString ts = Ok (h, mi, s) ->
  exists t, GetLastDailyTime ts now = Ok t /\ last_fire_before (daily_fire h mi s) now t.
Proof.
  intros Hp. rewrite (GetLastDailyTime_eq ts now h mi s Hp).
  pose proof (at_offset_bound ts h mi s Hp) as HS.
  destruct (time_split now) as [Hn Hr].
  eexists. split; [reflexivity|]. unfold last_fire_before, daily_fire.
  destruct (Z.leb_spec (now mod day_ns) (at_offset h mi s)) as [Hle|Hgt];
    (split; [|split; [apply mod_day_of; exact HS|]]);
    try (intros u Hu Hfu; destruct (time_split u) as [Hu' _]; rewrite Hfu in Hu');
    remember (day_number now) as D; remember (now mod day_ns) as r;
    try remember (day_number u) as Du; unfold day_ns, sec_ns in *; lia.
Qed.

Lemma weekly_last_fire (ts : string) (dow now h mi s : Z) :
  parseTimeString ts = Ok (h, mi, s) -> 0 <= dow <= 6 -> ~ weekly_fire dow h mi s now ->
  exists t, GetLastWeeklyTime ts dow now = Ok t /\ last_fire_before (weekly_fire dow h mi s) now t.
Proof.
  intros Hp Hd Hnf. rewrite (GetLastWeeklyTime_eq ts dow now h mi s Hp Hd). cbv zeta.
  pose proof (at_offset_bound ts h mi s Hp) as HS.
  destruct (time_split now) as [Hn Hr].
  unfold weekly_fire, Weekday in *.
  remember (day_number now) as D. remember (now mod day_ns) as r. remember (at_offset h mi s) as S.
  set (db := if (D + 4) mod 7 - dow <? 0 then (D + 4) mod 7 - dow + 7 else (D + 4) mod 7 - dow).
  assert (Hdb : 0 <= db <= 6 /\ (D + 4) mod 7 = (db + dow) mod 7).
  { unfold db. pose proof (Z.mod_pos_bound (D + 4) 7 ltac:(lia)).
    destruct (Z.ltb_spec ((D + 4) mod 7 - dow) 0) as [Hl|Hl].
    - split; [lia|]. replace ((D + 4) mod 7 - dow + 7 + dow) with ((D + 4) mod 7 + 1 * 7) by lia.
      rewrite Z.mod_add, Z.mod_mod by lia. reflexivity.
    - split; [lia|]. replace ((D + 4) mod 7 - dow + dow) with ((D + 4) mod 7) by lia.
      rewrite Z.mod_mod by lia. reflexivity. }
  set (k := if (db =? 0) && (now <? D * day_ns + S) then 7 else db).
  assert (Hk : (k = 7 /\ db = 0 /\ now < D * day_ns + S) \/ (k = db /\ (db = 0 -> D * day_ns + S <= now))).
  { unfold k. destruct (Z.eqb_spec db 0), (Z.ltb_spec now (D * day_ns + S)); simpl; lia. }
  assert (Hwk : (D - k + 4) mod 7 = dow).
  { destruct Hdb as [Hb Hm].
    destruct Hk as [[-> [-> _]]|[-> _]].
    - replace (D - 7 + 4) with (D + 4 + (-1) * 7) by lia. rewrite Z.mod_add by lia.
      rewrite Hm. replace (0 + dow) with dow by lia. apply Z.mod_small; lia.
    - replace (D - db + 4) with ((D + 4) + (- db)) by lia.
      rewrite Zplus_mod, Hm, <- Zplus_mod. replace (db + dow + - db) with dow by lia.
      apply Z.mod_small; lia. }
  eexists. split; [reflexivity|]. unfold last_fire_before.
  assert (Ht : day_number ((D - k) * day_ns + S) = D - k) by (apply day_number_of; lia).
  split; [|split; [split; [rewrite Ht; exact Hwk|apply mod_day_of; lia]|]].
  - destruct Hk as [[-> _]|[-> Hz]].
    + unfold day_ns, sec_ns in *. lia.
    + destruct (Z.eq_dec db 0) as [E|E].
      * specialize (Hz E). rewrite E. destruct (Z.eq_dec (D * day_ns + S) now) as [Eq|Ne].
        -- exfalso. apply Hnf. split.
           ++ destruct Hdb as [_ Hm]. rewrite Hm, E. apply Z.mod_small; lia.
           ++ lia.
        -- unfold day_ns, sec_ns in *. lia.
      * unfold day_ns, sec_ns in *. lia.
  - intros u Hu [Hwu Hfu]. destruct (time_split u) as [Hu' _]. rewrite Hfu in Hu'.
    remember (day_number u) as Du.
    assert (Hcong : (Du + 4) mod 7 = (D - k + 4) mod 7) by lia.
    destruct Hdb as [Hb _].
    unfold day_ns, sec_ns in *. Z.div_mod_to_equations. lia.
Qed.

(** The loop of [GetLastCronTime] under robfig's contract, when some
    activation at or after [now] is reached before the fuel runs out. *)
Lemma cron_walk_last (sched : CronSchedule) (fire : Time -> Prop) (now : Time) :
  cron_contract sched fire -> zero_time < now ->
  forall fuel lastTime prevTime t,
  (prevTime = zero_time
   \/ (fire prevTime /\ prevTime < now
       /\ (lastTime = zero_time
           \/ (prevTime < lastTime /\ forall u, prevTime < u < lastTime -> ~ fire u)))) ->
  (lastTime = zero_time \/ fire lastTime) ->
  (exists k, (k < fuel)%nat /\ now <= cron_iter sched k lastTime) ->
  cron_walk sched now fuel lastTime prevTime = Ok t -> last_fire_before fire now t.
Proof.
  intros Hc Hz. induction fuel as [|fuel IH];
    intros lastTime prevTime t Hprev Hlast [k [Hk Hreach]] Hw; [lia|].
  simpl in Hw. destruct (After lastTime now || Equal lastTime now) eqn:Ec.
  - assert (Hge : now <= lastTime).
    { unfold After, Equal in Ec. apply orb_true_iff in Ec as [E|E];
        [apply Z.ltb_lt in E|apply Z.eqb_eq in E]; lia. }
    unfold IsZero in Hw. destruct (Z.eqb_spec prevTime zero_time) as [E|E]; [discriminate|].
    injection Hw as <-.
    destruct Hprev as [Hp|[Hf [Hlt [Hl0|[Hlt' Hno]]]]]; [contradiction|lia|].
    split; [exact Hlt|split; [exact Hf|]]. intros u Hu. apply Hno. lia.
  - assert (Hlt : lastTime < now).
    { unfold After, Equal in Ec. apply orb_false_iff in Ec as [E1 E2].
      apply Z.ltb_ge in E1. apply Z.eqb_neq in E2. lia. }
    apply (IH (Next sched lastTime) lastTime t); [| | |exact Hw].
    + destruct Hlast as [Hl0|Hf]; [left; exact Hl0|right].
      split; [exact Hf|split; [exact Hlt|]].
      destruct (Hc lastTime) as [E|[H1 [_ H3]]]; [left; exact E|right; split; assumption].
    + destruct (Hc lastTime) as [E|[_ [H2 _]]]; [left|right]; assumption.
    + destruct k as [|k]; [simpl in Hreach; lia|]. exists k. split; [lia|].
      unfold cron_iter in *. rewrite Nat.iter_succ_r in Hreach. exact Hreach.
Qed.

Lemma GetLastCronTime_parsed (pw ps : string -> option CronSchedule) (crontab : string)
    (sched : CronSchedule) (now : Time) :
  (pw crontab = Some sched \/ (pw crontab = None /\ ps crontab = Some sched)) ->
  GetLastCronTime pw ps crontab now = last_cron_time sched now.
Proof.
  intros [E|[E1 E2]]; unfold GetLastCronTime; [rewrite E|rewrite E1, E2]; reflexivity.
Qed.

Lemma cron_last_fire (pw ps : string -> option CronSchedule) (crontab : string)
    (sched : CronSchedule) (fire : Time -> Prop) (now t : Time) :
  (pw crontab = Some sched \/ (pw crontab = None /\ ps crontab = Some sched)) ->
  cron_contract sched fire -> zero_time < now ->
  (exists k, (k < maxIterations)%nat /\ now <= cron_iter sched k (Next sched (AddDate now (-1) 0 0))) ->
  GetLastCronTime pw ps crontab now = Ok t -> last_fire_before fire now t.
Proof.
  intros Hparse Hc Hz Hreach. rewrite (GetLastCronTime_parsed pw ps crontab sched now Hparse).
  unfold last_cron_time. apply (cron_walk_last sched fire now Hc Hz); [left; reflexivity| |exact Hreach].
  destruct (Hc (AddDate now (-1) 0 0)) as [E|[_ [H2 _]]]; [left|right]; assumption.
Qed.

(** [every_second] meets robfig's contract for the instants on a whole second. *)
Lemma every_second_contract : cron_contract every_second second_fire.
Proof.
  intros t. right. unfold second_fire, every_second. cbn [Next]. split; [|split].
  - unfold sec_ns. Z.div_mod_to_equations. lia.
  - apply Z.mod_mul. unfold sec_ns. lia.
  - intros u Hu Hm. unfold sec_ns in *. Z.div_mod_to_equations. lia.
Qed.

Lemma days_in_month_ge (y m : Z) : 28 <= days_in_month y m.
Proof. unfold days_in_month. apply month_len_le. Qed.

(** An instant whose day number is the [k]-th day of month [m]. *)
Lemma Day_in_month (u y m k : Z) : 1 <= m <= 12 -> 1 <= k <= days_in_month y m ->
  day_number u = days_from_civil y m 1 + (k - 1) -> Date_of u = (y, m, k).
Proof.
  intros Hm Hk Hu. destruct (time_split u) as [Hs Hb].
  rewrite <- days_from_civil_day in Hu. rewrite Hu in Hs. rewrite Hs.
  apply Date_of_days; assumption.
Qed.

(** The month before [m] of year [y], as Go normalises [m - 1]. *)
Lemma prev_month (y m : Z) : 1 <= m <= 12 ->
  let py := y + (m - 2) / 12 in
  let pm := (m - 2) mod 12 + 1 in
  1 <= pm <= 12 /\ days_from_civil py pm 1 + days_in_month py pm = days_from_civil y m 1.
Proof.
  intros Hm. cbv zeta.
  assert (Hpm : 1 <= (m - 2) mod 12 + 1 <= 12) by (pose proof (Z.mod_pos_bound (m - 2) 12); lia).
  split; [exact Hpm|]. rewrite <- month_next by exact Hpm.
  destruct (Z.eq_dec m 1) as [->|Hn].
  - change ((1 - 2) / 12) with (-1). change ((1 - 2) mod 12 + 1) with 12.
    change (12 / 12) with 1. change (12 mod 12 + 1) with 1. f_equal. lia.
  - rewrite (Z.div_small (m - 2) 12), (Z.mod_small (m - 2) 12) by lia.
    rewrite (Z.div_small (m - 2 + 1) 12), (Z.mod_small (m - 2 + 1) 12) by lia.
    f_equal; lia.
Qed.

(** [now.AddDate(0, -1, 0)] on a day that every month has. *)
Lemma AddDate_month_back (now y m d : Z) : Date_of now = (y, m, d) ->
  d <= days_in_month (y + (m - 2) / 12) ((m - 2) mod 12 + 1) ->
  Date_of (AddDate now 0 (-1) 0) = (y + (m - 2) / 12, (m - 2) mod 12 + 1, d).
Proof.
  intros Ed Hd. destruct (Date_of_spec now y m d Ed) as [Hm [Hd1 _]].
  destruct (prev_month y m Hm) as [Hpm _].
  unfold AddDate. rewrite Ed. destruct (Clock now) as [[hh mi] ss] eqn:Ec.
  pose proof (Clock_spec now hh mi ss Ec) as Hc. destruct (time_split now) as [_ Hb].
  unfold go_Date. replace (m + -1 - 1) with (m - 2) by lia. rewrite !Z.add_0_r.
  rewrite <- days_from_civil_day.
  replace ((days_from_civil (y + (m - 2) / 12) ((m - 2) mod 12 + 1) d) * day_ns
           + ((hh * 60 + mi) * 60 + ss) * sec_ns + Nanosecond now)
    with ((days_from_civil (y + (m - 2) / 12) ((m - 2) mod 12 + 1) d) * day_ns + now mod day_ns)
    by lia.
  apply Date_of_days; [exact Hpm|lia|exact Hb].
Qed.

(** [monthly_previous] when the previous month has the day of [now] and
    the day of month: that day of the previous month at the time. *)
Lemma monthly_previous_eq (dom h mi s now y m d : Z) :
  Date_of now = (y, m, d) ->
  d <= days_in_month (y + (m - 2) / 12) ((m - 2) mod 12 + 1) ->
  1 <= dom <= days_in_month (y + (m - 2) / 12) ((m - 2) mod 12 + 1) ->
  0 <= at_offset h mi s < day_ns ->
  monthly_previous dom h mi s now
  = days_from_civil (y + (m - 2) / 12) ((m - 2) mod 12 + 1) dom * day_ns + at_offset h mi s.
Proof.
  intros Ed Hd Hdom HS. destruct (Date_of_spec now y m d Ed) as [Hm _].
  destruct (prev_month y m Hm) as [Hpm _].
  unfold monthly_previous. rewrite (AddDate_month_back now y m d Ed Hd).
  set (py := y + (m - 2) / 12) in *. set (pm := (m - 2) mod 12 + 1) in *.
  pose proof (days_in_month_ge py pm) as Hl.
  assert (Hlast : go_Date py (pm + 1) 0 h mi s 0 = days_from_civil py pm (days_in_month py pm) * day_ns + at_offset h mi s)
    by (rewrite go_Date_last_day by exact Hpm; unfold at_offset; lia).
  assert (HD : Day (go_Date py (pm + 1) 0 h mi s 0) = days_in_month py pm).
  { rewrite Hlast. unfold Day. rewrite Date_of_days by (try exact Hpm; try exact HS; lia). reflexivity. }
  rewrite HD. replace (dom >? days_in_month py pm) with false by (symmetry; rewrite Z.gtb_ltb; apply Z.ltb_ge; lia).
  rewrite go_Date_norm by exact Hpm. unfold at_offset. lia.
Qed.

Ltac day_lia := unfold day_ns, sec_ns in *; lia.

Lemma monthly_last_fire (ts : string) (dom now h mi s : Z) :
  parseTimeString ts = Ok (h, mi, s) -> 1 <= dom <= 28 -> ~ monthly_fire dom h mi s now ->
  exists t, GetLastMonthlyTime ts dom now = Ok t /\ last_fire_before (monthly_fire dom h mi s) now t.
Proof.
  intros Hp Hdom Hnf. pose proof (at_offset_bound ts h mi s Hp) as HS.
  unfold GetLastMonthlyTime. rewrite Hp.
  destruct (Date_of now) as [[y m] d] eqn:Ed.
  assert (Hy : Year now = y) by (unfold Year; rewrite Ed; reflexivity).
  assert (HM : Month now = m) by (unfold Month; rewrite Ed; reflexivity).
  assert (HDay : Day now = d) by (unfold Day; rewrite Ed; reflexivity).
  rewrite Hy, HM.
  destruct (Date_of_spec now y m d Ed) as [Hm [Hd HDn]].
  pose proof (days_in_month_ge y m) as Hl.
  assert (HT : go_Date y m dom h mi s 0 = days_from_civil y m dom * day_ns + at_offset h mi s)
    by (rewrite go_Date_norm by exact Hm; unfold at_offset; lia).
  assert (HdT : Date_of (go_Date y m dom h mi s 0) = (y, m, dom))
    by (rewrite HT; apply Date_of_days; lia).
  assert (HMT : Month (go_Date y m dom h mi s 0) = m) by (unfold Month; rewrite HdT; reflexivity).
  rewrite HMT, Z.eqb_refl. cbn [negb]. rewrite HT.
  destruct (time_split now) as [Hn Hr].
  rewrite days_from_civil_day in HDn, HT |- *.
  set (B := days_from_civil y m 1) in *. set (D := day_number now) in *.
  set (S := at_offset h mi s) in *. set (r := now mod day_ns) in *.
  unfold monthly_fire in *. rewrite HDay in Hnf.
  destruct (Z.ltb_spec now ((B + (dom - 1)) * day_ns + S)) as [Hlt|Hge]; unfold After; cbn [negb].
  - (* [now] before this month's firing: the previous month's one *)
    assert (Hdd : d <= dom) by day_lia.
    rewrite (proj2 (Z.ltb_lt _ _) Hlt).
    destruct (prev_month y m Hm) as [Hpm Hadj]. cbv zeta in Hadj.
    pose proof (days_in_month_ge (y + (m - 2) / 12) ((m - 2) mod 12 + 1)).
    rewrite (monthly_previous_eq dom h mi s now y m d Ed ltac:(lia) ltac:(lia) HS).
    set (py := y + (m - 2) / 12) in *. set (pm := (m - 2) mod 12 + 1) in *.
    pose proof (days_in_month_ge py pm) as Hl'.
    rewrite days_from_civil_day. set (P := days_from_civil py pm 1) in *.
    eexists. split; [reflexivity|]. split; [|split; [split|]].
    + day_lia.
    + unfold Day. rewrite (Day_in_month _ py pm dom Hpm ltac:(lia)) by (apply day_number_of; exact HS).
      reflexivity.
    + apply mod_day_of. exact HS.
    + intros u Hu [Hdu Hfu]. destruct (time_split u) as [Hu' _]. rewrite Hfu in Hu'.
      assert (HDu : P + dom <= day_number u <= D) by day_lia.
      destruct (Z_lt_ge_dec (day_number u) B) as [Hb|Hb].
      * assert (Hx : Date_of u = (py, pm, day_number u - P + 1))
          by (apply Day_in_month; [exact Hpm|lia|lia]).
        unfold Day in Hdu. rewrite Hx in Hdu. cbn in Hdu. lia.
      * assert (Hx : Date_of u = (y, m, day_number u - B + 1))
          by (apply Day_in_month; [exact Hm|lia|lia]).
        unfold Day in Hdu. rewrite Hx in Hdu. cbn in Hdu. day_lia.
  - (* this month's firing has passed *)
    rewrite (proj2 (Z.ltb_ge _ _) Hge).
    eexists. split; [reflexivity|]. split; [|split; [split|]].
    + destruct (Z.eq_dec ((B + (dom - 1)) * day_ns + S) now) as [E|E]; [|lia].
      exfalso. apply Hnf. split.
      * assert (D = B + (dom - 1)) by (unfold D; rewrite <- E; apply day_number_of; exact HS). lia.
      * unfold r. rewrite <- E. apply mod_day_of. exact HS.
    + unfold Day. rewrite (Day_in_month _ y m dom Hm ltac:(lia)) by (apply day_number_of; exact HS).
      reflexivity.
    + apply mod_day_of. exact HS.
    + intros u Hu [Hdu Hfu]. destruct (time_split u) as [Hu' _]. rewrite Hfu in Hu'.
      assert (HDu : B + dom <= day_number u <= D) by day_lia.
      assert (Hx : Date_of u = (y, m, day_number u - B + 1))
        by (apply Day_in_month; [exact Hm|lia|lia]).
      unfold Day in Hdu. rewrite Hx in Hdu. cbn in Hdu. lia.
Qed.

(** [every_midnight] meets robfig's contract for the midnights. *)
Lemma every_midnight_contract : cron_contract every_midnight midnight_fire.
Proof.
  intros t. right. unfold midnight_fire, every_midnight. cbn [Next]. split; [|split].
  - unfold day_ns, sec_ns. Z.div_mod_to_equations. lia.
  - apply Z.mod_mul. unfold day_ns, sec_ns. lia.
  - intros u Hu Hm. unfold day_ns, sec_ns in *. Z.div_mod_to_equations. lia.
Qed.

(** ** Package [validator] *)

Lemma determineExpectedState_both (pw ps : string -> option CronSchedule) (sch : Schedule)
    (st sp : ActionConfig) (now ls lp : Time) :
  act_Start (sch_Actions sch) = Some st -> act_Stop (sch_Actions sch) = Some sp ->
  ac_Enabled st = true -> ac_Enabled sp = true ->
  getLastExecutionTime pw ps sch st now = Ok ls -> getLastExecutionTime pw ps sch sp now = Ok lp ->
  determineExpectedState pw ps sch now
  = if After ls lp then ("running", "start") else ("stopped", "stop").
Proof.
  intros Hst Hsp Hes Hep Hls Hlp. unfold determineExpectedState, enabled.
  rewrite Hst, Hsp, Hes, Hep. cbn [andb negb]. rewrite Hls, Hlp. reflexivity.
Qed.

Lemma office_hours_times (pw ps : string -> option CronSchedule) (res : Resource) (now : Time) :
  getLastExecutionTime pw ps (office_hours res) (mkActionConfig true "09:00" "" 0) now
  = Ok (if now mod day_ns <=? at_offset 9 0 0
        then (day_number now - 1) * day_ns + at_offset 9 0 0
        else day_number now * day_ns + at_offset 9 0 0)
  /\ getLastExecutionTime pw ps (office_hours res) (mkActionConfig true "18:00" "" 0) now
  = Ok (if now mod day_ns <=? at_offset 18 0 0
        then (day_number now - 1) * day_ns + at_offset 18 0 0
        else day_number now * day_ns + at_offset 18 0 0).
Proof.
  split.
  - transitivity (GetLastDailyTime "09:00" now); [reflexivity|].
    apply GetLastDailyTime_eq. vm_compute. reflexivity.
  - transitivity (GetLastDailyTime "18:00" now); [reflexivity|].
    apply GetLastDailyTime_eq. vm_compute. reflexivity.
Qed.

Lemma runOnce_app (pw ps : string -> option CronSchedule) (getState : Resource -> StateResult)
    (now : Time) (l1 l2 : list Schedule) :
  runOnce pw ps getState now (l1 ++ l2) = (runOnce pw ps getState now l1 ++ runOnce pw ps getState now l2)%list.
Proof. induction l1 as [|sch l1 IH]; simpl; [reflexivity|]. rewrite IH. apply app_assoc. Qed.

(* ------------------------------------------------------------------ *)
(** ** Claims *)

(** C4 (as the code behaves): for [now] in February and day of month 31,
    [GetLastMonthlyTime] returns January 31 of the same year at the
    given time (a valid date, no error), not the last day of February. *)
Theorem GetLastMonthlyTime_feb_dom31 (ts : string) (now h mi s : Z) :
  parseTimeString ts = Ok (h, mi, s) -> Month now = 2 ->
  GetLastMonthlyTime ts 31 now = Ok (go_Date (Year now) 1 31 h mi s 0)
  /\ Date_of (go_Date (Year now) 1 31 h mi s 0) = (Year now, 1, 31).
Proof.
  intros Hp HM. pose proof (at_offset_bound ts h mi s Hp) as HS.
  destruct (Date_of now) as [[y m] d] eqn:Ed.
  assert (Hy : Year now = y) by (unfold Year; rewrite Ed; reflexivity).
  assert (Hm2 : m = 2) by (unfold Month in HM; rewrite Ed in HM; exact HM). subst m.
  unfold GetLastMonthlyTime. rewrite Hp, Hy, HM.
  destruct (Date_of_spec now y 2 d Ed) as [_ [Hd HDn]].
  assert (Hfeb : 28 <= days_in_month y 2 <= 29)
    by (unfold days_in_month, month_len; simpl; destruct (is_leap y); lia).
  pose proof (feb_length y) as Hf.
  assert (HJ : go_Date y 1 31 h mi s 0 = days_from_civil y 1 31 * day_ns + at_offset h mi s)
    by (rewrite go_Date_norm by lia; unfold at_offset; lia).
  assert (HJd : Date_of (go_Date y 1 31 h mi s 0) = (y, 1, 31))
    by (rewrite HJ; apply Date_of_days; [lia|change (days_in_month y 1) with 31; lia|exact HS]).
  split; [|exact HJd].
  assert (HT : Month (go_Date y 2 31 h mi s 0) = 3).
  { rewrite go_Date_norm by lia. unfold Month.
    replace (days_from_civil y 2 31 * day_ns + ((h * 60 + mi) * 60 + s) * sec_ns + 0)
      with (days_from_civil y 3 (31 - days_in_month y 2) * day_ns + at_offset h mi s)
      by (rewrite (days_from_civil_day y 3), (days_from_civil_day y 2); unfold at_offset; lia).
    rewrite Date_of_days; [reflexivity|lia|change (days_in_month y 3) with 31; lia|exact HS]. }
  rewrite HT. cbn [negb Z.eqb Pos.eqb].
  assert (Hjan : days_in_month (y + (2 - 2) / 12) ((2 - 2) mod 12 + 1) = 31) by reflexivity.
  rewrite (monthly_previous_eq 31 h mi s now y 2 d Ed ltac:(lia) ltac:(lia) HS).
  change ((2 - 2) / 12) with 0. change ((2 - 2) mod 12 + 1) with 1. rewrite Z.add_0_r.
  pose proof (month_next y 1 ltac:(lia)) as Hn. change (1 / 12) with 0 in Hn.
  change (1 mod 12 + 1) with 2 in Hn. change (days_in_month y 1) with 31 in Hn.
  rewrite Z.add_0_r in Hn.
  rewrite (days_from_civil_day y 1 31) in HJ |- *. rewrite (days_from_civil_day y 2 d) in HDn.
  destruct (time_split now) as [Hnow Hb].
  unfold After. replace (now <? (days_from_civil y 1 1 + (31 - 1)) * day_ns + at_offset h mi s) with false
    by (symmetry; apply Z.ltb_ge; day_lia).
  rewrite HJ. reflexivity.
Qed.

(** C4: on 2026-02-28 23:00 a monthly trigger on day 31 at 10:00 gives
    2026-01-31 10:00, a January date. *)
Lemma GetLastMonthlyTime_feb_dom31_example :
  Month (go_Date 2026 2 28 23 0 0 0) = 2
  /\ GetLastMonthlyTime "10:00" 31 (go_Date 2026 2 28 23 0 0 0) = Ok (go_Date 2026 1 31 10 0 0 0)
  /\ Date_of (go_Date 2026 1 31 10 0 0 0) = (2026, 1, 31).
Proof. split; [|split]; vm_compute; reflexivity. Qed.

Lemma GetLastMonthlyTime_feb_dom31_witness :
  parseTimeString "10:00" = Ok (10, 0, 0) /\ Month (go_Date 2026 2 28 23 0 0 0) = 2
  /\ GetLastMonthlyTime "10:00" 31 (go_Date 2026 2 28 23 0 0 0)
     = Ok (go_Date (Year (go_Date 2026 2 28 23 0 0 0)) 1 31 10 0 0 0)
  /\ Date_of (go_Date (Year (go_Date 2026 2 28 23 0 0 0)) 1 31 10 0 0 0)
     = (Year (go_Date 2026 2 28 23 0 0 0), 1, 31).
Proof.
  split; [vm_compute; reflexivity|]. split; [vm_compute; reflexivity|].
  apply (GetLastMonthlyTime_feb_dom31 "10:00" (go_Date 2026 2 28 23 0 0 0) 10 0 0);
    vm_compute; reflexivity.
Defined.




(** C5: with start and stop both enabled and both last executions
    computed, the expected state follows the later one: start strictly
    later gives running/start, otherwise stopped/stop.  For a daily start
    at 09:00 and stop at 18:00 this is running exactly when the time of
    day is in (09:00, 18:00]; in particular stopped at 20:00 and running
    at 10:00, on any day. *)
Theorem determineExpectedState_latest :
  (forall pw ps sch st sp now ls lp,
     act_Start (sch_Actions sch) = Some st -> act_Stop (sch_Actions sch) = Some sp ->
     ac_Enabled st = true -> ac_Enabled sp = true ->
     getLastExecutionTime pw ps sch st now = Ok ls -> getLastExecutionTime pw ps sch sp now = Ok lp ->
     (lp < ls -> determineExpectedState pw ps sch now = ("running", "start"))
     /\ (ls <= lp -> determineExpectedState pw ps sch now = ("stopped", "stop")))
  /\ (forall pw ps res now,
     (at_offset 9 0 0 < now mod day_ns <= at_offset 18 0 0 ->
        determineExpectedState pw ps (office_hours res) now = ("running", "start"))
     /\ (now mod day_ns <= at_offset 9 0 0 \/ at_offset 18 0 0 < now mod day_ns ->
        determineExpectedState pw ps (office_hours res) now = ("stopped", "stop"))
     /\ (now mod day_ns = at_offset 20 0 0 ->
        determineExpectedState pw ps (office_hours res) now = ("stopped", "stop"))
     /\ (now mod day_ns = at_offset 10 0 0 ->
        determineExpectedState pw ps (office_hours res) now = ("running", "start"))).
Proof.
  split.
  - intros pw ps sch st sp now ls lp Hst Hsp Hes Hep Hls Hlp.
    rewrite (determineExpectedState_both pw ps sch st sp now ls lp Hst Hsp Hes Hep Hls Hlp).
    unfold After. split; intros H.
    + rewrite (proj2 (Z.ltb_lt _ _) H). reflexivity.
    + rewrite (proj2 (Z.ltb_ge _ _) H). reflexivity.
  - intros pw ps res now. destruct (office_hours_times pw ps res now) as [H9 H18].
    rewrite (determineExpectedState_both pw ps (office_hours res) _ _ now _ _
               eq_refl eq_refl eq_refl eq_refl H9 H18).
    unfold After. destruct (time_split now) as [_ Hb].
    remember (day_number now) as D. remember (now mod day_ns) as r.
    assert (Hrun : at_offset 9 0 0 < r <= at_offset 18 0 0 ->
              (if (if r <=? at_offset 18 0 0 then (D - 1) * day_ns + at_offset 18 0 0
                   else D * day_ns + at_offset 18 0 0)
                  <? (if r <=? at_offset 9 0 0 then (D - 1) * day_ns + at_offset 9 0 0
                      else D * day_ns + at_offset 9 0 0)
               then ("running", "start") else ("stopped", "stop")) = ("running", "start")).
    { intros Hr. rewrite (proj2 (Z.leb_gt r _) (proj1 Hr)), (proj2 (Z.leb_le r _) (proj2 Hr)).
      rewrite (proj2 (Z.ltb_lt _ _)); [reflexivity|]. unfold at_offset. day_lia. }
    assert (Hstop : r <= at_offset 9 0 0 \/ at_offset 18 0 0 < r ->
              (if (if r <=? at_offset 18 0 0 then (D - 1) * day_ns + at_offset 18 0 0
                   else D * day_ns + at_offset 18 0 0)
                  <? (if r <=? at_offset 9 0 0 then (D - 1) * day_ns + at_offset 9 0 0
                      else D * day_ns + at_offset 9 0 0)
               then ("running", "start") else ("stopped", "stop")) = ("stopped", "stop")).
    { intros Hr. destruct (Z.leb_spec r (at_offset 9 0 0)), (Z.leb_spec r (at_offset 18 0 0));
        (rewrite (proj2 (Z.ltb_ge _ _)); [reflexivity|]); unfold at_offset in *; day_lia. }
    split; [exact Hrun|split; [exact Hstop|split]]; intros Hr; [apply Hstop|apply Hrun];
      rewrite Hr; unfold at_offset; unfold day_ns, sec_ns; lia.
Qed.

Lemma determineExpectedState_latest_witness :
  (getLastExecutionTime (fun _ => None) (fun _ => None) (office_hours (mkResource "vm" "vm-1" "folder-1"))
     (mkActionConfig true "09:00" "" 0) (go_Date 2026 3 4 10 0 0 0) = Ok (go_Date 2026 3 4 9 0 0 0)
   /\ getLastExecutionTime (fun _ => None) (fun _ => None) (office_hours (mkResource "vm" "vm-1" "folder-1"))
     (mkActionConfig true "18:00" "" 0) (go_Date 2026 3 4 10 0 0 0) = Ok (go_Date 2026 3 3 18 0 0 0)
   /\ go_Date 2026 3 3 18 0 0 0 < go_Date 2026 3 4 9 0 0 0
   /\ determineExpectedState (fun _ => None) (fun _ => None)
        (office_hours (mkResource "vm" "vm-1" "folder-1")) (go_Date 2026 3 4 10 0 0 0) = ("running", "start"))
  /\ (go_Date 2026 3 4 20 0 0 0 mod day_ns = at_offset 20 0 0
      /\ determineExpectedState (fun _ => None) (fun _ => None)
           (office_hours (mkResource "vm" "vm-1" "folder-1")) (go_Date 2026 3 4 20 0 0 0)
         = ("stopped", "stop")).
Proof.
  destruct determineExpectedState_latest as [Hg Hd].
  assert (H1 : getLastExecutionTime (fun _ => None) (fun _ => None) (office_hours (mkResource "vm" "vm-1" "folder-1"))
     (mkActionConfig true "09:00" "" 0) (go_Date 2026 3 4 10 0 0 0) = Ok (go_Date 2026 3 4 9 0 0 0))
    by (vm_compute; reflexivity).
  assert (H2 : getLastExecutionTime (fun _ => None) (fun _ => None) (office_hours (mkResource "vm" "vm-1" "folder-1"))
     (mkActionConfig true "18:00" "" 0) (go_Date 2026 3 4 10 0 0 0) = Ok (go_Date 2026 3 3 18 0 0 0))
    by (vm_compute; reflexivity).
  assert (H3 : go_Date 2026 3 3 18 0 0 0 < go_Date 2026 3 4 9 0 0 0) by (vm_compute; reflexivity).
  split.
  - split; [exact H1|split; [exact H2|split; [exact H3|]]].
    exact (proj1 (Hg (fun _ => None) (fun _ => None) (office_hours (mkResource "vm" "vm-1" "folder-1"))
             (mkActionConfig true "09:00" "" 0) (mkActionConfig true "18:00" "" 0)
             (go_Date 2026 3 4 10 0 0 0) _ _ eq_refl eq_refl eq_refl eq_refl H1 H2) H3).
  - assert (H : go_Date 2026 3 4 20 0 0 0 mod day_ns = at_offset 20 0 0) by (vm_compute; reflexivity).
    split; [exact H|].
    exact (proj1 (proj2 (proj2 (Hd (fun _ => None) (fun _ => None) (mkResource "vm" "vm-1" "folder-1")
                                   (go_Date 2026 3 4 20 0 0 0)))) H).
Defined.

(** C6: with start and stop both enabled, an error computing the last
    start gives running/start, and an error computing only the last stop
    gives stopped/stop; the check of the schedule goes on, so a stable
    resource in the other state gets a corrective job. *)
Theorem determineExpectedState_error_defaults (pw ps : string -> option CronSchedule)
    (getState : Resource -> StateResult) (sch : Schedule) (st sp : ActionConfig) (now : Time) :
  act_Start (sch_Actions sch) = Some st -> act_Stop (sch_Actions sch) = Some sp ->
  ac_Enabled st = true -> ac_Enabled sp = true ->
  (forall e, getLastExecutionTime pw ps sch st now = Err e ->
     determineExpectedState pw ps sch now = ("running", "start")
     /\ forall actual, getState (sch_Resource sch) = Ok (actual, false) -> actual <> "running" ->
        check_schedule pw ps getState now sch
        = [mkSubmission (sch_Name sch ++ ":validator:start") sch "start"])
  /\ (forall t e, getLastExecutionTime pw ps sch st now = Ok t ->
     getLastExecutionTime pw ps sch sp now = Err e ->
     determineExpectedState pw ps sch now = ("stopped", "stop")
     /\ forall actual, getState (sch_Resource sch) = Ok (actual, false) -> actual <> "stopped" ->
        check_schedule pw ps getState now sch
        = [mkSubmission (sch_Name sch ++ ":validator:stop") sch "stop"]).
Proof.
  intros Hst Hsp Hes Hep.
  assert (Hdet : forall ds, determineExpectedState pw ps sch now = ds ->
            forall actual es ea, getState (sch_Resource sch) = Ok (actual, false) -> ds = (es, ea) ->
            ea <> ""%string -> actual <> es ->
            check_schedule pw ps getState now sch
            = [mkSubmission (sch_Name sch ++ ":validator:" ++ ea) sch ea]).
  { intros ds Hds actual es ea Hg -> Hea Hne. unfold check_schedule. rewrite Hg, Hds.
    cbv iota beta. rewrite (proj2 (String.eqb_neq ea "") Hea), (proj2 (String.eqb_neq actual es) Hne).
    reflexivity. }
  assert (Hd1 : forall e, getLastExecutionTime pw ps sch st now = Err e ->
            determineExpectedState pw ps sch now = ("running", "start")).
  { intros e He. unfold determineExpectedState, enabled. rewrite Hst, Hsp, Hes, Hep.
    cbn [andb negb]. rewrite He. reflexivity. }
  assert (Hd2 : forall t e, getLastExecutionTime pw ps sch st now = Ok t ->
            getLastExecutionTime pw ps sch sp now = Err e ->
            determineExpectedState pw ps sch now = ("stopped", "stop")).
  { intros t e Ht He. unfold determineExpectedState, enabled. rewrite Hst, Hsp, Hes, Hep.
    cbn [andb negb]. rewrite Ht, He. reflexivity. }
  split.
  - intros e He. split; [exact (Hd1 e He)|].
    intros actual Hg Hne. exact (Hdet _ (Hd1 e He) actual _ _ Hg eq_refl ltac:(discriminate) Hne).
  - intros t e Ht He. split; [exact (Hd2 t e Ht He)|].
    intros actual Hg Hne. exact (Hdet _ (Hd2 t e Ht He) actual _ _ Hg eq_refl ltac:(discriminate) Hne).
Qed.

Lemma determineExpectedState_error_defaults_witness :
  (getLastExecutionTime (fun _ => None) (fun _ => None)
     (mkSchedule "night" "daily" (mkResource "vm" "vm-1" "folder-1")
        (mkActions (Some (mkActionConfig true "" "" 0)) (Some (mkActionConfig true "18:00" "" 0))))
     (mkActionConfig true "" "" 0) 0 = Err "daily schedule missing time"
   /\ check_schedule (fun _ => None) (fun _ => None) (fun _ => Ok ("stopped"%string, false)) 0
        (mkSchedule "night" "daily" (mkResource "vm" "vm-1" "folder-1")
           (mkActions (Some (mkActionConfig true "" "" 0)) (Some (mkActionConfig true "18:00" "" 0))))
      = [mkSubmission "night:validator:start"
           (mkSchedule "night" "daily" (mkResource "vm" "vm-1" "folder-1")
              (mkActions (Some (mkActionConfig true "" "" 0)) (Some (mkActionConfig true "18:00" "" 0))))
           "start"])
  /\ (getLastExecutionTime (fun _ => None) (fun _ => None)
        (mkSchedule "day" "daily" (mkResource "vm" "vm-1" "folder-1")
           (mkActions (Some (mkActionConfig true "09:00" "" 0)) (Some (mkActionConfig true "" "" 0))))
        (mkActionConfig true "" "" 0) 0 = Err "daily schedule missing time"
      /\ check_schedule (fun _ => None) (fun _ => None) (fun _ => Ok ("running"%string, false)) 0
           (mkSchedule "day" "daily" (mkResource "vm" "vm-1" "folder-1")
              (mkActions (Some (mkActionConfig true "09:00" "" 0)) (Some (mkActionConfig true "" "" 0))))
         = [mkSubmission "day:validator:stop"
              (mkSchedule "day" "daily" (mkResource "vm" "vm-1" "folder-1")
                 (mkActions (Some (mkActionConfig true "09:00" "" 0)) (Some (mkActionConfig true "" "" 0))))
              "stop"]).
Proof.
  split.
  - assert (He : getLastExecutionTime (fun _ => None) (fun _ => None)
       (mkSchedule "night" "daily" (mkResource "vm" "vm-1" "folder-1")
          (mkActions (Some (mkActionConfig true "" "" 0)) (Some (mkActionConfig true "18:00" "" 0))))
       (mkActionConfig true "" "" 0) 0 = Err "daily schedule missing time") by reflexivity.
    split; [exact He|].
    exact (proj2 (proj1 (determineExpectedState_error_defaults (fun _ => None) (fun _ => None)
             (fun _ => Ok ("stopped"%string, false)) (mkSchedule "night" "daily" (mkResource "vm" "vm-1" "folder-1") (mkActions (Some (mkActionConfig true "" "" 0)) (Some (mkActionConfig true "18:00" "" 0))))
             (mkActionConfig true "" "" 0) (mkActionConfig true "18:00" "" 0) 0 eq_refl eq_refl eq_refl eq_refl) _ He)
             "stopped" eq_refl ltac:(discriminate)).
  - assert (Ht : getLastExecutionTime (fun _ => None) (fun _ => None)
       (mkSchedule "day" "daily" (mkResource "vm" "vm-1" "folder-1")
          (mkActions (Some (mkActionConfig true "09:00" "" 0)) (Some (mkActionConfig true "" "" 0))))
       (mkActionConfig true "09:00" "" 0) 0 = Ok (- 54000000000000)) by (vm_compute; reflexivity).
    assert (He : getLastExecutionTime (fun _ => None) (fun _ => None)
       (mkSchedule "day" "daily" (mkResource "vm" "vm-1" "folder-1")
          (mkActions (Some (mkActionConfig true "09:00" "" 0)) (Some (mkActionConfig true "" "" 0))))
       (mkActionConfig true "" "" 0) 0 = Err "daily schedule missing time") by reflexivity.
    split; [exact He|].
    exact (proj2 (proj2 (determineExpectedState_error_defaults (fun _ => None) (fun _ => None)
             (fun _ => Ok ("running"%string, false)) (mkSchedule "day" "daily" (mkResource "vm" "vm-1" "folder-1") (mkActions (Some (mkActionConfig true "09:00" "" 0)) (Some (mkActionConfig true "" "" 0))))
             (mkActionConfig true "09:00" "" 0) (mkActionConfig true "" "" 0) 0 eq_refl eq_refl eq_refl eq_refl) _ _ Ht He)
             "running" eq_refl ltac:(discriminate)).
Defined.

(** C8: with action start or stop and dry-run off, when the state check
    fails the closure still calls the operator's Start or Stop. *)
Theorem Make_proceeds_on_state_error (stateChecker : Resource -> StateResult) (operator : Operator)
    (sch : Schedule) (e : string) :
  stateChecker (sch_Resource sch) = Err e ->
  Make stateChecker operator sch "start" false
  = (make_leave (operator OpStart (sch_Resource sch)), [OpStart])
  /\ Make stateChecker operator sch "stop" false
  = (make_leave (operator OpStop (sch_Resource sch)), [OpStop]).
Proof. intros H. unfold Make. rewrite H. split; reflexivity. Qed.

Lemma Make_proceeds_on_state_error_witness :
  Make (fun _ => Err "deadline exceeded") (fun _ _ => false)
    (mkSchedule "s" "daily" (mkResource "vm" "vm-1" "folder-1") (mkActions None None)) "start" false
  = (make_leave false, [OpStart])
  /\ Make (fun _ => Err "deadline exceeded") (fun _ _ => false)
       (mkSchedule "s" "daily" (mkResource "vm" "vm-1" "folder-1") (mkActions None None)) "stop" false
  = (make_leave false, [OpStop]).
Proof.
  exact (Make_proceeds_on_state_error (fun _ => Err "deadline exceeded") (fun _ _ => false)
           (mkSchedule "s" "daily" (mkResource "vm" "vm-1" "folder-1") (mkActions None None))
           "deadline exceeded" eq_refl).
Defined.

(** C9: when the state query for a schedule's resource fails, the tick
    submits no corrective job for it and goes on with the next schedules
    (the tick's jobs are those of the other schedules); the executor's
    closure, by contrast, proceeds to the operator call on the same
    failure. *)
Theorem runOnce_skips_on_state_error (pw ps : string -> option CronSchedule)
    (getState : Resource -> StateResult) (now : Time) (pre post : list Schedule) (sch : Schedule)
    (e : string) :
  getState (sch_Resource sch) = Err e ->
  check_schedule pw ps getState now sch = []
  /\ runOnce pw ps getState now (pre ++ sch :: post)
     = (runOnce pw ps getState now pre ++ runOnce pw ps getState now post)%list
  /\ make_enter false "start" (Err e) = Enter_call OpStart
  /\ make_enter false "stop" (Err e) = Enter_call OpStop.
Proof.
  intros H.
  assert (Hc : check_schedule pw ps getState now sch = []) by (unfold check_schedule; rewrite H; reflexivity).
  split; [exact Hc|split; [|split; reflexivity]].
  rewrite runOnce_app. simpl. rewrite Hc. reflexivity.
Qed.

Lemma runOnce_skips_on_state_error_witness :
  (check_schedule (fun _ => None) (fun _ => None) example_state_one_down 0
     (example_start_only "down" "vm-1") = []
   /\ runOnce (fun _ => None) (fun _ => None) example_state_one_down 0
        ([example_start_only "before" "vm-2"] ++ example_start_only "down" "vm-1"
           :: [example_start_only "after" "vm-3"])
      = (runOnce (fun _ => None) (fun _ => None) example_state_one_down 0
           [example_start_only "before" "vm-2"]
         ++ runOnce (fun _ => None) (fun _ => None) example_state_one_down 0
              [example_start_only "after" "vm-3"])%list
   /\ make_enter false "start" (Err "unavailable") = Enter_call OpStart
   /\ make_enter false "stop" (Err "unavailable") = Enter_call OpStop)
  /\ runOnce (fun _ => None) (fun _ => None) example_state_one_down 0
       [example_start_only "after" "vm-3"]
     = [mkSubmission "after:validator:start" (example_start_only "after" "vm-3") "start"]
  /\ runOnce (fun _ => None) (fun _ => None) example_state_one_down 0
       [example_start_only "before" "vm-2"]
     = [mkSubmission "before:validator:start" (example_start_only "before" "vm-2") "start"].
Proof.
  split; [|split; vm_compute; reflexivity].
  exact (runOnce_skips_on_state_error (fun _ => None) (fun _ => None) example_state_one_down 0
           [example_start_only "before" "vm-2"] [example_start_only "after" "vm-3"]
           (example_start_only "down" "vm-1") "unavailable" eq_refl).
Defined.

(** C10: for a resource type other than "vm" and "k8s_cluster" the
    state checker answers an empty state, not transitional, and no error:
    the same shape as an observed state. *)
Theorem GetState_unsupported_type (c : YCClient) (r : Resource) :
  res_Type r <> "vm"%string -> res_Type r <> "k8s_cluster"%string ->
  GetState c r = Ok (""%string, false).
Proof.
  intros H1 H2. unfold GetState.
  rewrite (proj2 (String.eqb_neq _ _) H1), (proj2 (String.eqb_neq _ _) H2). reflexivity.
Qed.

Lemma GetState_unsupported_type_witness :
  res_Type (mkResource "compute_disk" "disk-1" "folder-1") <> "vm"%string
  /\ res_Type (mkResource "compute_disk" "disk-1" "folder-1") <> "k8s_cluster"%string
  /\ GetState (mkYCClient (fun _ => Err "unreachable") (fun _ => Err "unreachable"))
       (mkResource "compute_disk" "disk-1" "folder-1") = Ok (""%string, false).
Proof.
  assert (H1 : res_Type (mkResource "compute_disk" "disk-1" "folder-1") <> "vm"%string) by discriminate.
  assert (H2 : res_Type (mkResource "compute_disk" "disk-1" "folder-1") <> "k8s_cluster"%string)
    by discriminate.
  split; [exact H1|split; [exact H2|]].
  exact (GetState_unsupported_type (mkYCClient (fun _ => Err "unreachable") (fun _ => Err "unreachable"))
           (mkResource "compute_disk" "disk-1" "folder-1") H1 H2).
Defined.

(** C3 (counterexample): the baseline is 1, the directory's signature is
    now 2 and the reload callback fails.  The tick still moves the
    baseline to 2, so the next tick with the same bad set does not call
    the callback again. *)
Lemma tick_failed_reload_moves_baseline :
  tick (mkReloader 1 true) (Ok 2) (Err "invalid schedules") = (mkReloader 2 true, true)
  /\ lastSig (fst (tick (mkReloader 1 true) (Ok 2) (Err "invalid schedules"))) <> 1
  /\ tick (mkReloader 2 true) (Ok 2) (Err "invalid schedules") = (mkReloader 2 true, false).
Proof. split; [reflexivity|split; [simpl; discriminate|reflexivity]]. Qed.

(** C3 (amended): a tick whose directory read fails changes nothing; a
    tick that sees the baseline signature calls nothing; a tick that sees
    a new signature calls the reload callback and then records the new
    signature as the baseline whatever the callback returns, so the next
    tick with the same signature does not call the callback again. *)
Theorem tick_baseline_always_updated (r : Reloader) (cb : Result unit) :
  (forall e, tick r (Err e) cb = (r, false))
  /\ (forall s, hasLastSig r = true -> s = lastSig r -> tick r (Ok s) cb = (r, false))
  /\ (forall s, hasLastSig r = false \/ s <> lastSig r ->
        tick r (Ok s) cb = (mkReloader s true, true)
        /\ forall cb', tick (mkReloader s true) (Ok s) cb' = (mkReloader s true, false)).
Proof.
  split; [reflexivity|split].
  - intros s Hh ->. unfold tick. rewrite Hh, Z.eqb_refl. reflexivity.
  - intros s Hs. split.
    + unfold tick. destruct Hs as [Hh|Hne].
      * rewrite Hh. destruct cb; reflexivity.
      * rewrite (proj2 (Z.eqb_neq _ _) Hne), andb_false_r. destruct cb; reflexivity.
    + intros cb'. unfold tick. simpl. rewrite Z.eqb_refl. reflexivity.
Qed.

Lemma tick_baseline_always_updated_witness :
  tick (mkReloader 1 true) (Ok 2) (Err "invalid schedules") = (mkReloader 2 true, true)
  /\ tick (mkReloader 2 true) (Ok 2) (Ok tt) = (mkReloader 2 true, false).
Proof.
  assert (Hne : hasLastSig (mkReloader 1 true) = false \/ 2 <> lastSig (mkReloader 1 true))
    by (right; simpl; discriminate).
  destruct (proj2 (proj2 (tick_baseline_always_updated (mkReloader 1 true) (Err "invalid schedules")))
              2 Hne) as [H1 H2].
  split; [exact H1|exact (H2 (Ok tt))].
Defined.

(** C1: two invocations of the closure for one (resource, action), here
    a start of a stopped VM: the second enters while the first is still
    in flight in the operator and calls [Start] as well.  The run ends
    with both invocations successful and two operator calls. *)
Theorem Make_concurrent_double_start :
  make_steps (Ok ("stopped"%string, false)) false "start"
    (mkWorld [] [Ph_Ready; Ph_Ready])
    (mkWorld [OpStart; OpStart] [Ph_Done Out_success; Ph_Done Out_success]).
Proof.
  eapply steps_cons; [apply (step_enter _ _ _ _ 0%nat); reflexivity|]. cbn.
  eapply steps_cons; [apply (step_enter _ _ _ _ 1%nat); reflexivity|]. cbn.
  eapply steps_cons; [apply (step_leave _ _ _ _ 0%nat OpStart false); reflexivity|]. cbn.
  eapply steps_cons; [apply (step_leave _ _ _ _ 1%nat OpStart false); reflexivity|]. cbn.
  apply steps_refl.
Qed.

Section EngineFrame.
Variable definition_ok : JobDefinition -> bool.

Lemma addJobUnlocked_frame jobs def name task :
  addJobUnlocked definition_ok jobs def name task
  = ((jobs ++ fst (addJobUnlocked definition_ok [] def name task))%list,
     snd (addJobUnlocked definition_ok [] def name task))
  /\ Forall (fun j => has_tag managedScheduleTag j = true) (fst (addJobUnlocked definition_ok [] def name task)).
Proof.
  unfold addJobUnlocked, NewJob. destruct (definition_ok def); simpl.
  - split; [reflexivity|]. constructor; [reflexivity|constructor].
  - rewrite app_nil_r. split; [reflexivity|constructor].
Qed.

Lemma register_action_frame jobs sch a action dryRun :
  register_action definition_ok jobs sch a action dryRun
  = ((jobs ++ fst (register_action definition_ok [] sch a action dryRun))%list,
     snd (register_action definition_ok [] sch a action dryRun))
  /\ Forall (fun j => has_tag managedScheduleTag j = true) (fst (register_action definition_ok [] sch a action dryRun)).
Proof.
  unfold register_action. destruct a as [ac|]; simpl.
  2: { rewrite app_nil_r. split; [reflexivity|constructor]. }
  destruct (ac_Enabled ac); simpl.
  2: { rewrite app_nil_r. split; [reflexivity|constructor]. }
  destruct (ScheduleToJobDefinition sch ac); simpl.
  - apply addJobUnlocked_frame.
  - rewrite app_nil_r. split; [reflexivity|constructor].
Qed.

Lemma registerScheduleUnlocked_frame jobs sch dryRun :
  registerScheduleUnlocked definition_ok jobs sch dryRun
  = ((jobs ++ fst (registerScheduleUnlocked definition_ok [] sch dryRun))%list,
     snd (registerScheduleUnlocked definition_ok [] sch dryRun))
  /\ Forall (fun j => has_tag managedScheduleTag j = true) (fst (registerScheduleUnlocked definition_ok [] sch dryRun)).
Proof.
  unfold registerScheduleUnlocked.
  destruct (register_action_frame jobs sch (act_Start (sch_Actions sch)) "start" dryRun) as [E1 M1].
  destruct (register_action_frame [] sch (act_Start (sch_Actions sch)) "start" dryRun) as [E1' _].
  rewrite E1, E1'. simpl.
  destruct (register_action definition_ok [] sch (act_Start (sch_Actions sch)) "start" dryRun)
    as [a1 r1]. simpl in *.
  destruct r1 as [u|e]; simpl.
  - destruct (register_action_frame (jobs ++ a1)%list sch (act_Stop (sch_Actions sch)) "stop" dryRun)
      as [E2 _].
    destruct (register_action_frame a1 sch (act_Stop (sch_Actions sch)) "stop" dryRun) as [E2' _].
    destruct (register_action_frame [] sch (act_Stop (sch_Actions sch)) "stop" dryRun) as [_ M2].
    rewrite E2, E2'. simpl. rewrite app_assoc. split; [reflexivity|].
    apply Forall_app. split; assumption.
  - split; [reflexivity|assumption].
Qed.

Lemma register_all_frame schedules dryRun : forall jobs,
  register_all definition_ok jobs schedules dryRun
  = ((jobs ++ fst (register_all definition_ok [] schedules dryRun))%list,
     snd (register_all definition_ok [] schedules dryRun))
  /\ Forall (fun j => has_tag managedScheduleTag j = true) (fst (register_all definition_ok [] schedules dryRun)).
Proof.
  induction schedules as [|sch rest IH]; intros jobs; simpl.
  - rewrite app_nil_r. split; [reflexivity|constructor].
  - destruct (registerScheduleUnlocked_frame jobs sch dryRun) as [E M].
    destruct (registerScheduleUnlocked_frame [] sch dryRun) as [E' _].
    rewrite E, E'. simpl.
    destruct (registerScheduleUnlocked definition_ok [] sch dryRun) as [a r]. simpl in *.
    destruct r as [u|e]; simpl.
    + destruct (IH (jobs ++ a)%list) as [E2 M2]. destruct (IH a) as [E2' _].
      rewrite E2, E2'. simpl. rewrite app_assoc. split; [reflexivity|].
      apply Forall_app. split; assumption.
    + split; [reflexivity|assumption].
Qed.
End EngineFrame.

Lemma RemoveByTags_app tag l1 l2 :
  RemoveByTags tag (l1 ++ l2) = (RemoveByTags tag l1 ++ RemoveByTags tag l2)%list.
Proof. unfold RemoveByTags. apply filter_app. Qed.

Lemma RemoveByTags_all_tagged tag l :
  Forall (fun j => has_tag tag j = true) l -> RemoveByTags tag l = [].
Proof.
  induction 1 as [|j l Hj _ IH]; [reflexivity|]. unfold RemoveByTags in *. simpl.
  rewrite Hj. exact IH.
Qed.

Lemma RemoveByTags_idem tag l : RemoveByTags tag (RemoveByTags tag l) = RemoveByTags tag l.
Proof.
  unfold RemoveByTags. induction l as [|j l IH]; [reflexivity|]. simpl.
  destruct (has_tag tag j) eqn:Hj; simpl; [exact IH|rewrite Hj; simpl; rewrite IH; reflexivity].
Qed.

Lemma RemoveByTags_In tag l j :
  In j l -> has_tag tag j = false -> In j (RemoveByTags tag l).
Proof. intros Hin Hj. unfold RemoveByTags. apply filter_In. rewrite Hj. auto. Qed.

(** C7: [ReplaceSchedules] on an initialised scheduler leaves the
    untagged jobs in place, in their order, drops the jobs tagged
    [managedScheduleTag] and appends the jobs that [RegisterSchedules]
    registers for the schedules on an empty scheduler, all of them tagged;
    the jobs without the tag are exactly those before the call.  A job
    added by [AddOneTimeJob] carries no tag, so it is one of those kept. *)
Theorem ReplaceSchedules_keeps_untagged (definition_ok : JobDefinition -> bool) (s : Scheduler)
    (jobs : list Job) (schedules : list Schedule) (dryRun : bool) :
  sched_jobs s = Some jobs ->
  let added := fst (register_all definition_ok [] schedules dryRun) in
  ReplaceSchedules definition_ok s schedules dryRun
  = (mkScheduler (Some (RemoveByTags managedScheduleTag jobs ++ added)%list),
     snd (register_all definition_ok [] schedules dryRun))
  /\ RegisterSchedules definition_ok (mkScheduler (Some [])) schedules dryRun
     = (mkScheduler (Some added), snd (register_all definition_ok [] schedules dryRun))
  /\ Forall (fun j => has_tag managedScheduleTag j = true) added
  /\ RemoveByTags managedScheduleTag (RemoveByTags managedScheduleTag jobs ++ added)%list
     = RemoveByTags managedScheduleTag jobs
  /\ (forall j, In j jobs -> has_tag managedScheduleTag j = false ->
        In j (RemoveByTags managedScheduleTag jobs ++ added)%list)
  /\ (forall s0 name task jobs1,
        AddOneTimeJob definition_ok s0 name task = (mkScheduler (Some jobs1), Ok tt) ->
        In (mkJob name [] OneTimeJobStartImmediately task) jobs1
        /\ has_tag managedScheduleTag (mkJob name [] OneTimeJobStartImmediately task) = false).
Proof.
  intros Hs. cbv zeta.
  destruct (register_all_frame definition_ok schedules dryRun (RemoveByTags managedScheduleTag jobs))
    as [E M].
  destruct (register_all_frame definition_ok schedules dryRun []) as [E0 _].
  split.
  { unfold ReplaceSchedules. rewrite Hs. rewrite E. reflexivity. }
  split.
  { unfold RegisterSchedules. simpl. rewrite E0. reflexivity. }
  split; [exact M|].
  split.
  { rewrite RemoveByTags_app, RemoveByTags_idem, (RemoveByTags_all_tagged _ _ M), app_nil_r.
    reflexivity. }
  split.
  { intros j Hin Hj. apply in_or_app. left. apply RemoveByTags_In; assumption. }
  intros s0 name task jobs1 H. split; [|reflexivity].
  unfold AddOneTimeJob, NewJob in H.
  destruct (sched_jobs s0) as [js|]; [|discriminate].
  destruct (definition_ok OneTimeJobStartImmediately); [|discriminate].
  injection H as <-. apply in_or_app. right. left. reflexivity.
Qed.

Lemma ReplaceSchedules_keeps_untagged_witness :
  map job_Name (jobs_of example_engine) = ["old:start"; "old:stop"; "validator:keep"]
  /\ map job_Name (jobs_of (fst (ReplaceSchedules (fun _ => true) example_engine [example_new] false)))
     = ["validator:keep"; "new:stop"]
  /\ fst (ReplaceSchedules (fun _ => true) example_engine [example_new] false)
     = mkScheduler (Some (RemoveByTags managedScheduleTag (jobs_of example_engine)
                          ++ fst (register_all (fun _ => true) [] [example_new] false))%list).
Proof.
  split; [vm_compute; reflexivity|]. split; [vm_compute; reflexivity|].
  exact (f_equal fst (proj1 (ReplaceSchedules_keeps_untagged (fun _ => true) example_engine
           (jobs_of example_engine) [example_new] false eq_refl))).
Defined.

(* ================================================================== *)
(** * Further properties of the code *)

(** When the time string parses, [GetLastDailyTime] returns the instant at that time of day within the 24 hours before [now] (strictly before [now]); it is exactly one day back iff [now] is itself a firing instant. *)
Theorem GetLastDailyTime_window (ts : string) (now h mi s : Z) :
  parseTimeString ts = Ok (h, mi, s) ->
  exists t, GetLastDailyTime ts now = Ok t
    /\ now - day_ns <= t < now /\ t mod day_ns = at_offset h mi s
    /\ (t = now - day_ns <-> daily_fire h mi s now).
Proof.
  intros Hp. pose proof (at_offset_bound ts h mi s Hp) as HS.
  rewrite (GetLastDailyTime_eq ts now h mi s Hp).
  destruct (time_split now) as [Hn Hb].
  remember (day_number now) as dn. remember (now mod day_ns) as x.
  unfold daily_fire. rewrite <- Heqx.
  eexists; split; [reflexivity|].
  destruct (x <=? at_offset h mi s) eqn:E; [apply Z.leb_le in E|apply Z.leb_gt in E].
  - rewrite Z.add_comm, Z.mod_add by (unfold day_ns, sec_ns; lia).
    rewrite Z.mod_small by lia. split; [day_lia|]. split; [reflexivity|]. split; intros; day_lia.
  - rewrite Z.add_comm, Z.mod_add by (unfold day_ns, sec_ns; lia).
    rewrite Z.mod_small by lia. split; [day_lia|]. split; [reflexivity|]. split; intros; day_lia.
Qed.

(** When the time string parses and the weekday is in 0..6, [GetLastWeeklyTime] returns an instant on that weekday at that time of day, in the week ending at [now] (inclusive); it returns [now] itself iff [now] is a firing instant. *)
Theorem GetLastWeeklyTime_window (ts : string) (dow now h mi s : Z) :
  parseTimeString ts = Ok (h, mi, s) -> 0 <= dow <= 6 ->
  exists t, GetLastWeeklyTime ts dow now = Ok t
    /\ now - 7 * day_ns < t <= now /\ Weekday t = dow /\ t mod day_ns = at_offset h mi s
    /\ (t = now <-> weekly_fire dow h mi s now).
Proof.
  intros Hp Hd. pose proof (at_offset_bound ts h mi s Hp) as HS.
  rewrite (GetLastWeeklyTime_eq ts dow now h mi s Hp Hd). cbv zeta.
  destruct (time_split now) as [Hn Hb].
  unfold weekly_fire, Weekday.
  remember (day_number now) as dn. remember (now mod day_ns) as x.
  set (off := at_offset h mi s) in *.
  assert (HW : 0 <= (dn + 4) mod 7 < 7) by (apply Z.mod_pos_bound; lia).
  pose proof (Z.div_mod (dn + 4) 7 ltac:(lia)) as HQ.
  remember ((dn + 4) mod 7) as w. remember ((dn + 4) / 7) as q.
  set (db := if w - dow <? 0 then w - dow + 7 else w - dow).
  assert (Hdb : 0 <= db <= 6 /\ (db = w - dow \/ db = w - dow + 7))
    by (unfold db; destruct (w - dow <? 0) eqn:E;
        [apply Z.ltb_lt in E|apply Z.ltb_ge in E]; lia).
  eexists; split; [reflexivity|].
  set (k := if (db =? 0) && (now <? dn * day_ns + off) then 7 else db).
  assert (Hk : (k = 7 /\ db = 0 /\ now < dn * day_ns + off) \/ (k = db /\ (db <> 0 \/ dn * day_ns + off <= now))).
  { unfold k. destruct (db =? 0) eqn:E1; destruct (now <? dn * day_ns + off) eqn:E2; simpl.
    - left. apply Z.eqb_eq in E1. apply Z.ltb_lt in E2. lia.
    - right. apply Z.ltb_ge in E2. lia.
    - right. apply Z.eqb_neq in E1. lia.
    - right. apply Z.eqb_neq in E1. lia. }
  assert (Hmod : ((dn - k) * day_ns + off) mod day_ns = off).
  { replace ((dn - k) * day_ns + off) with (off + (dn - k) * day_ns) by lia.
    rewrite Z.mod_add by (unfold day_ns, sec_ns; lia). apply Z.mod_small. lia. }
  assert (Hdn : day_number ((dn - k) * day_ns + off) = dn - k) by (apply day_number_of; lia).
  rewrite Hdn, Hmod.
  assert (Hwk : (dn - k + 4) mod 7 = dow).
  { destruct Hk as [[-> [H0 _]]|[-> _]].
    - symmetry. apply Z.mod_unique with (q - 1); lia.
    - symmetry. destruct Hdb as [_ [E|E]];
        [apply Z.mod_unique with q|apply Z.mod_unique with (q - 1)]; lia. }
  split; [|split; [exact Hwk|split; [reflexivity|]]].
  - destruct Hk as [[-> [_ Hlt]]|[-> [Hne|Hle]]]; [day_lia| |day_lia].
    assert (1 <= db) by lia. day_lia.
  - split.
    + intros Ht. assert (Hk0 : k = 0 /\ x = off) by (clear Hwk Hdn Hmod; day_lia).
      destruct Hk0 as [Hk0 ->]. rewrite Hk0, Z.sub_0_r in Hwk. rewrite <- Heqw in Hwk. split; [exact Hwk|reflexivity].
    + intros [Hw Hx]. try rewrite <- Heqw in Hw. try rewrite <- Heqx in Hx. assert (db = 0) by (destruct Hdb as [Hr [E|E]]; lia).
      destruct Hk as [[_ [_ Hlt]]|[-> _]]; [day_lia|]. day_lia.
Qed.

(** When [now] is exactly a monthly firing instant (the day of month and the time of day match), [GetLastMonthlyTime] returns [now]. *)
Theorem GetLastMonthlyTime_at_fire (ts : string) (dom now h mi s : Z) :
  parseTimeString ts = Ok (h, mi, s) -> monthly_fire dom h mi s now ->
  GetLastMonthlyTime ts dom now = Ok now.
Proof.
  intros Hp [Hd Hx]. pose proof (at_offset_bound ts h mi s Hp) as HS.
  unfold GetLastMonthlyTime. rewrite Hp.
  destruct (Date_of now) as [[y m] d] eqn:Ed.
  assert (HY : Year now = y) by (unfold Year; rewrite Ed; reflexivity).
  assert (HM : Month now = m) by (unfold Month; rewrite Ed; reflexivity).
  assert (HD : Day now = d) by (unfold Day; rewrite Ed; reflexivity).
  rewrite HY, HM. rewrite HD in Hd. subst dom.
  rewrite (today_at now y m d h mi s Ed).
  destruct (time_split now) as [Hn _]. rewrite Hx in Hn. rewrite <- Hn.
  rewrite HM, Z.eqb_refl. simpl. unfold After. rewrite Z.ltb_irrefl. reflexivity.
Qed.


Lemma AddDate_month_back_overflow (now y m d : Z) : Date_of now = (y, m, d) -> 2 <= m ->
  days_in_month y (m - 1) < d ->
  Date_of (AddDate now 0 (-1) 0) = (y, m, d - days_in_month y (m - 1)).
Proof.
  intros Ed H2 Hd. destruct (Date_of_spec now y m d Ed) as [Hm [Hd1 _]].
  unfold AddDate. rewrite Ed. destruct (Clock now) as [[hh mi] ss] eqn:Ec.
  pose proof (Clock_spec now hh mi ss Ec) as Hc. destruct (time_split now) as [_ Hb].
  unfold go_Date. replace (m + -1 - 1) with (m - 2) by lia. rewrite !Z.add_0_r.
  rewrite (Z.div_small (m - 2) 12) by lia. rewrite (Z.mod_small (m - 2) 12) by lia.
  rewrite Z.add_0_r. replace (m - 2 + 1) with (m - 1) by lia.
  pose proof (month_next y (m - 1) ltac:(lia)) as Hn.
  rewrite (Z.div_small (m - 1) 12), (Z.mod_small (m - 1) 12) in Hn by lia.
  rewrite Z.add_0_r in Hn. replace (m - 1 + 1) with m in Hn by lia.
  replace ((days_from_civil y (m - 1) 1 + (d - 1)) * day_ns
           + ((hh * 60 + mi) * 60 + ss) * sec_ns + Nanosecond now)
    with (days_from_civil y m (d - days_in_month y (m - 1)) * day_ns + now mod day_ns)
    by (rewrite days_from_civil_day; lia).
  pose proof (days_in_month_ge y (m - 1)). apply Date_of_days; [lia|lia|exact Hb].
Qed.

(** When the previous month is shorter than the current day of month [d] and [now] is before the configured time of day, [GetLastMonthlyTime] for day [d] returns today's firing instant, which lies after [now]. *)
Theorem GetLastMonthlyTime_after_now (ts : string) (now y m d h mi s : Z) :
  parseTimeString ts = Ok (h, mi, s) -> Date_of now = (y, m, d) -> 2 <= m ->
  days_in_month y (m - 1) < d -> now mod day_ns < at_offset h mi s ->
  GetLastMonthlyTime ts d now = Ok (go_Date y m d h mi s 0) /\ now < go_Date y m d h mi s 0.
Proof.
  intros Hp Ed H2 Hd Hx. pose proof (at_offset_bound ts h mi s Hp) as HS.
  destruct (Date_of_spec now y m d Ed) as [Hm [Hd1 HDn]].
  destruct (time_split now) as [Hn Hb].
  assert (HT : go_Date y m d h mi s 0 = day_number now * day_ns + at_offset h mi s)
    by (apply today_at; exact Ed).
  assert (Hlt : now < go_Date y m d h mi s 0) by (rewrite HT; lia).
  split; [|exact Hlt].
  assert (HY : Year now = y) by (unfold Year; rewrite Ed; reflexivity).
  assert (HM : Month now = m) by (unfold Month; rewrite Ed; reflexivity).
  assert (HTd : Date_of (go_Date y m d h mi s 0) = (y, m, d)).
  { rewrite go_Date_norm by lia. rewrite Z.add_0_r. apply Date_of_days; [lia|lia|exact HS]. }
  assert (HTM : Month (go_Date y m d h mi s 0) = m) by (unfold Month; rewrite HTd; reflexivity).
  unfold GetLastMonthlyTime. rewrite Hp, HY, HM, HTM, Z.eqb_refl. simpl negb. cbv iota.
  unfold After. rewrite (proj2 (Z.ltb_lt _ _) Hlt).
  unfold monthly_previous. rewrite (AddDate_month_back_overflow now y m d Ed H2 Hd).
  assert (Hlast : go_Date y (m + 1) 0 h mi s 0
                  = days_from_civil y m (days_in_month y m) * day_ns + at_offset h mi s)
    by (rewrite go_Date_last_day by lia; unfold at_offset; lia).
  pose proof (days_in_month_ge y m) as Hl.
  assert (HD : Day (go_Date y (m + 1) 0 h mi s 0) = days_in_month y m).
  { rewrite Hlast. unfold Day. rewrite Date_of_days by (try exact HS; lia). reflexivity. }
  rewrite HD. replace (d >? days_in_month y m) with false
    by (symmetry; rewrite Z.gtb_ltb; apply Z.ltb_ge; lia).
  reflexivity.
Qed.


Lemma cron_walk_result (sched : CronSchedule) (now : Time) :
  forall fuel lastTime prevTime t,
  cron_walk sched now fuel lastTime prevTime = Ok t ->
  (t = prevTime /\ t <> zero_time)
  \/ (exists k, (k < fuel)%nat /\ t = cron_iter sched k lastTime /\ t < now /\ t <> zero_time).
Proof.
  induction fuel as [|fuel IH]; intros lastTime prevTime t H; simpl in H.
  - unfold IsZero in H. destruct (prevTime =? zero_time) eqn:E; simpl in H; [discriminate|].
    injection H as <-. left. split; [reflexivity|]. apply Z.eqb_neq. exact E.
  - unfold After, Equal in H.
    destruct ((now <? lastTime) || (lastTime =? now)) eqn:Ea.
    + unfold IsZero in H. destruct (prevTime =? zero_time) eqn:E; [discriminate|].
      injection H as <-. left. split; [reflexivity|]. apply Z.eqb_neq. exact E.
    + apply orb_false_iff in Ea. destruct Ea as [E1 E2].
      apply Z.ltb_ge in E1. apply Z.eqb_neq in E2.
      destruct (IH _ _ _ H) as [[-> Hz]|[k [Hk [-> [Hlt Hz]]]]].
      * right. exists 0%nat. split; [lia|]. split; [reflexivity|]. split; [lia|exact Hz].
      * right. exists (S k). split; [lia|]. split; [|split; [exact Hlt|exact Hz]].
        unfold cron_iter. rewrite Nat.iter_succ_r. reflexivity.
Qed.

(** A result of [GetLastCronTime] is strictly before [now], is not the zero time, and is reached from the first firing after [now] minus one year by fewer than [maxIterations] steps of the schedule. *)
Theorem GetLastCronTime_before_now (pw ps : string -> option CronSchedule) (crontab : string)
    (now t : Time) :
  GetLastCronTime pw ps crontab now = Ok t ->
  t < now /\ t <> zero_time
  /\ exists sched k, (pw crontab = Some sched \/ (pw crontab = None /\ ps crontab = Some sched))
       /\ (k < maxIterations)%nat /\ t = cron_iter sched k (Next sched (AddDate now (-1) 0 0)).
Proof.
  intros H. unfold GetLastCronTime in H.
  destruct (pw crontab) as [sched|] eqn:Ep;
    [|destruct (ps crontab) as [sched|] eqn:Es; [|discriminate]];
  unfold last_cron_time in H;
  (destruct (cron_walk_result sched now _ _ _ _ H) as [[-> Hz]|[k [Hk [-> [Hlt Hz]]]]];
   [exfalso; apply Hz; reflexivity|]);
  (split; [exact Hlt|split; [exact Hz|exists sched, k; split; [auto|split; [exact Hk|reflexivity]]]]).
Qed.

Lemma GetLastCronTime_before_now_witness :
  GetLastCronTime (fun _ => Some every_midnight) (fun _ => None) "0 0 0 * * *"
    (go_Date 2026 3 4 12 0 0 0) = Ok (go_Date 2026 3 4 0 0 0 0)
  /\ go_Date 2026 3 4 0 0 0 0 < go_Date 2026 3 4 12 0 0 0 /\ go_Date 2026 3 4 0 0 0 0 <> zero_time
  /\ exists sched k, ((fun _ : string => Some every_midnight) "0 0 0 * * *" = Some sched
                      \/ ((fun _ : string => Some every_midnight) "0 0 0 * * *" = None
                          /\ (fun _ : string => @None CronSchedule) "0 0 0 * * *" = Some sched))
       /\ (k < maxIterations)%nat
       /\ go_Date 2026 3 4 0 0 0 0 = cron_iter sched k (Next sched (AddDate (go_Date 2026 3 4 12 0 0 0) (-1) 0 0)).
Proof.
  assert (H : GetLastCronTime (fun _ => Some every_midnight) (fun _ => None) "0 0 0 * * *"
    (go_Date 2026 3 4 12 0 0 0) = Ok (go_Date 2026 3 4 0 0 0 0)) by (vm_compute; reflexivity).
  split; [exact H|].
  exact (GetLastCronTime_before_now (fun _ => Some every_midnight) (fun _ => None) "0 0 0 * * *"
           (go_Date 2026 3 4 12 0 0 0) (go_Date 2026 3 4 0 0 0 0) H).
Defined.

Lemma cron_walk_S (sched : CronSchedule) (now : Time) (fuel : nat) (lastTime prevTime : Time) :
  cron_walk sched now (S fuel) lastTime prevTime
  = if After lastTime now || Equal lastTime now then
      if IsZero prevTime then Err "no cron execution found before now" else Ok prevTime
    else cron_walk sched now fuel (Next sched lastTime) lastTime.
Proof. reflexivity. Qed.

(** When the first firing after [now] minus one year is not before [now], [GetLastCronTime] fails with "no cron execution found before now" (also when that firing is [now] itself). *)
Theorem GetLastCronTime_none_in_year (pw ps : string -> option CronSchedule) (crontab : string)
    (sched : CronSchedule) (now : Time) :
  (pw crontab = Some sched \/ (pw crontab = None /\ ps crontab = Some sched)) ->
  now <= Next sched (AddDate now (-1) 0 0) ->
  GetLastCronTime pw ps crontab now = Err "no cron execution found before now".
Proof.
  intros Hs Hn. rewrite (GetLastCronTime_parsed pw ps crontab sched now Hs).
  unfold last_cron_time. change maxIterations with (S 9999). rewrite cron_walk_S.
  unfold After, Equal.
  destruct (now <? Next sched (AddDate now (-1) 0 0)) eqn:E; cbn [orb].
  - reflexivity.
  - apply Z.ltb_ge in E. replace (Next sched (AddDate now (-1) 0 0) =? now) with true
      by (symmetry; apply Z.eqb_eq; lia). reflexivity.
Qed.



(** One run of the [Make] closure calls the operator at most once; it calls Start iff not in dry-run mode, the action is [start] and the state check did not report a transitional or running resource, symmetrically for Stop; the outcome then reflects the operator's result. *)
Theorem Make_operator_calls (stateChecker : Resource -> StateResult) (operator : Operator)
    (sch : Schedule) (action : string) (dryRun : bool) :
  let r := sch_Resource sch in
  let M := Make stateChecker operator sch action dryRun in
  (snd M = [] \/ snd M = [OpStart] \/ snd M = [OpStop])
  /\ (snd M = [OpStart] <-> dryRun = false /\ action = "start"
        /\ forall st tr, stateChecker r = Ok (st, tr) -> tr = false /\ st <> "running")
  /\ (snd M = [OpStop] <-> dryRun = false /\ action = "stop"
        /\ forall st tr, stateChecker r = Ok (st, tr) -> tr = false /\ st <> "stopped")
  /\ (forall op, snd M = [op] -> fst M = make_leave (operator op r)).
Proof.
  cbv zeta. unfold Make, make_enter.
  destruct dryRun; simpl.
  { split; [left; reflexivity|]. split; [split; [discriminate|intros [H _]; discriminate]|].
    split; [split; [discriminate|intros [H _]; discriminate]|]. intros op H; discriminate. }
  destruct (String.eqb action "start") eqn:Es; simpl.
  - apply String.eqb_eq in Es. subst action. simpl.
    destruct (stateChecker (sch_Resource sch)) as [[st tr]|e] eqn:Ec; simpl.
    + destruct tr; simpl.
      * split; [left; reflexivity|].
        split; [split; [discriminate|intros [_ [_ H]]; destruct (H st true eq_refl); discriminate]|].
        split; [split; [discriminate|intros [_ [H _]]; discriminate]|]. intros op H; discriminate.
      * destruct (String.eqb st "running") eqn:Er; simpl.
        -- apply String.eqb_eq in Er. subst st.
           split; [left; reflexivity|].
           split; [split; [discriminate|intros [_ [_ H]]; destruct (H _ false eq_refl) as [_ H']; congruence]|].
           split; [split; [discriminate|intros [_ [H _]]; discriminate]|]. intros op H; discriminate.
        -- apply String.eqb_neq in Er.
           split; [right; left; reflexivity|].
           split; [split; [intros _; split; [reflexivity|split; [reflexivity|]];
                           intros st' tr' H; injection H as <- <-; auto|reflexivity]|].
           split; [split; [discriminate|intros [_ [H _]]; discriminate]|].
           intros op H. injection H as <-. reflexivity.
    + split; [right; left; reflexivity|].
      split; [split; [intros _; split; [reflexivity|split; [reflexivity|]];
                      intros st' tr' H; discriminate|reflexivity]|].
      split; [split; [discriminate|intros [_ [H _]]; discriminate]|].
      intros op H. injection H as <-. reflexivity.
  - apply String.eqb_neq in Es.
    destruct (String.eqb action "stop") eqn:Et; simpl.
    + apply String.eqb_eq in Et. subst action. simpl.
      destruct (stateChecker (sch_Resource sch)) as [[st tr]|e] eqn:Ec; simpl.
      * destruct tr; simpl.
        -- split; [left; reflexivity|].
           split; [split; [discriminate|intros [_ [H _]]; discriminate]|].
           split; [split; [discriminate|intros [_ [_ H]]; destruct (H st true eq_refl); discriminate]|].
           intros op H; discriminate.
        -- destruct (String.eqb st "stopped") eqn:Er; simpl.
           ++ apply String.eqb_eq in Er. subst st.
              split; [left; reflexivity|].
              split; [split; [discriminate|intros [_ [H _]]; discriminate]|].
              split; [split; [discriminate|intros [_ [_ H]]; destruct (H _ false eq_refl) as [_ H']; congruence]|].
              intros op H; discriminate.
           ++ apply String.eqb_neq in Er.
              split; [right; right; reflexivity|].
              split; [split; [discriminate|intros [_ [H _]]; discriminate]|].
              split; [split; [intros _; split; [reflexivity|split; [reflexivity|]];
                              intros st' tr' H; injection H as <- <-; auto|reflexivity]|].
              intros op H. injection H as <-. reflexivity.
      * split; [right; right; reflexivity|].
        split; [split; [discriminate|intros [_ [H _]]; discriminate]|].
        split; [split; [intros _; split; [reflexivity|split; [reflexivity|]];
                        intros st' tr' H; discriminate|reflexivity]|].
        intros op H. injection H as <-. reflexivity.
    + apply String.eqb_neq in Et. simpl.
      split; [left; reflexivity|].
      split; [split; [discriminate|intros [_ [H _]]; congruence]|].
      split; [split; [discriminate|intros [_ [H _]]; congruence]|].
      intros op H; discriminate.
Qed.


(** [determineExpectedState] returns (running, start), (stopped, stop) or (empty, empty); the last iff neither action is enabled; with only start (only stop) enabled it is (running, start) (resp. (stopped, stop)). *)
Theorem determineExpectedState_cases (pw ps : string -> option CronSchedule) (sch : Schedule) (now : Time) :
  let hasStart := enabled (act_Start (sch_Actions sch)) in
  let hasStop := enabled (act_Stop (sch_Actions sch)) in
  let r := determineExpectedState pw ps sch now in
  (r = ("running", "start") \/ r = ("stopped", "stop") \/ r = ("", ""))
  /\ (r = ("", "") <-> hasStart = false /\ hasStop = false)
  /\ (hasStart = true /\ hasStop = false -> r = ("running", "start"))
  /\ (hasStop = true /\ hasStart = false -> r = ("stopped", "stop")).
Proof.
  cbv zeta. unfold determineExpectedState.
  destruct (sch_Actions sch) as [[st|] [sp|]]; simpl;
  [destruct (ac_Enabled st), (ac_Enabled sp); simpl
  |destruct (ac_Enabled st); simpl
  |destruct (ac_Enabled sp); simpl
  |].
  all: try solve [repeat split; auto; try discriminate; intros [H1 H2]; discriminate].
  destruct (getLastExecutionTime pw ps sch st now) as [ts|e];
    [destruct (getLastExecutionTime pw ps sch sp now) as [tp|e']; [destruct (After ts tp)|]|].
  all: repeat split; auto; try discriminate; intros [H1 H2]; discriminate.
Qed.

Lemma check_schedule_In (pw ps : string -> option CronSchedule) getState now sch s :
  In s (check_schedule pw ps getState now sch) <->
  exists actual expected action,
    getState (sch_Resource sch) = Ok (actual, false)
    /\ determineExpectedState pw ps sch now = (expected, action)
    /\ action <> "" /\ actual <> expected
    /\ s = mkSubmission (sch_Name sch ++ ":validator:" ++ action) sch action.
Proof.
  unfold check_schedule.
  destruct (getState (sch_Resource sch)) as [[actual tr]|e] eqn:Eg.
  - destruct tr.
    + split; [intros []|intros (a & ex & ac & H & _); discriminate].
    + destruct (determineExpectedState pw ps sch now) as [ex ac] eqn:Ed.
      destruct (String.eqb ac "") eqn:Ea.
      * apply String.eqb_eq in Ea. subst ac.
        split; [intros []|intros (a & ex' & ac' & H1 & H2 & H3 & _)].
        injection H2 as <- <-. congruence.
      * apply String.eqb_neq in Ea.
        destruct (String.eqb actual ex) eqn:Ee; simpl.
        -- apply String.eqb_eq in Ee. subst ex.
           split; [intros []|intros (a & ex' & ac' & H1 & H2 & H3 & H4 & _)].
           injection H1 as <-. injection H2 as <- <-. congruence.
        -- apply String.eqb_neq in Ee.
           split.
           ++ intros [<-|[]]. exists actual, ex, ac. auto.
           ++ intros (a & ex' & ac' & H1 & H2 & H3 & H4 & ->).
              injection H1 as <-. injection H2 as <- <-. left. reflexivity.
  - split; [intros []|intros (a & ex & ac & H & _); discriminate].
Qed.



Lemma ParseTime_eq (t : string) :
  ParseTime t = if String.eqb t "" then Err "empty time" else parseTimeString t.
Proof.
  unfold ParseTime. destruct (String.eqb t ""); [reflexivity|].
  destruct (parseTimeString t) as [[[h mi] s]|e] eqn:E; [|reflexivity].
  destruct (parseTimeString_range _ _ _ _ E) as (Hh & Hm & Hs).
  replace ((h <? 0) || (h >? 23) || (mi <? 0) || (mi >? 59) || (s <? 0) || (s >? 59)) with false;
    [reflexivity|].
  symmetry. repeat rewrite orb_false_iff. rewrite !Z.ltb_ge, !Z.gtb_ltb, !Z.ltb_ge. lia.
Qed.

(** For a schedule type other than [cron], [ScheduleToJobDefinition] succeeds iff the validator's [getLastExecutionTime] succeeds, whatever [now]. *)
Theorem ScheduleToJobDefinition_agrees (pw ps : string -> option CronSchedule)
    (sch : Schedule) (action : ActionConfig) (now : Time) :
  sch_Type sch <> "cron" ->
  (exists j, ScheduleToJobDefinition sch action = Ok j)
  <-> (exists t, getLastExecutionTime pw ps sch action now = Ok t).
Proof.
  intros Hc. unfold ScheduleToJobDefinition, getLastExecutionTime.
  apply String.eqb_neq in Hc. rewrite Hc.
  destruct (String.eqb (sch_Type sch) "daily").
  { destruct (String.eqb (ac_Time action) "") eqn:Et;
      [split; intros [x H]; discriminate|].
    rewrite ParseTime_eq, Et. unfold GetLastDailyTime.
    destruct (parseTimeString (ac_Time action)) as [[[h mi] s]|e];
      [split; intros _; eexists; reflexivity|split; intros [x H]; discriminate]. }
  destruct (String.eqb (sch_Type sch) "weekly").
  { destruct (String.eqb (ac_Time action) "") eqn:Et;
      [split; intros [x H]; discriminate|].
    destruct ((ac_Day action <? 0) || (ac_Day action >? 6)) eqn:Ed;
      [split; intros [x H]; discriminate|].
    rewrite ParseTime_eq, Et. unfold GetLastWeeklyTime, ParseWeekday, weekday_of_int.
    replace ((0 <=? ac_Day action) && (ac_Day action <=? 6)) with true
      by (symmetry; apply orb_false_iff in Ed; destruct Ed as [E1 E2];
          rewrite Z.ltb_ge in E1; rewrite Z.gtb_ltb, Z.ltb_ge in E2;
          apply andb_true_iff; rewrite Z.leb_le, Z.leb_le; lia).
    destruct (parseTimeString (ac_Time action)) as [[[h mi] s]|e];
      [split; intros _; eexists; reflexivity|split; intros [x H]; discriminate]. }
  destruct (String.eqb (sch_Type sch) "monthly").
  { destruct (String.eqb (ac_Time action) "") eqn:Et;
      [split; intros [x H]; discriminate|].
    destruct ((ac_Day action <? 1) || (ac_Day action >? 31)) eqn:Ed;
      [split; intros [x H]; discriminate|].
    rewrite ParseTime_eq, Et. unfold GetLastMonthlyTime, ParseDayOfMonth. rewrite Ed.
    destruct (parseTimeString (ac_Time action)) as [[[h mi] s]|e];
      [split; intros _; eexists; reflexivity|split; intros [x H]; discriminate]. }
  split; intros [x H]; discriminate.
Qed.

(** A job definition built by [ScheduleToJobDefinition] is the crontab as given (type [cron], non-empty crontab) or a daily, weekly or monthly job with interval 1 at the time [parseTimeString] reads, on the configured weekday (0..6) or day of month (1..31). *)
Theorem ScheduleToJobDefinition_spec (sch : Schedule) (action : ActionConfig) (j : JobDefinition) :
  ScheduleToJobDefinition sch action = Ok j ->
  (sch_Type sch = "cron" /\ ac_Crontab action <> "" /\ j = CronJob (ac_Crontab action) false)
  \/ exists at_, parseTimeString (ac_Time action) = Ok at_
     /\ ((sch_Type sch = "daily" /\ j = DailyJob 1 at_)
         \/ (sch_Type sch = "weekly" /\ 0 <= ac_Day action <= 6 /\ j = WeeklyJob 1 (ac_Day action) at_)
         \/ (sch_Type sch = "monthly" /\ 1 <= ac_Day action <= 31
             /\ j = MonthlyJob 1 (ac_Day action) at_)).
Proof.
  unfold ScheduleToJobDefinition.
  destruct (String.eqb (sch_Type sch) "cron") eqn:Ec.
  { apply String.eqb_eq in Ec. destruct (String.eqb (ac_Crontab action) "") eqn:Et; [discriminate|].
    apply String.eqb_neq in Et. intros H. injection H as <-. left. auto. }
  destruct (String.eqb (sch_Type sch) "daily") eqn:Edl.
  { apply String.eqb_eq in Edl. destruct (String.eqb (ac_Time action) "") eqn:Et; [discriminate|].
    rewrite ParseTime_eq, Et. destruct (parseTimeString (ac_Time action)) as [a|e]; [|discriminate].
    intros H. injection H as <-. right. exists a. auto. }
  destruct (String.eqb (sch_Type sch) "weekly") eqn:Ew.
  { apply String.eqb_eq in Ew. destruct (String.eqb (ac_Time action) "") eqn:Et; [discriminate|].
    destruct ((ac_Day action <? 0) || (ac_Day action >? 6)) eqn:Ed; [discriminate|].
    apply orb_false_iff in Ed. destruct Ed as [E1 E2].
    rewrite Z.ltb_ge in E1. rewrite Z.gtb_ltb, Z.ltb_ge in E2.
    rewrite ParseTime_eq, Et. unfold ParseWeekday.
    destruct (parseTimeString (ac_Time action)) as [a|e]; [|discriminate].
    replace ((0 <=? ac_Day action) && (ac_Day action <=? 6)) with true
      by (symmetry; apply andb_true_iff; rewrite Z.leb_le, Z.leb_le; lia).
    intros H. injection H as <-. right. exists a. split; [reflexivity|]. right. left. auto. }
  destruct (String.eqb (sch_Type sch) "monthly") eqn:Em; [|discriminate].
  apply String.eqb_eq in Em. destruct (String.eqb (ac_Time action) "") eqn:Et; [discriminate|].
  destruct ((ac_Day action <? 1) || (ac_Day action >? 31)) eqn:Ed; [discriminate|].
  rewrite ParseTime_eq, Et. unfold ParseDayOfMonth. rewrite Ed.
  apply orb_false_iff in Ed. destruct Ed as [E1 E2].
  rewrite Z.ltb_ge in E1. rewrite Z.gtb_ltb, Z.ltb_ge in E2.
  destruct (parseTimeString (ac_Time action)) as [a|e]; [|discriminate].
  intros H. injection H as <-. right. exists a. split; [reflexivity|]. right. right. auto.
Qed.

Section Reg.
Variable definition_ok : JobDefinition -> bool.

Lemma register_action_ok jobs sch a action dryRun jobs' u :
  register_action definition_ok jobs sch a action dryRun = (jobs', Ok u) ->
  exists added, jobs' = (jobs ++ added)%list
  /\ map job_entry added = (if enabled a then [(sch_Name sch ++ ":" ++ action, Task_Make sch action dryRun)] else [])
  /\ Forall (fun j => job_Tags j = [managedScheduleTag]) added.
Proof.
  unfold register_action, enabled.
  destruct a as [ac|]; [|intros H; injection H as <- _; exists []; rewrite app_nil_r; auto].
  destruct (ac_Enabled ac); [|intros H; injection H as <- _; exists []; rewrite app_nil_r; auto].
  destruct (ScheduleToJobDefinition sch ac) as [def|e]; [|discriminate].
  unfold addJobUnlocked, NewJob. destruct (definition_ok def); [|discriminate].
  intros H. injection H as <- _. eexists. split; [reflexivity|]. split; [reflexivity|].
  repeat constructor.
Qed.

Lemma registerScheduleUnlocked_ok jobs sch dryRun jobs' u :
  registerScheduleUnlocked definition_ok jobs sch dryRun = (jobs', Ok u) ->
  exists added, jobs' = (jobs ++ added)%list
  /\ map job_entry added = map (fun a => (sch_Name sch ++ ":" ++ a, Task_Make sch a dryRun)) (enabled_actions sch)
  /\ Forall (fun j => job_Tags j = [managedScheduleTag]) added.
Proof.
  unfold registerScheduleUnlocked, enabled_actions.
  destruct (register_action definition_ok jobs sch (act_Start (sch_Actions sch)) "start" dryRun)
    as [j1 [u1|e]] eqn:E1; [|discriminate].
  intros E2.
  destruct (register_action_ok _ _ _ _ _ _ _ E1) as (a1 & -> & M1 & T1).
  destruct (register_action_ok _ _ _ _ _ _ _ E2) as (a2 & -> & M2 & T2).
  exists (a1 ++ a2)%list. rewrite app_assoc. split; [reflexivity|].
  split; [|apply Forall_app; auto].
  rewrite !map_app, M1, M2.
  destruct (enabled (act_Start (sch_Actions sch))), (enabled (act_Stop (sch_Actions sch))); reflexivity.
Qed.

Lemma register_all_ok schedules dryRun : forall jobs jobs' u,
  register_all definition_ok jobs schedules dryRun = (jobs', Ok u) ->
  exists added, jobs' = (jobs ++ added)%list
  /\ map job_entry added = expected_jobs schedules dryRun
  /\ Forall (fun j => job_Tags j = [managedScheduleTag]) added.
Proof.
  induction schedules as [|sch rest IH]; intros jobs jobs' u; simpl.
  - intros H. injection H as <- _. exists []. rewrite app_nil_r. auto.
  - destruct (registerScheduleUnlocked definition_ok jobs sch dryRun) as [j1 [u1|e]] eqn:E1;
      [|discriminate].
    intros E2.
    destruct (registerScheduleUnlocked_ok _ _ _ _ _ E1) as (a1 & -> & M1 & T1).
    destruct (IH _ _ _ E2) as (a2 & -> & M2 & T2).
    exists (a1 ++ a2)%list. rewrite app_assoc. split; [reflexivity|].
    split; [rewrite map_app, M1, M2; reflexivity|apply Forall_app; auto].
Qed.

Lemma register_all_err schedules dryRun : forall jobs jobs' e,
  register_all definition_ok jobs schedules dryRun = (jobs', Err e) ->
  exists pre sch post jobs1 u,
    schedules = (pre ++ sch :: post)%list
    /\ register_all definition_ok jobs pre dryRun = (jobs1, Ok u)
    /\ registerScheduleUnlocked definition_ok jobs1 sch dryRun = (jobs', Err e).
Proof.
  induction schedules as [|sch rest IH]; intros jobs jobs' e; simpl; [discriminate|].
  destruct (registerScheduleUnlocked definition_ok jobs sch dryRun) as [j1 [u1|e1]] eqn:E1.
  - intros E2. destruct (IH _ _ _ E2) as (pre & s & post & jobs1 & u & -> & H1 & H2).
    exists (sch :: pre), s, post, jobs1, u. simpl. rewrite E1. auto.
  - intros H. injection H as -> ->. exists [], sch, rest, jobs, tt. auto.
Qed.
End Reg.

(** After a successful [ReplaceSchedules] the job set holds, as a multiset (gocron keeps its jobs in a map keyed by random IDs, so no order is claimed), the previous unmanaged jobs and one managed job per enabled action of each schedule, named [<schedule>:start] / [<schedule>:stop]. *)
Theorem ReplaceSchedules_ok (definition_ok : JobDefinition -> bool) (s s' : Scheduler)
    (schedules : list Schedule) (dryRun : bool) (u : unit) :
  ReplaceSchedules definition_ok s schedules dryRun = (s', Ok u) ->
  exists jobs added,
    sched_jobs s = Some jobs
    /\ (exists jobs', sched_jobs s' = Some jobs'
                    /\ Permutation jobs' (RemoveByTags managedScheduleTag jobs ++ added)%list)
    /\ Permutation (map job_entry added) (expected_jobs schedules dryRun)
    /\ Forall (fun j => job_Tags j = [managedScheduleTag]) added.
Proof.
  unfold ReplaceSchedules. destruct (sched_jobs s) as [jobs|]; [|discriminate].
  destruct (register_all definition_ok (RemoveByTags managedScheduleTag jobs) schedules dryRun)
    as [j r] eqn:E.
  intros H. injection H as <- ->.
  destruct (register_all_ok _ _ _ _ _ _ E) as (added & -> & M & T).
  exists jobs, added. rewrite M. split; [reflexivity|].
  split; [eexists; split; [reflexivity|apply Permutation_refl]|].
  split; [apply Permutation_refl|exact T].
Qed.

(** A failing [ReplaceSchedules] either found the scheduler uninitialised and changed nothing, or registered the schedules before the first failing one, kept what that one had registered before failing, and registered none after it. *)
Theorem ReplaceSchedules_err (definition_ok : JobDefinition -> bool) (s s' : Scheduler)
    (schedules : list Schedule) (dryRun : bool) (e : string) :
  ReplaceSchedules definition_ok s schedules dryRun = (s', Err e) ->
  (sched_jobs s = None /\ s' = s)
  \/ exists jobs pre sch post jobs1 jobs' u,
       sched_jobs s = Some jobs
       /\ schedules = (pre ++ sch :: post)%list
       /\ register_all definition_ok (RemoveByTags managedScheduleTag jobs) pre dryRun = (jobs1, Ok u)
       /\ registerScheduleUnlocked definition_ok jobs1 sch dryRun = (jobs', Err e)
       /\ sched_jobs s' = Some jobs'.
Proof.
  unfold ReplaceSchedules. destruct (sched_jobs s) as [jobs|] eqn:Es.
  - destruct (register_all definition_ok (RemoveByTags managedScheduleTag jobs) schedules dryRun)
      as [j r] eqn:E.
    intros H. injection H as <- ->.
    destruct (register_all_err _ _ _ _ _ _ E) as (pre & sch & post & jobs1 & u & -> & H1 & H2).
    right. exists jobs, pre, sch, post, jobs1, j, u. auto.
  - intros H. injection H as <- _. left. auto.
Qed.

Lemma list_ascii_of_string_app (a b : string) :
  list_ascii_of_string (a ++ b) = (list_ascii_of_string a ++ list_ascii_of_string b)%list.
Proof. induction a as [|c a IH]; simpl; [reflexivity|rewrite IH; reflexivity]. Qed.

Lemma digit_char_val (d : Z) : 0 <= d <= 9 -> digit_val (digit_char d) = Some d.
Proof.
  intros H.
  assert (d = 0 \/ d = 1 \/ d = 2 \/ d = 3 \/ d = 4 \/ d = 5 \/ d = 6 \/ d = 7 \/ d = 8 \/ d = 9)
    as Hd by lia.
  repeat (destruct Hd as [->|Hd]; [reflexivity|]). subst d. reflexivity.
Qed.

Lemma digit_char_not_space (d : Z) : 0 <= d <= 9 ->
  (Ascii.eqb (digit_char d) " "%char || Ascii.eqb (digit_char d) (Ascii.ascii_of_nat 9)
   || Ascii.eqb (digit_char d) (Ascii.ascii_of_nat 13)) = false
  /\ Ascii.eqb (digit_char d) "-"%char = false /\ Ascii.eqb (digit_char d) "+"%char = false.
Proof.
  intros H.
  assert (d = 0 \/ d = 1 \/ d = 2 \/ d = 3 \/ d = 4 \/ d = 5 \/ d = 6 \/ d = 7 \/ d = 8 \/ d = 9)
    as Hd by lia.
  repeat (destruct Hd as [->|Hd]; [split; [reflexivity|split; reflexivity]|]). subst d.
  split; [reflexivity|split; reflexivity].
Qed.

Lemma scan_int_pad2 (v : Z) (rest : string) :
  0 <= v <= 99 -> starts_without_digit rest ->
  scan_int (list_ascii_of_string (pad2 v ++ rest)) = Some (v, list_ascii_of_string rest).
Proof.
  intros Hv Hr.
  assert (H1 : 0 <= v / 10 <= 9).
  { split; [apply Z.div_pos; lia|]. assert (v / 10 < 10) by (apply Z.div_lt_upper_bound; lia). lia. }
  assert (H2 : 0 <= v mod 10 <= 9) by (pose proof (Z.mod_pos_bound v 10); lia).
  destruct (digit_char_not_space _ H1) as (Hs & Hm & Hp).
  pose proof (digit_char_val _ H1) as Ha. pose proof (digit_char_val _ H2) as Hb.
  unfold pad2. simpl list_ascii_of_string.
  generalize dependent (digit_char (v mod 10)). generalize dependent (digit_char (v / 10)).
  intros a Hs Hm Hp Ha b Hb.
  unfold scan_int. simpl skip_space. rewrite Hs. simpl. rewrite Hm, Hp.
  simpl. rewrite Ha, Hb.
  match goal with |- context [scan_digits _ ?acc 2] =>
    replace acc with v by (pose proof (Z.div_mod v 10); lia) end.
  assert (E : scan_digits (list_ascii_of_string rest) v 2 = (v, 2%nat, list_ascii_of_string rest)).
  { destruct rest as [|c r]; simpl in *; [reflexivity|rewrite Hr; reflexivity]. }
  rewrite E. cbv beta iota zeta delta [Nat.eqb].
  change (match v with 0 => 0 | Z.pos y => Z.pos y | Z.neg y => Z.neg y end) with (1 * v).
  rewrite Z.mul_1_l.
  match goal with |- context [if ?c then _ else _] =>
    replace c with true by (symmetry; apply andb_true_iff; rewrite Z.leb_le, Z.ltb_lt; lia) end.
  reflexivity.
Qed.

Lemma scan_sep_int_colon (x : string) :
  scan_sep_int (list_ascii_of_string (":" ++ x)) = scan_int (list_ascii_of_string x).
Proof. reflexivity. Qed.

(** A time written [HH:MM:SS] (or [HH:MM]) with two digits per field and in range is read back by [parseTimeString] as the same hour, minute and second (second 0), whatever text follows that does not start with a digit (or a colon). *)
Theorem parseTimeString_roundtrip (h mi s : Z) (rest : string) :
  0 <= h <= 23 -> 0 <= mi <= 59 -> 0 <= s <= 59 -> starts_without_digit rest ->
  parseTimeString (pad2 h ++ ":" ++ pad2 mi ++ ":" ++ pad2 s ++ rest) = Ok (h, mi, s)
  /\ ((match rest with String c _ => c <> ":"%char | EmptyString => True end) ->
      parseTimeString (pad2 h ++ ":" ++ pad2 mi ++ rest) = Ok (h, mi, 0)).
Proof.
  intros Hh Hm Hs Hr.
  assert (Hc : starts_without_digit (":" ++ pad2 mi ++ ":" ++ pad2 s ++ rest)) by reflexivity.
  assert (Hc2 : starts_without_digit (":" ++ pad2 s ++ rest)) by reflexivity.
  split.
  - unfold parseTimeString, sscanf_hms.
    rewrite (scan_int_pad2 h _ ltac:(lia) Hc), scan_sep_int_colon.
    rewrite (scan_int_pad2 mi _ ltac:(lia) Hc2), scan_sep_int_colon.
    rewrite (scan_int_pad2 s _ ltac:(lia) Hr).
    cbv beta iota zeta delta [andb Nat.ltb Nat.leb].
    match goal with |- (if ?c then _ else _) = _ =>
      replace c with false; [reflexivity|] end.
    symmetry. repeat rewrite orb_false_iff. rewrite !Z.ltb_ge, !Z.gtb_ltb, !Z.ltb_ge. lia.
  - intros Hcol.
    assert (Hc' : starts_without_digit (":" ++ pad2 mi ++ rest)) by reflexivity.
    unfold parseTimeString, sscanf_hms.
    rewrite (scan_int_pad2 h _ ltac:(lia) Hc'), scan_sep_int_colon.
    rewrite (scan_int_pad2 mi _ ltac:(lia) Hr).
    assert (E : scan_sep_int (list_ascii_of_string rest) = None).
    { destruct rest as [|c r]; [reflexivity|]. unfold scan_sep_int, scan_lit. cbn [list_ascii_of_string].
      destruct (Ascii.eqb ":" c) eqn:Ec; [|reflexivity].
      apply Ascii.eqb_eq in Ec. congruence. }
    rewrite E.
    cbv beta iota zeta delta [andb Nat.ltb Nat.leb].
    match goal with |- (if ?c then _ else _) = _ =>
      replace c with false; [reflexivity|] end.
    symmetry. repeat rewrite orb_false_iff. rewrite !Z.ltb_ge, !Z.gtb_ltb, !Z.ltb_ge. lia.
Qed.


Lemma string_leb_total (x y : string) : String.leb x y = false -> String.leb y x = true.
Proof.
  unfold String.leb. rewrite (String.compare_antisym y x).
  destruct (String.compare x y); simpl; congruence.
Qed.

Lemma string_leb_trans (x y z : string) :
  String.leb x y = true -> String.leb y z = true -> String.leb x z = true.
Proof.
  unfold String.leb.
  destruct (String.compare x y) eqn:E1; try discriminate;
  destruct (String.compare y z) eqn:E2; try discriminate; intros _ _.
  - apply String.compare_eq_iff in E1. apply String.compare_eq_iff in E2. subst.
    destruct (String.compare z z) eqn:E; auto.
    pose proof (String.compare_antisym z z) as A. rewrite E in A. discriminate.
  - apply String.compare_eq_iff in E1. subst. rewrite E2. reflexivity.
  - apply String.compare_eq_iff in E2. subst. rewrite E1. reflexivity.
  - assert (H : OrdersEx.String_as_OT.lt x z).
    { apply (RelationClasses.StrictOrder_Transitive (StrictOrder := OrdersEx.String_as_OT.lt_strorder)) with y;
        assumption. }
    change (String.compare x z = Lt) in H. rewrite H. reflexivity.
Qed.

Lemma string_leb_antisym (x y : string) :
  String.leb x y = true -> String.leb y x = true -> x = y.
Proof.
  unfold String.leb. rewrite (String.compare_antisym y x).
  destruct (String.compare x y) eqn:E; simpl; try discriminate.
  - intros _ _. apply String.compare_eq_iff. exact E.
Qed.

Lemma insert_sorted_perm x l : Permutation (insert_sorted x l) (x :: l).
Proof.
  induction l as [|y l IH]; simpl; [auto|].
  destruct (String.leb x y); [auto|].
  eapply perm_trans; [apply perm_skip, IH|apply perm_swap].
Qed.

Lemma sort_Strings_perm l : Permutation (sort_Strings l) l.
Proof.
  induction l as [|x l IH]; simpl; [auto|].
  eapply perm_trans; [apply insert_sorted_perm|auto].
Qed.

Lemma insert_sorted_sorted x l : StronglySorted sle l -> StronglySorted sle (insert_sorted x l).
Proof.
  induction l as [|y l IH]; simpl; intros H.
  - repeat constructor.
  - inversion H as [|? ? Hs Hf]; subst.
    destruct (String.leb x y) eqn:E.
    + constructor; [exact H|]. constructor; [exact E|].
      eapply Forall_impl; [|exact Hf]. intros z Hz. eapply string_leb_trans; eauto.
    + constructor; [apply IH, Hs|].
      apply (Permutation_Forall (Permutation_sym (insert_sorted_perm x l))).
      constructor; [apply string_leb_total, E|exact Hf].
Qed.

Lemma sort_Strings_sorted l : StronglySorted sle (sort_Strings l).
Proof. induction l; simpl; [constructor|apply insert_sorted_sorted; auto]. Qed.

Lemma sorted_perm_eq (l1 l2 : list string) :
  StronglySorted sle l1 -> StronglySorted sle l2 -> Permutation l1 l2 -> l1 = l2.
Proof.
  revert l2. induction l1 as [|x l1 IH]; intros l2 H1 H2 P.
  - symmetry. apply Permutation_nil, P.
  - destruct l2 as [|y l2]; [apply Permutation_sym, Permutation_nil in P; discriminate|].
    inversion H1 as [|? ? S1 F1]; inversion H2 as [|? ? S2 F2]; subst.
    assert (Exy : x = y).
    { assert (Iy : In y (x :: l1)) by (apply (Permutation_in y (Permutation_sym P)); left; auto).
      assert (Ix : In x (y :: l2)) by (apply (Permutation_in x P); left; auto).
      destruct Iy as [->|Iy]; [reflexivity|]. destruct Ix as [<-|Ix]; [reflexivity|].
      apply string_leb_antisym.
      - rewrite Forall_forall in F1. apply F1, Iy.
      - rewrite Forall_forall in F2. apply F2, Ix. }
    subst y. f_equal. apply IH; auto. eapply Permutation_cons_inv, P.
Qed.

Lemma sort_Strings_perm_eq (l1 l2 : list string) :
  Permutation l1 l2 -> sort_Strings l1 = sort_Strings l2.
Proof.
  intros P. apply sorted_perm_eq; try apply sort_Strings_sorted.
  eapply perm_trans; [apply sort_Strings_perm|].
  eapply perm_trans; [exact P|apply Permutation_sym, sort_Strings_perm].
Qed.

Lemma hash_files_congr join (rf1 rf2 : string -> Result string) path names :
  (forall n, In n names -> rf1 (join path n) = rf2 (join path n)) ->
  hash_files join rf1 path names = hash_files join rf2 path names.
Proof.
  induction names as [|n rest IH]; intros H; simpl; [reflexivity|].
  rewrite (H n (or_introl eq_refl)), IH; [reflexivity|].
  intros m Hm. apply H. right. exact Hm.
Qed.

Lemma calcDirSignature_congr sha join lower
    (rd1 rd2 : string -> Result (list DirEntry)) (rf1 rf2 : string -> Result string)
    (path : string) (E1 E2 : list DirEntry) :
  rd1 path = Ok E1 -> rd2 path = Ok E2 ->
  Permutation (map de_Name (filter (is_schedule_entry lower) E1))
              (map de_Name (filter (is_schedule_entry lower) E2)) ->
  (forall n, In n (map de_Name (filter (is_schedule_entry lower) E1)) ->
     rf1 (join path n) = rf2 (join path n)) ->
  calcDirSignature sha join lower rd1 rf1 path = calcDirSignature sha join lower rd2 rf2 path.
Proof.
  intros H1 H2 P Hf. unfold calcDirSignature. rewrite H1, H2.
  rewrite <- (sort_Strings_perm_eq _ _ P).
  rewrite (hash_files_congr join rf1 rf2); [reflexivity|].
  intros n Hn. apply Hf.
  apply (Permutation_in n (sort_Strings_perm _)), Hn.
Qed.

(** [calcDirSignature] depends only on the set of names of the non-directory [.yaml]/[.yml] entries and their contents: reordering entries or changing directories and other files does not change it. *)
Theorem calcDirSignature_schedule_files_only (sha256 : string -> Signature)
    (filepath_Join : string -> string -> string) (ToLower : string -> string)
    (readDir1 readDir2 : string -> Result (list DirEntry))
    (readFile1 readFile2 : string -> Result string) (path : string) (E1 E2 : list DirEntry) :
  readDir1 path = Ok E1 -> readDir2 path = Ok E2 ->
  Permutation (map de_Name (filter (is_schedule_entry ToLower) E1))
              (map de_Name (filter (is_schedule_entry ToLower) E2)) ->
  (forall n, In n (map de_Name (filter (is_schedule_entry ToLower) E1)) ->
     readFile1 (filepath_Join path n) = readFile2 (filepath_Join path n)) ->
  calcDirSignature sha256 filepath_Join ToLower readDir1 readFile1 path
  = calcDirSignature sha256 filepath_Join ToLower readDir2 readFile2 path.
Proof. apply calcDirSignature_congr. Qed.

(** After a signature was recorded, a [tick] over a directory that differs only in directories, non-schedule files or entry order does not call the reload callback and keeps the reloader state. *)
Theorem tick_ignores_non_schedule_changes (sha256 : string -> Signature)
    (filepath_Join : string -> string -> string) (ToLower : string -> string)
    (readDir1 readDir2 : string -> Result (list DirEntry))
    (readFile1 readFile2 : string -> Result string) (path : string) (E1 E2 : list DirEntry)
    (r : Reloader) (onChange : Result unit) :
  calcDirSignature sha256 filepath_Join ToLower readDir1 readFile1 path = Ok (lastSig r) ->
  hasLastSig r = true ->
  readDir1 path = Ok E1 -> readDir2 path = Ok E2 ->
  Permutation (map de_Name (filter (is_schedule_entry ToLower) E1))
              (map de_Name (filter (is_schedule_entry ToLower) E2)) ->
  (forall n, In n (map de_Name (filter (is_schedule_entry ToLower) E1)) ->
     readFile1 (filepath_Join path n) = readFile2 (filepath_Join path n)) ->
  tick r (calcDirSignature sha256 filepath_Join ToLower readDir2 readFile2 path) onChange = (r, false).
Proof.
  intros Hs Hh H1 H2 P Hf.
  rewrite <- (calcDirSignature_congr sha256 filepath_Join ToLower readDir1 readDir2 readFile1 readFile2
                path E1 E2 H1 H2 P Hf), Hs.
  unfold tick. rewrite Hh, Z.eqb_refl. reflexivity.
Qed.

(** The signature does not separate files unambiguously: one schedule file [a.yaml] whose contents hold a NUL, the name [b.yaml] and a NUL gives the same signature as the two files [a.yaml] and [b.yaml]. *)
Theorem calcDirSignature_nul_collision (sha256 : string -> Signature)
    (filepath_Join : string -> string -> string) (ToLower : string -> string) (path : string) :
  ToLower ".yaml" = ".yaml" ->
  filepath_Join path "a.yaml" <> filepath_Join path "b.yaml" ->
  calcDirSignature sha256 filepath_Join ToLower
    (fun _ => Ok [mkDirEntry "a.yaml" false])
    (fun _ => Ok ("x" ++ NUL ++ "b.yaml" ++ NUL ++ "y"))
    path
  = calcDirSignature sha256 filepath_Join ToLower
    (fun _ => Ok [mkDirEntry "a.yaml" false; mkDirEntry "b.yaml" false])
    (fun p => if String.eqb p (filepath_Join path "a.yaml") then Ok "x" else Ok "y")
    path.
Proof.
  intros Hl Hj. unfold calcDirSignature, is_schedule_entry.
  cbn [filter de_Name de_IsDir negb andb].
  change (filepath_Ext "a.yaml") with ".yaml". change (filepath_Ext "b.yaml") with ".yaml".
  rewrite Hl. simpl.
  rewrite String.eqb_refl.
  destruct (String.eqb (filepath_Join path "b.yaml") (filepath_Join path "a.yaml")) eqn:E.
  - apply String.eqb_eq in E. congruence.
  - reflexivity.
Qed.


(** The first version of [executor.Make] behaves as the current [Make] with [GetState] on [vm] and [k8s_cluster] resources; on other types it reports an error without calling the cloud, where the current [Make] calls the operator. *)
Theorem Make_legacy_vs_Make (c : YCClient) (operator : Operator) (sch : Schedule)
    (action : string) (dryRun : bool) :
  let ty := res_Type (sch_Resource sch) in
  ((ty = "vm" \/ ty = "k8s_cluster") ->
     Make_legacy c operator sch action dryRun = Make (GetState c) operator sch action dryRun)
  /\ (ty <> "vm" -> ty <> "k8s_cluster" -> dryRun = false ->
      (action = "start" \/ action = "stop") ->
      Make_legacy c operator sch action dryRun = (Out_error, [])
      /\ exists op, Make (GetState c) operator sch action dryRun
                    = (make_leave (operator op (sch_Resource sch)), [op])).
Proof.
  cbv zeta. split.
  - intros Hty. unfold Make_legacy, Make, make_enter.
    change (getCurrentState c) with (GetState c).
    destruct dryRun; [reflexivity|].
    replace (String.eqb (res_Type (sch_Resource sch)) "vm"
             || String.eqb (res_Type (sch_Resource sch)) "k8s_cluster") with true
      by (destruct Hty as [-> | ->]; reflexivity).
    cbn [negb].
    destruct (String.eqb action "start") eqn:Es;
      [apply String.eqb_eq in Es; subst action|];
      [|destruct (String.eqb action "stop") eqn:Et;
        [apply String.eqb_eq in Et; subst action|]]; cbn [String.eqb Ascii.eqb Bool.eqb orb negb andb].
    all: try reflexivity.
    all: destruct (GetState c (sch_Resource sch)) as [[st tr]|e]; [|reflexivity].
    all: destruct tr; [reflexivity|]; cbn [andb orb].
    all: destruct (String.eqb st _); reflexivity.
  - intros Hv Hk Hd Ha. subst dryRun.
    apply String.eqb_neq in Hv. apply String.eqb_neq in Hk.
    unfold Make_legacy, Make, make_enter, GetState. rewrite Hv, Hk. cbn.
    split; [reflexivity|].
    destruct Ha as [-> | ->]; cbn; eexists; reflexivity.
Qed.

(** The [parseTime] of the scheduler package and [schedule.ParseTime] accept the same strings with the same result. *)
Theorem parseTime_helper_agrees (value : string) :
  (forall x, parseTime_helper value = Ok x <-> ParseTime value = Ok x)
  /\ ((exists e, parseTime_helper value = Err e) <-> (exists e, ParseTime value = Err e)).
Proof.
  assert (E : parseTime_helper value = ParseTime value
              \/ ((exists e, parseTime_helper value = Err e) /\ (exists e, ParseTime value = Err e))).
  { unfold parseTime_helper, ParseTime, parseTimeString.
    destruct (String.eqb value ""); [left; reflexivity|].
    destruct (sscanf_hms value) as [[n [[p0 p1] p2]] err] eqn:Es.
    destruct (err && Nat.ltb n 2) eqn:Eerr; [right; split; eexists; reflexivity|].
    assert (Hn : Nat.eqb n 3 = Nat.leb 3 n).
    { unfold sscanf_hms in Es.
      destruct (scan_int (list_ascii_of_string value)) as [[a s]|];
        [|injection Es as <- _ _ _ <-; discriminate].
      destruct (scan_sep_int s) as [[b s']|]; [|injection Es as <- _ _ _ <-; discriminate].
      destruct (scan_sep_int s') as [[d s'']|]; injection Es as <- _ _ _ <-; reflexivity. }
    rewrite Hn.
    match goal with |- context [if ?c then Err "time out of range" else Ok ?v] =>
      destruct c eqn:Ec end.
    - right. split; eexists; reflexivity.
    - left. rewrite Ec. reflexivity. }
  destruct E as [E|[[e1 E1] [e2 E2]]].
  - rewrite E. split; [intros x; reflexivity|reflexivity].
  - rewrite E1, E2. split.
    + intros x. split; discriminate.
    + split; intros _; eexists; reflexivity.
Qed.

Lemma register_action_tasks definition_ok sch a action dryRun :
  Forall is_make_task (fst (register_action definition_ok [] sch a action dryRun)).
Proof.
  unfold register_action. destruct a as [ac|]; [|constructor].
  destruct (ac_Enabled ac); [|constructor].
  destruct (ScheduleToJobDefinition sch ac); [|constructor].
  unfold addJobUnlocked, NewJob. destruct (definition_ok _); simpl; [|constructor].
  constructor; [|constructor]. do 3 eexists. reflexivity.
Qed.

Lemma registerScheduleUnlocked_tasks definition_ok sch dryRun :
  Forall is_make_task (fst (registerScheduleUnlocked definition_ok [] sch dryRun)).
Proof.
  unfold registerScheduleUnlocked.
  pose proof (register_action_tasks definition_ok sch (act_Start (sch_Actions sch)) "start" dryRun) as T1.
  destruct (register_action definition_ok [] sch (act_Start (sch_Actions sch)) "start" dryRun)
    as [j1 [u|e]] eqn:E1; [|exact T1].
  destruct (register_action_frame definition_ok j1 sch (act_Stop (sch_Actions sch)) "stop" dryRun) as [E2 _].
  rewrite E2. simpl. apply Forall_app. split; [exact T1|].
  apply (register_action_tasks definition_ok sch _ "stop" dryRun).
Qed.

Lemma register_all_tasks definition_ok schedules dryRun :
  Forall is_make_task (fst (register_all definition_ok [] schedules dryRun)).
Proof.
  induction schedules as [|sch rest IH]; simpl; [constructor|].
  pose proof (registerScheduleUnlocked_tasks definition_ok sch dryRun) as T1.
  destruct (registerScheduleUnlocked definition_ok [] sch dryRun) as [j1 [u|e]] eqn:E1; [|exact T1].
  destruct (register_all_frame definition_ok rest dryRun j1) as [E2 _].
  rewrite E2. simpl. apply Forall_app. split; assumption.
Qed.

(** A job added through [Scheduler.AddJob] carries the managed tag, so the next [ReplaceSchedules] removes it. *)
Theorem AddJob_dropped_on_reload (definition_ok : JobDefinition -> bool) (s s1 : Scheduler)
    (def : JobDefinition) (name label : string) (u : unit)
    (schedules : list Schedule) (dryRun : bool) :
  AddJob definition_ok s def name (Task_Func label) = (s1, Ok u) ->
  In (mkJob name [managedScheduleTag] def (Task_Func label)) (jobs_of s1)
  /\ ~ In (mkJob name [managedScheduleTag] def (Task_Func label))
          (jobs_of (fst (ReplaceSchedules definition_ok s1 schedules dryRun))).
Proof.
  unfold AddJob. destruct (sched_jobs s) as [jobs|]; [|discriminate].
  unfold addJobUnlocked, NewJob. destruct (definition_ok def); [|discriminate].
  intros H. injection H as <- _. unfold jobs_of. split.
  { simpl. apply in_or_app. right. left. reflexivity. }
  unfold ReplaceSchedules. cbn [sched_jobs].
  destruct (register_all_frame definition_ok schedules dryRun
              (RemoveByTags managedScheduleTag (jobs ++ [mkJob name [managedScheduleTag] def (Task_Func label)])))
    as [E _].
  rewrite E. cbn [fst sched_jobs]. intros Hin. apply in_app_or in Hin. destruct Hin as [Hin|Hin].
  - unfold RemoveByTags in Hin. apply filter_In in Hin. destruct Hin as [_ Ht].
    unfold has_tag in Ht. simpl in Ht. discriminate.
  - pose proof (register_all_tasks definition_ok schedules dryRun) as T.
    rewrite Forall_forall in T. destruct (T _ Hin) as (sch & a & d & Ht). discriminate.
Qed.

(** ** Witnesses of the further properties *)

Lemma GetLastDailyTime_window_witness :
  exists t, GetLastDailyTime "09:00" (go_Date 2026 3 4 12 0 0 0) = Ok t
    /\ go_Date 2026 3 4 12 0 0 0 - day_ns <= t < go_Date 2026 3 4 12 0 0 0
    /\ t mod day_ns = at_offset 9 0 0
    /\ (t = go_Date 2026 3 4 12 0 0 0 - day_ns <-> daily_fire 9 0 0 (go_Date 2026 3 4 12 0 0 0)).
Proof.
  apply (GetLastDailyTime_window "09:00" (go_Date 2026 3 4 12 0 0 0) 9 0 0).
  vm_compute. reflexivity.
Defined.

Lemma GetLastWeeklyTime_window_witness :
  exists t, GetLastWeeklyTime "09:00" 1 (go_Date 2026 3 4 12 0 0 0) = Ok t
    /\ go_Date 2026 3 4 12 0 0 0 - 7 * day_ns < t <= go_Date 2026 3 4 12 0 0 0
    /\ Weekday t = 1 /\ t mod day_ns = at_offset 9 0 0
    /\ (t = go_Date 2026 3 4 12 0 0 0 <-> weekly_fire 1 9 0 0 (go_Date 2026 3 4 12 0 0 0)).
Proof.
  apply (GetLastWeeklyTime_window "09:00" 1 (go_Date 2026 3 4 12 0 0 0) 9 0 0).
  - vm_compute. reflexivity.
  - lia.
Defined.

Lemma GetLastMonthlyTime_at_fire_witness :
  GetLastMonthlyTime "09:00" 15 (go_Date 2026 3 15 9 0 0 0) = Ok (go_Date 2026 3 15 9 0 0 0).
Proof.
  apply (GetLastMonthlyTime_at_fire "09:00" 15 (go_Date 2026 3 15 9 0 0 0) 9 0 0).
  - vm_compute. reflexivity.
  - split; vm_compute; reflexivity.
Defined.

Lemma GetLastMonthlyTime_after_now_witness :
  GetLastMonthlyTime "10:00" 31 (go_Date 2026 3 31 8 0 0 0) = Ok (go_Date 2026 3 31 10 0 0 0)
  /\ go_Date 2026 3 31 8 0 0 0 < go_Date 2026 3 31 10 0 0 0.
Proof.
  apply (GetLastMonthlyTime_after_now "10:00" (go_Date 2026 3 31 8 0 0 0) 2026 3 31 10 0 0).
  - vm_compute. reflexivity.
  - vm_compute. reflexivity.
  - lia.
  - vm_compute. reflexivity.
  - vm_compute. reflexivity.
Defined.

Lemma GetLastCronTime_none_in_year_witness :
  GetLastCronTime (fun _ => Some every_new_year) (fun _ => None) "0 0 1 1 *"
    (go_Date 2026 1 1 0 0 0 0) = Err "no cron execution found before now".
Proof.
  apply (GetLastCronTime_none_in_year (fun _ => Some every_new_year) (fun _ => None) "0 0 1 1 *"
           every_new_year (go_Date 2026 1 1 0 0 0 0)).
  - left. reflexivity.
  - apply Z.leb_le. vm_compute. reflexivity.
Defined.

Lemma ScheduleToJobDefinition_agrees_witness :
  (exists j, ScheduleToJobDefinition (office_hours (mkResource "vm" "vm-1" "folder-1"))
               (mkActionConfig true "9:00:60" "" 0) = Ok j)
  <-> (exists t, getLastExecutionTime (fun _ => None) (fun _ => None)
                   (office_hours (mkResource "vm" "vm-1" "folder-1"))
                   (mkActionConfig true "9:00:60" "" 0) (go_Date 2026 3 4 12 0 0 0) = Ok t).
Proof.
  apply (ScheduleToJobDefinition_agrees (fun _ => None) (fun _ => None)
           (office_hours (mkResource "vm" "vm-1" "folder-1"))
           (mkActionConfig true "9:00:60" "" 0) (go_Date 2026 3 4 12 0 0 0)).
  cbn. discriminate.
Defined.

Lemma ScheduleToJobDefinition_spec_witness :
  (sch_Type (office_hours (mkResource "vm" "vm-1" "folder-1")) = "cron"
   /\ ac_Crontab (mkActionConfig true "9:5" "" 0) <> ""
   /\ DailyJob 1 (9, 5, 0) = CronJob (ac_Crontab (mkActionConfig true "9:5" "" 0)) false)
  \/ exists at_, parseTimeString (ac_Time (mkActionConfig true "9:5" "" 0)) = Ok at_
     /\ ((sch_Type (office_hours (mkResource "vm" "vm-1" "folder-1")) = "daily"
          /\ DailyJob 1 (9, 5, 0) = DailyJob 1 at_)
         \/ (sch_Type (office_hours (mkResource "vm" "vm-1" "folder-1")) = "weekly"
             /\ 0 <= ac_Day (mkActionConfig true "9:5" "" 0) <= 6
             /\ DailyJob 1 (9, 5, 0) = WeeklyJob 1 (ac_Day (mkActionConfig true "9:5" "" 0)) at_)
         \/ (sch_Type (office_hours (mkResource "vm" "vm-1" "folder-1")) = "monthly"
             /\ 1 <= ac_Day (mkActionConfig true "9:5" "" 0) <= 31
             /\ DailyJob 1 (9, 5, 0) = MonthlyJob 1 (ac_Day (mkActionConfig true "9:5" "" 0)) at_)).
Proof.
  apply (ScheduleToJobDefinition_spec (office_hours (mkResource "vm" "vm-1" "folder-1"))
           (mkActionConfig true "9:5" "" 0) (DailyJob 1 (9, 5, 0))).
  vm_compute. reflexivity.
Defined.

Lemma ReplaceSchedules_ok_witness :
  exists jobs added,
    sched_jobs example_engine = Some jobs
    /\ (exists jobs', sched_jobs (fst (ReplaceSchedules (fun _ => true) example_engine [example_new] false))
                       = Some jobs'
                    /\ Permutation jobs' (RemoveByTags managedScheduleTag jobs ++ added)%list)
    /\ Permutation (map job_entry added) (expected_jobs [example_new] false)
    /\ Forall (fun j => job_Tags j = [managedScheduleTag]) added.
Proof.
  apply (ReplaceSchedules_ok (fun _ => true) example_engine
           (fst (ReplaceSchedules (fun _ => true) example_engine [example_new] false))
           [example_new] false tt).
  vm_compute. reflexivity.
Defined.

Lemma ReplaceSchedules_err_witness :
  (sched_jobs example_engine = None
   /\ fst (ReplaceSchedules (fun _ => true) example_engine [example_new; example_bad] false)
      = example_engine)
  \/ exists jobs pre sch post jobs1 jobs' u,
       sched_jobs example_engine = Some jobs
       /\ [example_new; example_bad] = (pre ++ sch :: post)%list
       /\ register_all (fun _ => true) (RemoveByTags managedScheduleTag jobs) pre false = (jobs1, Ok u)
       /\ registerScheduleUnlocked (fun _ => true) jobs1 sch false = (jobs', Err "time out of range")
       /\ sched_jobs (fst (ReplaceSchedules (fun _ => true) example_engine [example_new; example_bad] false))
          = Some jobs'.
Proof.
  apply (ReplaceSchedules_err (fun _ => true) example_engine
           (fst (ReplaceSchedules (fun _ => true) example_engine [example_new; example_bad] false))
           [example_new; example_bad] false "time out of range").
  vm_compute. reflexivity.
Defined.

Lemma parseTimeString_roundtrip_witness :
  parseTimeString (pad2 9 ++ ":" ++ pad2 5 ++ ":" ++ pad2 7 ++ " UTC") = Ok (9, 5, 7)
  /\ ((match " UTC" with String c _ => c <> ":"%char | EmptyString => True end) ->
      parseTimeString (pad2 9 ++ ":" ++ pad2 5 ++ " UTC") = Ok (9, 5, 0)).
Proof.
  apply (parseTimeString_roundtrip 9 5 7 " UTC"); try lia.
  vm_compute. reflexivity.
Defined.

Lemma calcDirSignature_schedule_files_only_witness :
  calcDirSignature (fun s => Z.of_nat (String.length s)) example_join ascii_ToLower
    (fun _ => Ok example_dir_one) (fun _ => Ok "kind: Schedule") "schedules"
  = calcDirSignature (fun s => Z.of_nat (String.length s)) example_join ascii_ToLower
    (fun _ => Ok example_dir_two) example_read "schedules".
Proof.
  apply (calcDirSignature_schedule_files_only (fun s => Z.of_nat (String.length s)) example_join
           ascii_ToLower (fun _ => Ok example_dir_one) (fun _ => Ok example_dir_two)
           (fun _ => Ok "kind: Schedule") example_read "schedules" example_dir_one example_dir_two).
  - reflexivity.
  - reflexivity.
  - vm_compute. apply perm_swap.
  - vm_compute. intros n [<-|[<-|[]]]; reflexivity.
Defined.

Lemma tick_ignores_non_schedule_changes_witness :
  tick (mkReloader (Z.of_nat (String.length
          ("day.YML" ++ NUL ++ "kind: Schedule" ++ NUL ++ "night.yaml" ++ NUL ++ "kind: Schedule" ++ NUL)))
          true)
    (calcDirSignature (fun s => Z.of_nat (String.length s)) example_join ascii_ToLower
       (fun _ => Ok example_dir_two) example_read "schedules") (Ok tt)
  = (mkReloader (Z.of_nat (String.length
          ("day.YML" ++ NUL ++ "kind: Schedule" ++ NUL ++ "night.yaml" ++ NUL ++ "kind: Schedule" ++ NUL)))
          true, false).
Proof.
  apply (tick_ignores_non_schedule_changes (fun s => Z.of_nat (String.length s)) example_join
           ascii_ToLower (fun _ => Ok example_dir_one) (fun _ => Ok example_dir_two)
           (fun _ => Ok "kind: Schedule") example_read "schedules" example_dir_one example_dir_two).
  - vm_compute. reflexivity.
  - reflexivity.
  - reflexivity.
  - reflexivity.
  - vm_compute. apply perm_swap.
  - vm_compute. intros n [<-|[<-|[]]]; reflexivity.
Defined.

Lemma calcDirSignature_nul_collision_witness :
  calcDirSignature (fun s => Z.of_nat (String.length s)) example_join ascii_ToLower
    (fun _ => Ok [mkDirEntry "a.yaml" false])
    (fun _ => Ok ("x" ++ NUL ++ "b.yaml" ++ NUL ++ "y"))
    "schedules"
  = calcDirSignature (fun s => Z.of_nat (String.length s)) example_join ascii_ToLower
    (fun _ => Ok [mkDirEntry "a.yaml" false; mkDirEntry "b.yaml" false])
    (fun p => if String.eqb p (example_join "schedules" "a.yaml") then Ok "x" else Ok "y")
    "schedules".
Proof.
  apply (calcDirSignature_nul_collision (fun s => Z.of_nat (String.length s)) example_join
           ascii_ToLower "schedules").
  - vm_compute. reflexivity.
  - vm_compute. discriminate.
Defined.

Lemma AddJob_dropped_on_reload_witness :
  In (mkJob "custom" [managedScheduleTag] (DailyJob 1 (9, 0, 0)) (Task_Func "custom"))
     (jobs_of (fst (AddJob (fun _ => true) example_engine (DailyJob 1 (9, 0, 0)) "custom"
                      (Task_Func "custom"))))
  /\ ~ In (mkJob "custom" [managedScheduleTag] (DailyJob 1 (9, 0, 0)) (Task_Func "custom"))
          (jobs_of (fst (ReplaceSchedules (fun _ => true)
                           (fst (AddJob (fun _ => true) example_engine (DailyJob 1 (9, 0, 0)) "custom"
                                   (Task_Func "custom")))
                           [example_new] false))).
Proof.
  apply (AddJob_dropped_on_reload (fun _ => true) example_engine
           (fst (AddJob (fun _ => true) example_engine (DailyJob 1 (9, 0, 0)) "custom" (Task_Func "custom")))
           (DailyJob 1 (9, 0, 0)) "custom" "custom" tt [example_new] false).
  vm_compute. reflexivity.
Defined.
